(** * i3d.py: the frame-clip dataset, the I3D wrapper and the training loop

    A shallow embedding of [src/i3d.py].  Python values are modelled as the
    script uses them:
    - Python [int] is [Z]; Python [float] (and pandas' float64 cells) is the
      kernel's binary64 [float];
    - a raised exception is the [Raise] branch of [result];
    - calls that touch the outside world ([os.path.exists], [read_image],
      [print]) are recorded, in order, in the event log of the [Py] monad;
    - a tensor is its shape together with its element function; pixel
      arithmetic done by the framework (scaling, resampling, standardising)
      is kept behind the [PixelOps] interface. *)

From Stdlib Require Import ZArith List String Ascii Bool Lia PeanoNat QArith.
From Stdlib Require Import Floats DecimalString.
Import ListNotations.
Close Scope Q_scope.

Set Implicit Arguments.

(** ** Exceptions and results *)

Inductive exn : Type :=
| IndexError
| ValueError
| OverflowError
| TypeError
| RuntimeError
| ZeroDivisionError.

Inductive result (A : Type) : Type :=
| Ok (a : A)
| Raise (e : exn).

Arguments Ok {A} a.
Arguments Raise {A} e.

Definition result_map {A B} (f : A -> B) (r : result A) : result B :=
  match r with
  | Ok a => Ok (f a)
  | Raise e => Raise e
  end.

Definition result_bind {A B} (r : result A) (k : A -> result B) : result B :=
  match r with
  | Ok a => k a
  | Raise e => Raise e
  end.

Definition is_ok {A} (r : result A) : bool :=
  match r with
  | Ok _ => true
  | Raise _ => false
  end.

(** ** Observable events and the [Py] monad *)

Inductive phase : Type := Training | Validation.

Inductive event : Type :=
| PathExists (path : string) (found : bool)
| ReadImage (path : string)
| Print (line : string)
(** [PrintMetrics ph epoch loss acc] stands for the two metric lines; the
    f-strings render [loss] with [:.4f] and [acc] with [:.2f]. *)
| PrintMetrics (ph : phase) (epoch : Z) (loss : float) (acc : float).

(** A computation returns its event log and either a value or the exception
    that stopped it. *)
Definition Py (A : Type) : Type := (list event * result A)%type.

Definition ret {A} (a : A) : Py A := ([], Ok a).

Definition bind {A B} (m : Py A) (k : A -> Py B) : Py B :=
  match m with
  | (log, Ok a) => let (log', r) := k a in (log ++ log', r)
  | (log, Raise e) => (log, Raise e)
  end.

Definition lift {A} (r : result A) : Py A := ([], r).

Definition emit (e : event) : Py unit := ([e], Ok tt).

Definition log_of {A} (m : Py A) : list event := fst m.
Definition outcome {A} (m : Py A) : result A := snd m.

Declare Scope py_scope.
Delimit Scope py_scope with py.
Notation "x <- m ;; k" := (bind m (fun x => k))
  (at level 61, m at next level, right associativity) : py_scope.
Notation "m ;;; k" := (bind m (fun _ => k))
  (at level 61, right associativity) : py_scope.
Open Scope py_scope.

(** ** Constants of the script *)

Definition DATA_DIR : string := "data/raw_frames".
Definition ANNOTATIONS_DIR : string := "data/cvb_in_ava_format".
Definition TRAIN_CSV : string := "ava_train_set.csv".
Definition VAL_CSV : string := "ava_val_set.csv".
Definition IMG_HEIGHT : nat := 224.
Definition IMG_WIDTH : nat := 224.
Definition NUM_CLASSES : Z := 11.
Definition BATCH_SIZE : nat := 8.
Definition EPOCHS : nat := 1.
Definition NUM_FRAMES : nat := 450.

(** ** Strings: [str(int)], [{:05d}] and [os.path.join] *)

Definition str_of_int (z : Z) : string := NilZero.string_of_int (Z.to_int z).

Definition digits_of_nat (n : nat) : string :=
  NilZero.string_of_uint (Nat.to_uint n).

Fixpoint zeros_string (n : nat) : string :=
  match n with
  | O => EmptyString
  | S k => String "0" (zeros_string k)
  end.

Definition zfill (width : nat) (s : string) : string :=
  (zeros_string (width - String.length s) ++ s)%string.

(** [format(z, '05d')]: zero padding to five characters, the sign counted. *)
Definition format_05d (z : Z) : string :=
  if (z <? 0)%Z
  then ("-" ++ zfill 4 (digits_of_nat (Z.to_nat (- z))))%string
  else zfill 5 (digits_of_nat (Z.to_nat z)).

Fixpoint ends_with_sep (s : string) : bool :=
  match s with
  | EmptyString => false
  | String c EmptyString => Ascii.eqb c "/"
  | String _ rest => ends_with_sep rest
  end.

Definition starts_with_sep (s : string) : bool :=
  match s with
  | String c _ => Ascii.eqb c "/"
  | EmptyString => false
  end.

(** One round of the loop of [posixpath.join]. *)
Definition join_step (path b : string) : string :=
  if starts_with_sep b then b
  else if (String.eqb path "" || ends_with_sep path)%bool then (path ++ b)%string
  else (path ++ "/" ++ b)%string.

Definition os_path_join (a : string) (p : list string) : string :=
  fold_left join_step p a.

Definition frame_file (i : nat) : string :=
  ("img_" ++ format_05d (Z.of_nat i + 1) ++ ".jpg")%string.

Definition frame_path (video_name : string) (i : nat) : string :=
  os_path_join DATA_DIR [video_name; frame_file i].

(** ** Floats: [int(x)] and [float(n)] *)

(** [int(x)] of a float: [ValueError] on NaN, [OverflowError] on an
    infinity, truncation toward zero otherwise. *)
Definition py_int_of_float (x : float) : result Z :=
  match Prim2SF x with
  | S754_nan => Raise ValueError
  | S754_infinity _ => Raise OverflowError
  | S754_zero _ => Ok 0%Z
  | S754_finite s m e =>
      let mag := if (0 <=? e)%Z
                 then (Z.pos m * 2 ^ e)%Z
                 else (Z.pos m / 2 ^ (- e))%Z in
      Ok (if s then (- mag)%Z else mag)
  end.

(** The implicit [int -> float] conversion of mixed arithmetic: rounding to
    nearest, [OverflowError] when the integer exceeds the float range. *)
Definition py_float_of_int (z : Z) : result float :=
  match binary_normalize 53 1024 z 0 false with
  | S754_infinity _ => Raise OverflowError
  | sf => Ok (SF2Prim sf)
  end.

(** [x / n] for a float [x] and an int [n]. *)
Definition py_truediv_int (x : float) (n : Z) : result float :=
  if (n =? 0)%Z then Raise ZeroDivisionError
  else result_map (fun d => PrimFloat.div x d) (py_float_of_int n).

(** [x * n] for a float [x] and an int [n]. *)
Definition py_mul_int (x : float) (n : Z) : result float :=
  result_map (fun d => PrimFloat.mul x d) (py_float_of_int n).

(** ** Tensors *)

Record tensor (A : Type) : Type := mkTensor {
  shape : list nat;
  at_index : list nat -> A
}.

Arguments mkTensor {A} shape at_index.

Definition tensor_map {A B} (f : A -> B) (t : tensor A) : tensor B :=
  mkTensor (shape t) (fun idx => f (at_index t idx)).

Definition shape_eqb (s1 s2 : list nat) : bool :=
  if list_eq_dec Nat.eq_dec s1 s2 then true else false.

(** [torch.stack]: a new leading dimension; every tensor must have the shape
    of the first, and the list must not be empty. *)
Definition torch_stack {A} (frames : list (tensor A)) : result (tensor A) :=
  match frames with
  | [] => Raise RuntimeError
  | f0 :: rest =>
      if forallb (fun f => shape_eqb (shape f) (shape f0)) rest
      then Ok (mkTensor (List.length frames :: shape f0)
                 (fun idx =>
                    match idx with
                    | [] => at_index f0 []
                    | i :: idx' => at_index (nth i frames f0) idx'
                    end))
      else Raise RuntimeError
  end.

(** The position of [d] in [dims] (its length when absent). *)
Fixpoint index_of (d : nat) (dims : list nat) : nat :=
  match dims with
  | [] => O
  | x :: rest => if Nat.eqb x d then O else S (index_of d rest)
  end.

Definition is_permutation_of_range (dims : list nat) : bool :=
  forallb (fun d => existsb (Nat.eqb d) dims) (seq 0 (List.length dims)).

(** [Tensor.permute]: dimension [k] of the result is dimension [dims[k]] of
    the input. *)
Definition permute {A} (dims : list nat) (t : tensor A) : result (tensor A) :=
  if (Nat.eqb (List.length dims) (List.length (shape t))
      && is_permutation_of_range dims)%bool
  then Ok (mkTensor (map (fun d => nth d (shape t) O) dims)
             (fun idx =>
                at_index t (map (fun m => nth (index_of m dims) idx O)
                              (seq 0 (List.length dims)))))
  else Raise RuntimeError.

(** ** Pixel arithmetic supplied by the framework *)

Class PixelOps : Type := {
  elt : Type;
  zero : elt;
  (** [byte.float() / 255.0] *)
  unit_of_byte : Z -> elt;
  (** the value [Resize] puts at an index of its output *)
  resample : tensor elt -> nat -> nat -> list nat -> elt;
  (** [(x - mean) / std] *)
  standardize : Q -> Q -> elt -> elt
}.

Definition torch_zeros `{PixelOps} (sh : list nat) : tensor elt :=
  mkTensor sh (fun _ => zero).

(** ** The file system seen by the dataset *)

Record image : Type := mkImage {
  channels : nat;
  height : nat;
  width : nat;
  pixel : nat -> nat -> nat -> Z
}.

(** A GIF file: [n_frames] RGB images of one size. *)
Record animation : Type := mkAnimation {
  n_frames : nat;
  gif_height : nat;
  gif_width : nat;
  gif_pixel : nat -> nat -> nat -> nat -> Z
}.

(** What a path holds: a directory, a still image (JPEG, PNG), a GIF, or a
    file that no decoder reads. The decoder is chosen by the content of the
    file, not by the [.jpg] of its name. *)
Inductive node : Type :=
| Directory
| ImageFile (img : image)
| AnimatedFile (gif : animation)
| OtherFile.

Definition filesystem : Type := string -> option node.

Definition os_path_exists (fs : filesystem) (path : string) : Py bool :=
  let found := match fs path with Some _ => true | None => false end in
  emit (PathExists path found) ;;; ret found.

Definition decode (img : image) : tensor Z :=
  mkTensor [channels img; height img; width img]
    (fun idx =>
       match idx with
       | [c; y; x] => pixel img c y x
       | _ => 0%Z
       end).

(** [decode_gif]: a tensor [N; 3; H; W], the leading dimension being
    squeezed away when the file holds a single image. *)
Definition decode_gif (gif : animation) : tensor Z :=
  if Nat.eqb (n_frames gif) 1
  then mkTensor [3; gif_height gif; gif_width gif]
         (fun idx =>
            match idx with
            | [c; y; x] => gif_pixel gif 0 c y x
            | _ => 0%Z
            end)
  else mkTensor [n_frames gif; 3; gif_height gif; gif_width gif]
         (fun idx =>
            match idx with
            | [n; c; y; x] => gif_pixel gif n c y x
            | _ => 0%Z
            end).

(** [torchvision.io.read_image]: a uint8 tensor of shape [C; H; W] for a
    still image, [N; 3; H; W] for a GIF of [N > 1] images, or an error when
    the path is not a decodable image. *)
Definition read_image (fs : filesystem) (path : string) : Py (tensor Z) :=
  emit (ReadImage path) ;;;
  match fs path with
  | Some (ImageFile img) => ret (decode img)
  | Some (AnimatedFile gif) => ret (decode_gif gif)
  | _ => lift (Raise RuntimeError)
  end.

(** ** Transforms *)

Section Transforms.
Context `{PixelOps}.

Definition transform_t : Type := tensor elt -> result (tensor elt).

(** [transforms.Resize((h, w))]: a tensor of fewer than two dimensions is
    not an image ([TypeError]); the interpolation takes [C; H; W] and
    [N; C; H; W] and refuses every other rank ([ValueError]). *)
Definition Resize (h w : nat) : transform_t :=
  fun t =>
    match rev (shape t) with
    | [] | [_] => Raise TypeError
    | [_; _] => Raise ValueError
    | _ :: _ :: c :: pre =>
        if (List.length pre <=? 1)%nat
        then Ok (mkTensor (rev pre ++ [c; h; w]) (resample t h w))
        else Raise ValueError
    end.

(** The channel coordinate of an index into a tensor of [ndim] dimensions. *)
Definition channel_of (ndim : nat) (idx : list nat) : nat :=
  nth (ndim - 3) idx O.

(** [transforms.Normalize(mean, std)]: the statistics are viewed as
    [(-1, 1, 1)] and subtracted in place, so the channel dimension has to
    absorb the broadcast. *)
Definition Normalize (mean std : list Q) : transform_t :=
  fun t =>
    let ndim := List.length (shape t) in
    if (ndim <? 3)%nat then Raise ValueError
    else if existsb (fun s => Qeq_bool s 0) std then Raise ValueError
    else
      let c := nth (ndim - 3) (shape t) O in
      let fits (stat : list Q) :=
        (Nat.eqb (List.length stat) c || Nat.eqb (List.length stat) 1)%bool in
      if (fits mean && fits std)%bool
      then Ok (mkTensor (shape t)
                 (fun idx =>
                    let ch := channel_of ndim idx in
                    standardize (nth ch mean (hd 0%Q mean))
                                (nth ch std (hd 1%Q std))
                                (at_index t idx)))
      else Raise RuntimeError.

(** [transforms.Compose]. *)
Definition Compose (ts : list transform_t) : transform_t :=
  fun t => fold_left (fun acc f => result_bind acc f) ts (Ok t).

(** The module-level [transform]. *)
Definition transform : transform_t :=
  Compose [ Resize IMG_HEIGHT IMG_WIDTH;
            Normalize [485 # 1000; 456 # 1000; 406 # 1000]
                      [229 # 1000; 224 # 1000; 225 # 1000] ]%Q.

End Transforms.

(** ** The annotation table *)

(** A cell of the [video_name] column, the one column [read_csv] is given
    no dtype for: pandas infers it, so a cell is a [str], or a number or a
    boolean when the whole column reads as such, an empty cell being the
    float NaN. *)
Inductive cell : Type :=
| Str (s : string)
| Int64 (z : Z)
| Float64 (x : float)
| Bool8 (b : bool).

(** [os.fspath], which [os.path.join] applies to its arguments: anything
    but a [str] is refused. *)
Definition os_fspath (c : cell) : result string :=
  match c with
  | Str s => Ok s
  | _ => Raise TypeError
  end.

Record row : Type := mkRow {
  video_name : cell;
  keyframe : float;
  x1 : float;
  y1 : float;
  x2 : float;
  y2 : float;
  behavior_category : Z;
  animal_category : string
}.

(** [df.iloc[idx]]: positions count from the end when negative. *)
Definition iloc {A} (df : list A) (idx : Z) : result A :=
  let n := Z.of_nat (List.length df) in
  let pos := if (idx <? 0)%Z then (n + idx)%Z else idx in
  if ((0 <=? pos) && (pos <? n))%Z
  then match nth_error df (Z.to_nat pos) with
       | Some r => Ok r
       | None => Raise IndexError
       end
  else Raise IndexError.

Section CsvReader.
(** The tokenizer and dtype conversion of pandas for one record of the
    file; it raises when a cell does not convert to its column's dtype. *)
Variable parse_record : string -> result row.

(** A line the tokenizer skips under [skip_blank_lines]: nothing on it but
    spaces and tabs. *)
Fixpoint is_blank (line : string) : bool :=
  match line with
  | EmptyString => true
  | String c rest =>
      ((Ascii.eqb c " " || Ascii.eqb c "009") && is_blank rest)%bool
  end.

Fixpoint parse_all (lines : list string) : result (list row) :=
  match lines with
  | [] => Ok []
  | l :: rest =>
      result_bind (parse_record l) (fun r =>
      result_map (cons r) (parse_all rest))
  end.

(** The records [read_csv] keeps: [skiprows=1] drops the first line of the
    file, and blank lines are not records. *)
Definition data_lines (file : list string) : list string :=
  filter (fun l => negb (is_blank l)) (skipn 1 file).

(** [pd.read_csv(file, skiprows=1, names=[...], dtype={...})]. *)
Definition read_csv (file : list string) : result (list row) :=
  parse_all (data_lines file).
End CsvReader.

(** [Series.min()] and [Series.max()]; [None] is the NaN of an empty column. *)
Definition series_min (xs : list Z) : option Z :=
  match xs with
  | [] => None
  | x :: rest => Some (fold_left Z.min rest x)
  end.

Definition series_max (xs : list Z) : option Z :=
  match xs with
  | [] => None
  | x :: rest => Some (fold_left Z.max rest x)
  end.

Definition str_of_label (o : option Z) : string :=
  match o with
  | Some z => str_of_int z
  | None => "nan"
  end.

(** ** VideoDataset *)

Section Dataset.
Context `{PixelOps}.

Record VideoDataset : Type := mkDataset {
  annotations : list row;
  self_transform : option transform_t
}.

(** [VideoDataset.__init__]. *)
Definition VideoDataset_init (parse_record : string -> result row)
    (annotations_file : list string) (tr : option transform_t)
    : Py VideoDataset :=
  df <- lift (read_csv parse_record annotations_file) ;;
  let min_label := series_min (map behavior_category df) in
  let max_label := series_max (map behavior_category df) in
  emit (Print ("Label range: " ++ str_of_label min_label
                 ++ " to " ++ str_of_label max_label)%string) ;;;
  ret (mkDataset df tr).

(** [VideoDataset.__len__]. *)
Definition VideoDataset_len (self : VideoDataset) : nat :=
  List.length (annotations self).

(** The body of the [for i in range(450)] loop: the tensor it appends. *)
Definition load_frame (self : VideoDataset) (fs : filesystem)
    (video_name : cell) (i : nat) : Py (tensor elt) :=
  video <- lift (os_fspath video_name) ;;
  let frame_path := frame_path video i in
  found <- os_path_exists fs frame_path ;;
  if found : bool then
    raw <- read_image fs frame_path ;;
    let image := tensor_map unit_of_byte raw in
    match self_transform self with
    | Some tr => lift (tr image)
    | None => ret image
    end
  else
    ret (torch_zeros [3; IMG_HEIGHT; IMG_WIDTH]).

(** The loop itself, [frames] being the list built so far. *)
Fixpoint load_frames (self : VideoDataset) (fs : filesystem)
    (video : cell) (range : list nat) (frames : list (tensor elt))
    : Py (list (tensor elt)) :=
  match range with
  | [] => ret frames
  | i :: rest =>
      f <- load_frame self fs video i ;;
      load_frames self fs video rest (frames ++ [f])
  end.

Definition label_is_invalid (label : Z) : bool :=
  ((label <? 0) || (label >=? NUM_CLASSES))%Z.

Definition invalid_label_message (label idx : Z) : string :=
  ("Invalid label " ++ str_of_int label ++ " at index " ++ str_of_int idx)%string.

(** [VideoDataset.__getitem__]. *)
Definition VideoDataset_getitem (self : VideoDataset) (fs : filesystem)
    (idx : Z) : Py (tensor elt * Z) :=
  r <- lift (iloc (annotations self) idx) ;;
  let video := video_name r in
  keyframe_index <- lift (py_int_of_float (PrimFloat.mul (keyframe r) 30)) ;;
  frames <- load_frames self fs video (seq 0 NUM_FRAMES) [] ;;
  clip <- lift (torch_stack frames) ;;
  let label := (behavior_category r - 2)%Z in
  (if label_is_invalid label
   then emit (Print (invalid_label_message label idx))
   else ret tt) ;;;
  ret (clip, label).

End Dataset.

(** ** The I3D wrapper *)

Section Model.
Context `{PixelOps}.

(** [nn.Linear]: the layer sizes and its two parameter tensors. *)
Record Linear : Type := mkLinear {
  in_features : Z;
  out_features : Z;
  weight : tensor elt;
  bias : tensor elt
}.

(** The state of the random generator, and the initialiser that draws a
    parameter tensor of a given shape from it. *)
Variable rng : Type.
Variable draw : rng -> list nat -> tensor elt * rng.

Definition nn_Linear (n_in n_out : Z) (g : rng) : Linear * rng :=
  let (w, g1) := draw g [Z.to_nat n_out; Z.to_nat n_in] in
  let (b, g2) := draw g1 [Z.to_nat n_out] in
  (mkLinear n_in n_out w b, g2).

(** [torchvision.models.video.VideoResNet]: everything before the
    classifier head, and the head [fc]. *)
Variable trunk_t : Type.

Record VideoResNet : Type := mkVideoResNet {
  trunk : trunk_t;
  fc : Linear
}.

(** The model zoo entry, by the name of its weights, and the network's
    forward pass. *)
Variable r3d_18 : string -> VideoResNet.
Variable VideoResNet_forward : VideoResNet -> tensor elt -> result (tensor elt).

Record I3D : Type := mkI3D { model : VideoResNet }.

(** [I3D.__init__]. *)
Definition I3D_init (num_classes : Z) (g : rng) : I3D * rng :=
  let m := r3d_18 "KINETICS400_V1" in
  let (head, g') := nn_Linear (in_features (fc m)) num_classes g in
  (mkI3D (mkVideoResNet (trunk m) head), g').

(** [I3D.forward]. *)
Definition I3D_forward (self : I3D) (x : tensor elt) : result (tensor elt) :=
  result_bind (permute [0; 2; 1; 3; 4]%nat x) (fun x' =>
  VideoResNet_forward (model self) x').

End Model.

(** ** The training and validation loops *)

(** [predicted.eq(labels).sum().item()] on one-dimensional tensors: equal
    lengths compare position by position, a length of one broadcasts, and
    any other pair of lengths is an error. *)
Definition count_equal (pairs : list (Z * Z)) : Z :=
  Z.of_nat (List.length (filter (fun p => Z.eqb (fst p) (snd p)) pairs)).

Definition eq_sum (predicted labels : list Z) : result Z :=
  let np := List.length predicted in
  let nl := List.length labels in
  if Nat.eqb np nl then Ok (count_equal (combine predicted labels))
  else if Nat.eqb np 1
  then Ok (count_equal (map (fun l => (hd 0%Z predicted, l)) labels))
  else if Nat.eqb nl 1
  then Ok (count_equal (map (fun p => (p, hd 0%Z labels)) predicted))
  else Raise RuntimeError.

(** What one processed batch contributes to the metrics. *)
Record batch_record : Type := mkBatchRecord {
  loss_value : float;
  predicted : list Z;
  targets : list Z
}.

Section Training.
(** The stacked clips of a batch, one row of class scores, the loss tensor,
    and the network together with its optimizer and gradient scaler. *)
Variables (clips_t row_t loss_t net : Type).

(** [model(clips)] under [autocast], in [train()] and in [eval()] mode. *)
Variable model_train : net -> clips_t -> result (list row_t).
Variable model_eval : net -> clips_t -> result (list row_t).
(** [nn.CrossEntropyLoss()] and [loss.item()]. *)
Variable criterion : list row_t -> list Z -> result loss_t.
Variable item : loss_t -> float.
(** [outputs.max(1)] on one row: the index of the largest score. *)
Variable argmax : row_t -> Z.
(** [zero_grad], [scaler.scale(loss).backward()], [scaler.step], [scaler.update]. *)
Variable optimizer_step : net -> loss_t -> net.

(** A batch as the loader yields it: [clips] (possibly [None]) and [labels]. *)
Definition batch : Type := (option clips_t * list Z)%type.

Definition counters : Type := (float * Z * Z)%type.

Definition run_batch (fwd : net -> clips_t -> result (list row_t))
    (n : net) (clips : clips_t) (labels : list Z)
    : result (batch_record * loss_t) :=
  result_bind (fwd n clips) (fun outputs =>
  result_bind (criterion outputs labels) (fun loss =>
  Ok (mkBatchRecord (item loss) (map argmax outputs) labels, loss))).

(** The counter updates shared by the two loops. *)
Definition accumulate (c : counters) (r : batch_record) : result counters :=
  let '(running_loss, correct, total) := c in
  let running_loss := PrimFloat.add running_loss (loss_value r) in
  let total := (total + Z.of_nat (List.length (targets r)))%Z in
  result_bind (eq_sum (predicted r) (targets r)) (fun k =>
  Ok (running_loss, (correct + k)%Z, total)).

(** The body of [for clips, labels in tqdm(train_loader)]. *)
Fixpoint train_loop (n : net) (c : counters) (loader : list batch)
    : result (net * counters) :=
  match loader with
  | [] => Ok (n, c)
  | (None, _) :: rest => train_loop n c rest
  | (Some clips, labels) :: rest =>
      result_bind (run_batch model_train n clips labels) (fun rl =>
      let n' := optimizer_step n (snd rl) in
      result_bind (accumulate c (fst rl)) (fun c' =>
      train_loop n' c' rest))
  end.

(** The body of [for clips, labels in tqdm(val_loader)]. *)
Fixpoint val_loop (n : net) (c : counters) (loader : list batch)
    : result counters :=
  match loader with
  | [] => Ok c
  | (None, _) :: rest => val_loop n c rest
  | (Some clips, labels) :: rest =>
      result_bind (run_batch model_eval n clips labels) (fun rl =>
      result_bind (accumulate c (fst rl)) (fun c' =>
      val_loop n c' rest))
  end.

(** The two lines computed after a loop, and the [print]. *)
Definition print_metrics (ph : phase) (epoch : Z) (c : counters)
    (n_batches : nat) : Py unit :=
  let '(running_loss, correct, total) := c in
  epoch_loss <- lift (py_truediv_int running_loss (Z.of_nat n_batches)) ;;
  epoch_accuracy <- lift (result_bind (py_mul_int 100 correct)
                            (fun x => py_truediv_int x total)) ;;
  emit (PrintMetrics ph epoch epoch_loss epoch_accuracy).

Definition train_epoch (n : net) (epoch : nat) (train_loader : list batch)
    : Py net :=
  nc <- lift (train_loop n (0%float, 0%Z, 0%Z) train_loader) ;;
  print_metrics Training (Z.of_nat epoch + 1) (snd nc)
    (List.length train_loader) ;;;
  ret (fst nc).

Definition val_epoch (n : net) (epoch : nat) (val_loader : list batch)
    : Py unit :=
  c <- lift (val_loop n (0%float, 0%Z, 0%Z) val_loader) ;;
  print_metrics Validation (Z.of_nat epoch + 1) c (List.length val_loader).

(** [for epoch in range(EPOCHS)] of [main]. *)
Fixpoint epochs_loop (n : net) (range : list nat)
    (train_loader val_loader : list batch) : Py net :=
  match range with
  | [] => ret n
  | epoch :: rest =>
      n' <- train_epoch n epoch train_loader ;;
      val_epoch n' epoch val_loader ;;;
      epochs_loop n' rest train_loader val_loader
  end.

Definition main (n : net) (train_loader val_loader : list batch) : Py net :=
  epochs_loop n (seq 0 EPOCHS) train_loader val_loader.

(** *** The batches an epoch processes, in order *)

Fixpoint train_history (n : net) (loader : list batch)
    : result (list batch_record) :=
  match loader with
  | [] => Ok []
  | (None, _) :: rest => train_history n rest
  | (Some clips, labels) :: rest =>
      result_bind (run_batch model_train n clips labels) (fun rl =>
      result_map (cons (fst rl))
        (train_history (optimizer_step n (snd rl)) rest))
  end.

Fixpoint val_history (n : net) (loader : list batch)
    : result (list batch_record) :=
  match loader with
  | [] => Ok []
  | (None, _) :: rest => val_history n rest
  | (Some clips, labels) :: rest =>
      result_bind (run_batch model_eval n clips labels) (fun rl =>
      result_map (cons (fst rl)) (val_history n rest))
  end.

End Training.

(** *** The metrics as the description states them *)

(** Every sample of the epoch: its argmax prediction and its label. *)
Definition samples_of (records : list batch_record) : list (Z * Z) :=
  flat_map (fun r => combine (predicted r) (targets r)) records.

(** Sum of the per-batch losses, added in the order of the batches. *)
Definition loss_sum (records : list batch_record) : float :=
  fold_left PrimFloat.add (map loss_value records) 0%float.

(** Statement form of the accuracy: 100 times the number of samples
    predicted right, divided by the number of samples. *)
Definition stated_accuracy (records : list batch_record) : result float :=
  result_bind (py_mul_int 100 (count_equal (samples_of records))) (fun x =>
  py_truediv_int x (Z.of_nat (List.length (samples_of records)))).

(** Statement form of the loss: the sum of the per-batch losses divided by
    the number of batches of the loader. *)
Definition stated_loss (records : list batch_record) (n_batches : nat)
    : result float :=
  py_truediv_int (loss_sum records) (Z.of_nat n_batches).

Definition well_shaped (r : batch_record) : Prop :=
  List.length (predicted r) = List.length (targets r).


(** ** Reading the event log *)

(** The paths handed to [os.path.exists], in order. *)
Definition probed (log : list event) : list string :=
  flat_map (fun e => match e with
                     | PathExists p _ => [p]
                     | _ => []
                     end) log.

(** The lines written by [print], in order. *)
Definition printed (log : list event) : list string :=
  flat_map (fun e => match e with
                     | Print s => [s]
                     | _ => []
                     end) log.

(** The metric lines of one phase. *)
Definition reported (ph : phase) (epoch : Z) (loss acc : result float)
    : list event :=
  match loss, acc with
  | Ok l, Ok a => [PrintMetrics ph epoch l a]
  | _, _ => []
  end.

Section DatasetStages.
Context `{PixelOps}.

(** Lines 61 to 75 of [__getitem__] for the row [r]: the keyframe
    conversion, the frame loop and [torch.stack]. *)
Definition build_clip (self : VideoDataset) (fs : filesystem) (r : row)
    : Py (tensor elt) :=
  keyframe_index <- lift (py_int_of_float (PrimFloat.mul (keyframe r) 30)) ;;
  frames <- load_frames self fs (video_name r) (seq 0 NUM_FRAMES) [] ;;
  lift (torch_stack frames).

(** Lines 76 to 82: the label, its check and the returned pair. *)
Definition finish_item (idx : Z) (r : row) (clip : tensor elt)
    : Py (tensor elt * Z) :=
  let label := (behavior_category r - 2)%Z in
  (if label_is_invalid label
   then emit (Print (invalid_label_message label idx))
   else ret tt) ;;;
  ret (clip, label).

(** What one iteration of the frame loop appends, without its events. *)
Definition frame_of (self : VideoDataset) (fs : filesystem)
    (video : string) (i : nat) : result (tensor elt) :=
  match fs (frame_path video i) with
  | None => Ok (torch_zeros [3; IMG_HEIGHT; IMG_WIDTH])
  | Some (ImageFile img) =>
      let image := tensor_map unit_of_byte (decode img) in
      match self_transform self with
      | Some tr => tr image
      | None => Ok image
      end
  | Some (AnimatedFile gif) =>
      let image := tensor_map unit_of_byte (decode_gif gif) in
      match self_transform self with
      | Some tr => tr image
      | None => Ok image
      end
  | Some _ => Raise RuntimeError
  end.

(** Every single image (a tensor of three dimensions) a transform lets
    through comes out with the shape of the zero frame. *)
Definition frame_shaped (tr : transform_t) : Prop :=
  forall t t',
    List.length (shape t) = 3 ->
    tr t = Ok t' ->
    shape t' = [3; IMG_HEIGHT; IMG_WIDTH].

(** A frame position is usable when it is absent or holds a single RGB
    image. *)
Definition usable (fs : filesystem) (path : string) : Prop :=
  match fs path with
  | None => True
  | Some (ImageFile img) => channels img = 3
  | Some (AnimatedFile gif) => n_frames gif = 1
  | Some _ => False
  end.

(** None of the frame files of a video holds several images. *)
Definition single_images (fs : filesystem) (video : string) : Prop :=
  forall i gif,
    i < NUM_FRAMES ->
    fs (frame_path video i) = Some (AnimatedFile gif) ->
    n_frames gif = 1.

(** The shape of the frame the loop appends for a path when the dataset has
    the module-level transform; [None] when the loop raises there. *)
Definition module_frame_shape (fs : filesystem) (path : string)
    : option (list nat) :=
  match fs path with
  | None => Some [3; IMG_HEIGHT; IMG_WIDTH]
  | Some (ImageFile img) =>
      if Nat.eqb (channels img) 3 then Some [3; IMG_HEIGHT; IMG_WIDTH] else None
  | Some (AnimatedFile gif) =>
      if Nat.eqb (n_frames gif) 1 then Some [3; IMG_HEIGHT; IMG_WIDTH]
      else Some [n_frames gif; 3; IMG_HEIGHT; IMG_WIDTH]
  | Some _ => None
  end.

(** [fs'] is [fs] with some files removed. *)
Definition files_removed (fs fs' : filesystem) : Prop :=
  forall p, fs' p = fs p \/ fs' p = None.

End DatasetStages.

(** ** Sample data *)

(** Integer pixels standing in for the framework's float32 arithmetic:
    resampling reads the nearest source pixel, standardising is the identity. *)
#[export] Instance ZPixels : PixelOps := {
  elt := Z;
  zero := 0%Z;
  unit_of_byte := fun b => b;
  resample := fun t h w idx =>
    match rev idx, rev (shape t) with
    | x :: y :: pre, sw :: sh :: _ =>
        at_index t (rev pre ++ [(y * sh / h)%nat; (x * sw / w)%nat])
    | _, _ => 0%Z
    end;
  standardize := fun _ _ x => x
}.

Definition rgb_image (h w : nat) : image :=
  mkImage 3 h w (fun c y x => Z.of_nat ((c + y + x) mod 256)).

Definition gray_image (h w : nat) : image :=
  mkImage 1 h w (fun _ y x => Z.of_nat ((y + x) mod 256)).

(** No frame on disk at all. *)
Definition fs_empty : filesystem := fun _ => None.

(** Every path is an RGB frame of 100 by 100 pixels. *)
Definition fs_full : filesystem := fun _ => Some (ImageFile (rgb_image 100 100)).

(** Every path is a grayscale frame of 64 by 48 pixels. *)
Definition fs_gray : filesystem := fun _ => Some (ImageFile (gray_image 64 48)).

Definition gif_image (n h w : nat) : animation :=
  mkAnimation n h w (fun k c y x => Z.of_nat ((k + c + y + x) mod 256)).

(** Every path is a GIF of two images of 10 by 10 pixels. *)
Definition fs_gif : filesystem := fun _ => Some (AnimatedFile (gif_image 2 10 10)).

(** [fs_gif] without the second frame of the video [clip_a]. *)
Definition fs_gif_second_missing : filesystem :=
  fun p => if String.eqb p "data/raw_frames/clip_a/img_00002.jpg"
           then None else fs_gif p.

(** [fs_full] without the second frame of the video [clip_a]. *)
Definition fs_second_missing : filesystem :=
  fun p => if String.eqb p "data/raw_frames/clip_a/img_00002.jpg"
           then None else fs_full p.

Definition row_a : row :=
  mkRow (Str "clip_a") 1.5%float 0.125%float 0.25%float 0.5%float 0.75%float 4 "cow".

(** Same video, other keyframe, box, behaviour and animal. *)
Definition row_a' : row :=
  mkRow (Str "clip_a") 9%float 0%float 0%float 1%float 1%float 7 "sheep".

(** Same video, the keyframe cell empty in the file. *)
Definition row_a_nan : row :=
  mkRow (Str "clip_a") nan 0.125%float 0.25%float 0.5%float 0.75%float 4 "cow".

(** A behaviour category outside the eleven classes. *)
Definition row_b : row :=
  mkRow (Str "clip_b") 2%float 0%float 0%float 1%float 1%float 20 "cow".

Definition sample_rows : list row := [row_a; row_a'; row_a_nan; row_b].

Definition ds_plain : VideoDataset := mkDataset sample_rows None.
Definition ds_module : VideoDataset := mkDataset sample_rows (Some transform).

(** A toy record parser for the sample file: a line names its row. *)
Definition sample_parse (line : string) : result row :=
  if String.eqb line "a" then Ok row_a
  else if String.eqb line "a2" then Ok row_a'
  else if String.eqb line "a_nan" then Ok row_a_nan
  else if String.eqb line "b" then Ok row_b
  else Raise ValueError.

Definition sample_file : list string :=
  ["header"; "a"; ""; "a2"; "b"]%string.

(** A file whose second record has an empty keyframe cell, and a line of
    spaces and a tab between the records. *)
Definition nan_file : list string :=
  ["header"; "a"; String " " (String "009" " "); "a_nan"]%string.

(** A toy network for the loops: a clip is its list of score rows, a row is
    the list of its scores, the loss is the number of wrong samples. *)
Definition toy_argmax (scores : list Z) : Z :=
  fst (fst (fold_left (fun (best : Z * Z * Z) s =>
                    let '(bi, bs, i) := best in
                    if (bs <? s)%Z then (i, s, (i + 1)%Z) else (bi, bs, (i + 1)%Z))
                 (tl scores) (0%Z, hd 0%Z scores, 1%Z))).

Definition toy_forward (n : Z) (clips : list (list Z)) : result (list (list Z)) :=
  Ok (map (map (Z.add n)) clips).

Definition toy_criterion (outputs : list (list Z)) (labels : list Z) : result Z :=
  Ok (Z.of_nat (List.length labels)
      - count_equal (combine (map toy_argmax outputs) labels))%Z.

Definition toy_item (loss : Z) : float :=
  match py_float_of_int loss with
  | Ok f => f
  | Raise _ => infinity
  end.

Definition toy_step (n : Z) (loss : Z) : Z := (n + loss)%Z.

Definition toy_loader : list (batch (list (list Z))) :=
  [ (Some [[1; 5; 2]; [7; 0; 0]; [0; 0; 9]], [1; 0; 1]);
    (None, [3]);
    (Some [[4; 4; 8]; [2; 3; 1]], [2; 1]) ]%Z.

(** ** Counters against the processed batches *)

(** The counters after the batches [records] have been added to [c]. *)
Definition add_records (c : counters) (records : list batch_record) : counters :=
  let '(running_loss, correct, total) := c in
  (fold_left PrimFloat.add (map loss_value records) running_loss,
   (correct + count_equal (samples_of records))%Z,
   (total + Z.of_nat (List.length (samples_of records)))%Z).

(** ** More sample data *)

(** A toy model zoo: the trunk is a name, the pretrained head has 512
    inputs and 400 outputs, parameters are drawn from a counter. *)
Definition toy_draw (g : nat) (sh : list nat) : tensor Z * nat :=
  (mkTensor sh (fun _ => Z.of_nat g), S g).

Definition toy_r3d_18 (weights : string) : VideoResNet string :=
  mkVideoResNet weights
    (mkLinear 512 400 (mkTensor [400; 512] (fun _ => 1%Z))
                      (mkTensor [400] (fun _ => 1%Z))).

Definition toy_resnet_forward (m : VideoResNet string) (x : tensor Z)
    : result (tensor Z) :=
  Ok (mkTensor [hd 0 (shape x); Z.to_nat (out_features (fc m))]
        (fun idx => at_index x (hd 0 idx :: [0; 0; 0; 0]))).

(** A batch of two clips of four frames, three channels, 8 by 8 pixels. *)
Definition toy_clips : tensor Z :=
  mkTensor [2; 4; 3; 8; 8]
    (fun idx => Z.of_nat (fold_left (fun acc i => 10 * acc + i) idx 0)).

(** The batches the toy network processes over [toy_loader]: in training
    from the initial network 0, in validation with the network 1 that
    training leaves. *)
Definition toy_train_records : list batch_record :=
  Eval vm_compute in
    match train_history toy_forward toy_criterion toy_item toy_argmax toy_step
            0%Z toy_loader with
    | Ok records => records
    | Raise _ => []
    end.

Definition toy_val_records : list batch_record :=
  Eval vm_compute in
    match val_history toy_forward toy_criterion toy_item toy_argmax
            1%Z toy_loader with
    | Ok records => records
    | Raise _ => []
    end.


(** ** Batches that have clips *)

Definition has_clips {clips_t : Type} (b : batch clips_t) : bool :=
  match fst b with
  | Some _ => true
  | None => false
  end.

(** The labels of the batches a loop does not skip. *)
Definition labels_seen {clips_t : Type} (loader : list (batch clips_t)) : list Z :=
  flat_map snd (filter has_clips loader).

(** Whether the strings of a list are pairwise different. *)
Fixpoint all_distinct (l : list string) : bool :=
  match l with
  | [] => true
  | s :: rest => (negb (existsb (String.eqb s) rest) && all_distinct rest)%bool
  end.

(** The label [__getitem__] gives for index [idx] of the table [rows]. *)
Definition label_at (rows : list row) (idx : nat) (label : Z) : Prop :=
  exists r, nth_error rows idx = Some r /\ label = (behavior_category r - 2)%Z.

(** ** The data loaders *)

(** [torch.utils.data.BatchSampler] with [drop_last=False]: indices are
    appended to [batch], which is yielded when it reaches [batch_size], and
    once more at the end when it is not empty. *)
Fixpoint batch_sampler_from (batch_size : nat) (batch sampler : list nat)
    : list (list nat) :=
  match sampler with
  | [] => if Nat.ltb 0 (List.length batch) then [batch] else []
  | idx :: rest =>
      let batch := batch ++ [idx] in
      if Nat.eqb (List.length batch) batch_size
      then batch :: batch_sampler_from batch_size [] rest
      else batch_sampler_from batch_size batch rest
  end.

Definition batch_sampler (batch_size : nat) (sampler : list nat)
    : list (list nat) :=
  batch_sampler_from batch_size [] sampler.

Definition int64_min : Z := (- 2 ^ 63)%Z.
Definition int64_max : Z := (2 ^ 63 - 1)%Z.

Section Loader.
Context `{PixelOps}.

Record DataLoader : Type := mkDataLoader {
  dl_dataset : VideoDataset;
  dl_batch_size : nat;
  dl_shuffle : bool
}.

(** [DataLoader(dataset, batch_size=batch_size, shuffle=shuffle)]: the
    [RandomSampler] of a shuffled loader refuses an empty dataset, and the
    [BatchSampler] a batch size that is not positive. *)
Definition DataLoader_init (dataset : VideoDataset) (batch_size : nat)
    (shuffle : bool) : result DataLoader :=
  if (shuffle && Nat.eqb (VideoDataset_len dataset) 0)%bool
  then Raise ValueError
  else if Nat.eqb batch_size 0 then Raise ValueError
  else Ok (mkDataLoader dataset batch_size shuffle).

(** [load_datasets], given the lines of the two annotation files. *)
Definition load_datasets (parse_record : string -> result row)
    (train_csv val_csv : list string) : Py (DataLoader * DataLoader) :=
  train_dataset <- VideoDataset_init parse_record train_csv (Some transform) ;;
  val_dataset <- VideoDataset_init parse_record val_csv (Some transform) ;;
  train_loader <- lift (DataLoader_init train_dataset BATCH_SIZE true) ;;
  val_loader <- lift (DataLoader_init val_dataset BATCH_SIZE false) ;;
  ret (train_loader, val_loader).

(** [len(loader)]. *)
Definition DataLoader_len (loader : DataLoader) : nat :=
  (VideoDataset_len (dl_dataset loader) + dl_batch_size loader - 1)
  / dl_batch_size loader.

(** The order in which a loader visits the indices: [range(len)], or the
    permutation [randperm] draws when [shuffle] is set. *)
Definition sampler_order (randperm : nat -> list nat) (loader : DataLoader)
    : list nat :=
  if dl_shuffle loader
  then randperm (VideoDataset_len (dl_dataset loader))
  else seq 0 (VideoDataset_len (dl_dataset loader)).

(** [[dataset[idx] for idx in batch]]. *)
Fixpoint fetch (self : VideoDataset) (fs : filesystem) (indices : list nat)
    : Py (list (tensor elt * Z)) :=
  match indices with
  | [] => ret []
  | idx :: rest =>
      sample <- VideoDataset_getitem self fs (Z.of_nat idx) ;;
      samples <- fetch self fs rest ;;
      ret (sample :: samples)
  end.

(** [default_collate] on a list of [(clip, label)] pairs: the clips are
    stacked, the labels become an int64 tensor. *)
Definition default_collate (samples : list (tensor elt * Z))
    : result (tensor elt * list Z) :=
  result_bind (torch_stack (map fst samples)) (fun clips =>
  if forallb (fun l => (int64_min <=? l) && (l <=? int64_max))%Z
       (map snd samples)
  then Ok (clips, map snd samples)
  else Raise RuntimeError).

Definition load_batch (self : VideoDataset) (fs : filesystem)
    (indices : list nat) : Py (batch (tensor elt)) :=
  samples <- fetch self fs indices ;;
  cl <- lift (default_collate samples) ;;
  ret (Some (fst cl), snd cl).

Fixpoint load_batches (self : VideoDataset) (fs : filesystem)
    (batches : list (list nat)) : Py (list (batch (tensor elt))) :=
  match batches with
  | [] => ret []
  | indices :: rest =>
      b <- load_batch self fs indices ;;
      bs <- load_batches self fs rest ;;
      ret (b :: bs)
  end.

(** The batches one pass over a loader yields. *)
Definition DataLoader_iter (randperm : nat -> list nat) (loader : DataLoader)
    (fs : filesystem) : Py (list (batch (tensor elt))) :=
  load_batches (dl_dataset loader) fs
    (batch_sampler (dl_batch_size loader) (sampler_order randperm loader)).

End Loader.


(** The metric lines of a log, in order. *)
Definition metrics_of (log : list event) : list event :=
  filter (fun e => match e with
                   | PrintMetrics _ _ _ _ => true
                   | _ => false
                   end) log.

(** ** [main], from the annotation files on *)

Section MainWithLoading.
Context `{PixelOps}.
Variables (row_t loss_t net : Type).
Variable model_train : net -> tensor elt -> result (list row_t).
Variable model_eval : net -> tensor elt -> result (list row_t).
Variable criterion : list row_t -> list Z -> result loss_t.
Variable item : loss_t -> float.
Variable argmax : row_t -> Z.
Variable optimizer_step : net -> loss_t -> net.
(** [torch.randperm(n)], a permutation of [range(n)]. *)
Variable randperm : nat -> list nat.

(** [for clips, labels in tqdm(train_loader)]: the next batch is fetched
    when the loop asks for it, then the body of the loop runs on it. *)
Fixpoint train_loop_loading (n : net) (c : counters) (dataset : VideoDataset)
    (fs : filesystem) (batches : list (list nat)) : Py (net * counters) :=
  match batches with
  | [] => ret (n, c)
  | indices :: rest =>
      b <- load_batch dataset fs indices ;;
      nc <- lift (train_loop model_train criterion item argmax optimizer_step
                    n c [b]) ;;
      train_loop_loading (fst nc) (snd nc) dataset fs rest
  end.

(** [for clips, labels in tqdm(val_loader)], in the same way. *)
Fixpoint val_loop_loading (n : net) (c : counters) (dataset : VideoDataset)
    (fs : filesystem) (batches : list (list nat)) : Py counters :=
  match batches with
  | [] => ret c
  | indices :: rest =>
      b <- load_batch dataset fs indices ;;
      c' <- lift (val_loop model_eval criterion item argmax n c [b]) ;;
      val_loop_loading n c' dataset fs rest
  end.

Definition train_epoch_loading (n : net) (epoch : nat)
    (train_loader : DataLoader) (fs : filesystem) : Py net :=
  nc <- train_loop_loading n (0%float, 0%Z, 0%Z) (dl_dataset train_loader) fs
          (batch_sampler (dl_batch_size train_loader)
             (sampler_order randperm train_loader)) ;;
  print_metrics Training (Z.of_nat epoch + 1) (snd nc)
    (DataLoader_len train_loader) ;;;
  ret (fst nc).

Definition val_epoch_loading (n : net) (epoch : nat)
    (val_loader : DataLoader) (fs : filesystem) : Py unit :=
  c <- val_loop_loading n (0%float, 0%Z, 0%Z) (dl_dataset val_loader) fs
         (batch_sampler (dl_batch_size val_loader)
            (sampler_order randperm val_loader)) ;;
  print_metrics Validation (Z.of_nat epoch + 1) c (DataLoader_len val_loader).

(** [for epoch in range(EPOCHS)], each loop drawing its batches from its
    loader. *)
Fixpoint epochs_with_loading (n : net) (range : list nat)
    (train_loader val_loader : DataLoader) (fs : filesystem) : Py net :=
  match range with
  | [] => ret n
  | epoch :: rest =>
      n' <- train_epoch_loading n epoch train_loader fs ;;
      val_epoch_loading n' epoch val_loader fs ;;;
      epochs_with_loading n' rest train_loader val_loader fs
  end.

(** [main], given the network it builds and the lines of the two files. *)
Definition main_with_loading (parse_record : string -> result row)
    (train_csv val_csv : list string) (fs : filesystem) (n : net) : Py net :=
  loaders <- load_datasets parse_record train_csv val_csv ;;
  epochs_with_loading n (seq 0 EPOCHS) (fst loaders) (snd loaders) fs.

End MainWithLoading.

(** ** Sample data for the loaders *)

(** An infinite keyframe. *)
Definition row_a_inf : row :=
  mkRow (Str "clip_a") infinity 0.125%float 0.25%float 0.5%float 0.75%float 4 "cow".

(** A row of a file whose video names are all numbers. *)
Definition row_numeric : row :=
  mkRow (Int64 7) 1.5%float 0.125%float 0.25%float 0.5%float 0.75%float 4 "cow".

Definition ds_numeric : VideoDataset := mkDataset [row_numeric] (Some transform).

Definition ds_keyframes : VideoDataset :=
  mkDataset [row_a_nan; row_a_inf] (Some transform).

(** Three rows that load. *)
Definition ds_small : VideoDataset :=
  mkDataset [row_a; row_a'; row_b] (Some transform).

Definition small_loader : DataLoader := mkDataLoader ds_small 2 false.

(** [fs_full], the third frame of [clip_a] being a directory. *)
Definition fs_third_is_directory : filesystem :=
  fun p => if String.eqb p "data/raw_frames/clip_a/img_00003.jpg"
           then Some Directory
           else fs_full p.

(** A file whose second record does not convert. *)
Definition bad_file : list string := ["header"; "a"; "zzz"; "b"]%string.

(** A header followed by blank lines only. *)
Definition header_only_file : list string := ["header"; ""; ""]%string.

(** Another toy model zoo: the same trunk and head sizes as [toy_r3d_18],
    other head weights. *)
Definition toy_r3d_18' (weights : string) : VideoResNet string :=
  mkVideoResNet weights
    (mkLinear 512 400 (mkTensor [400; 512] (fun _ => 7%Z))
                      (mkTensor [400] (fun _ => 7%Z))).

(** A single frame, not a batch of clips. *)
Definition toy_frame : tensor Z := mkTensor [3; 8; 8] (fun _ => 0%Z).

(** A loader whose batches all lack clips. *)
Definition toy_loader_none : list (batch (list (list Z))) :=
  [ (None, [3; 1]); (None, [2]) ]%Z.

(** A toy network on stacked clips: one row of three scores per clip. *)
Definition toy_tensor_forward (n : Z) (clips : tensor Z)
    : result (list (list Z)) :=
  Ok (map (fun i => [at_index clips [i; 0; 0; 0; 0]; n; 1%Z])
        (seq 0 (hd 0 (shape clips)))).

(** The order of a loader that does not shuffle, as a permutation source. *)
Definition identity_perm (n : nat) : list nat := seq 0 n.

(** * Properties *)

(** ** The [Py] monad and the log readers *)

Lemma bind_ok_inv {A B} (m : Py A) (k : A -> Py B) log b :
  bind m k = (log, Ok b) ->
  exists l1 a l2, m = (l1, Ok a) /\ k a = (l2, Ok b) /\ log = l1 ++ l2.
Proof.
  unfold bind. destruct m as [l1 [a | e]].
  - destruct (k a) as [l2 r] eqn:Hk. intros Hq. inversion Hq; subst.
    exists l1, a, l2. auto.
  - intros Hq. inversion Hq.
Qed.

Lemma bind_run {A B} (m : Py A) (k : A -> Py B) l1 a l2 r :
  m = (l1, Ok a) -> k a = (l2, r) -> bind m k = (l1 ++ l2, r).
Proof. intros -> Hk. unfold bind. rewrite Hk. reflexivity. Qed.

Lemma bind_raise {A B} (m : Py A) (k : A -> Py B) l1 e :
  m = (l1, Raise e) -> bind m k = (l1, Raise e).
Proof. intros ->. reflexivity. Qed.

Lemma bind_lift {A B} (a : A) (k : A -> Py B) : bind (lift (Ok a)) k = k a.
Proof. unfold bind, lift. destruct (k a) as [l r]. reflexivity. Qed.

Lemma probed_app l1 l2 : probed (l1 ++ l2) = probed l1 ++ probed l2.
Proof. unfold probed. apply flat_map_app. Qed.

Lemma printed_app l1 l2 : printed (l1 ++ l2) = printed l1 ++ printed l2.
Proof. unfold printed. apply flat_map_app. Qed.

(** ** Stacking *)

Lemma shape_eqb_eq s1 s2 : shape_eqb s1 s2 = true <-> s1 = s2.
Proof.
  unfold shape_eqb. destruct (list_eq_dec Nat.eq_dec s1 s2); split; congruence.
Qed.

Lemma torch_stack_inv {A} (frames : list (tensor A)) clip :
  torch_stack frames = Ok clip ->
  exists f0 rest,
    frames = f0 :: rest /\
    Forall (fun f => shape f = shape f0) frames /\
    shape clip = List.length frames :: shape f0 /\
    forall i idx d, i < List.length frames ->
      at_index clip (i :: idx) = at_index (nth i frames d) idx.
Proof.
  unfold torch_stack. destruct frames as [| f0 rest]; [discriminate |].
  destruct (forallb _ rest) eqn:Hall; [| discriminate].
  intros Hq. inversion Hq; subst clip; clear Hq.
  exists f0, rest. split; [reflexivity |]. split.
  - constructor; [reflexivity |].
    apply Forall_forall. intros f Hin.
    rewrite forallb_forall in Hall. apply shape_eqb_eq. auto.
  - split; [reflexivity |].
    intros i idx d Hi. unfold at_index at 1.
    f_equal. exact (nth_indep (f0 :: rest) f0 d Hi).
Qed.

Lemma torch_stack_uniform {A} (frames : list (tensor A)) s :
  frames <> [] ->
  Forall (fun f => shape f = s) frames ->
  exists clip, torch_stack frames = Ok clip /\
               shape clip = List.length frames :: s.
Proof.
  intros Hne Hall. destruct frames as [| f0 rest]; [congruence |].
  inversion Hall as [| ? ? H0 Hrest]; subst.
  unfold torch_stack.
  assert (Hb : forallb (fun f => shape_eqb (shape f) (shape f0)) rest = true).
  { apply forallb_forall. intros f Hin. apply shape_eqb_eq.
    rewrite Forall_forall in Hrest. auto. }
  rewrite Hb. eexists. split; reflexivity.
Qed.

(** ** The frame loop *)

Section FrameLoop.
Context `{PixelOps}.
Variable self : VideoDataset.
Variable fs : filesystem.
Variable video : string.

Lemma load_frame_run (i : nat) :
  exists log,
    load_frame self fs (Str video) i = (log, frame_of self fs video i) /\
    probed log = [frame_path video i].
Proof.
  unfold load_frame. cbn [os_fspath]. rewrite bind_lift.
  unfold frame_of, os_path_exists, read_image.
  destruct (fs (frame_path video i)) as [[| img | gif |] |]; cbn.
  - eexists; split; reflexivity.
  - destruct (self_transform self) as [tr |]; cbn.
    + destruct (tr _); eexists; split; reflexivity.
    + eexists; split; reflexivity.
  - destruct (self_transform self) as [tr |]; cbn.
    + destruct (tr _); eexists; split; reflexivity.
    + eexists; split; reflexivity.
  - eexists; split; reflexivity.
  - eexists; split; reflexivity.
Qed.

Lemma load_frame_missing (i : nat) :
  fs (frame_path video i) = None ->
  load_frame self fs (Str video) i
  = ([PathExists (frame_path video i) false],
     Ok (torch_zeros [3; IMG_HEIGHT; IMG_WIDTH])).
Proof.
  intros Hnone. unfold load_frame. cbn [os_fspath]. rewrite bind_lift.
  unfold os_path_exists. rewrite Hnone. reflexivity.
Qed.

Lemma load_frame_outcome (i : nat) :
  outcome (load_frame self fs (Str video) i) = frame_of self fs video i.
Proof. destruct (load_frame_run i) as [log [Hrun _]]. rewrite Hrun. reflexivity. Qed.

Lemma load_frames_inv (range : list nat) :
  forall acc log frames,
    load_frames self fs (Str video) range acc = (log, Ok frames) ->
    exists new,
      frames = acc ++ new /\
      Forall2 (fun i f => frame_of self fs video i = Ok f) range new /\
      probed log = map (frame_path video) range.
Proof.
  induction range as [| i rest IH]; intros acc log frames Hrun.
  - cbn in Hrun. inversion Hrun; subst. exists []. rewrite app_nil_r.
    repeat split; constructor.
  - cbn [load_frames] in Hrun.
    apply bind_ok_inv in Hrun as (l1 & f & l2 & Hf & Hrest & ->).
    destruct (load_frame_run i) as [l1' [Hrun1 Hprobe]].
    rewrite Hrun1 in Hf. inversion Hf; subst l1'.
    apply IH in Hrest as (new & -> & Hall & Hlog).
    exists (f :: new). rewrite <- app_assoc. split; [reflexivity |]. split.
    + constructor; assumption.
    + rewrite probed_app, Hprobe, Hlog. reflexivity.
Qed.

Lemma load_frames_run (range : list nat) :
  forall acc new,
    Forall2 (fun i f => frame_of self fs video i = Ok f) range new ->
    exists log, load_frames self fs (Str video) range acc = (log, Ok (acc ++ new)).
Proof.
  induction range as [| i rest IH]; intros acc new Hall.
  - inversion Hall; subst. exists []. rewrite app_nil_r. reflexivity.
  - inversion Hall as [| ? f ? new' Hf Hrest]; subst.
    destruct (load_frame_run i) as [l1 [Hrun1 _]]. rewrite Hf in Hrun1.
    destruct (IH (acc ++ [f]) new' Hrest) as [l2 Hrun2].
    exists (l1 ++ l2). cbn [load_frames].
    rewrite <- app_assoc in Hrun2.
    apply bind_run with (a := f); assumption.
Qed.

(** Whatever happens, the loop asks for the frame paths in order and for no
    other path. *)
Lemma load_frames_probes_prefix (range : list nat) :
  forall acc,
    exists k,
      probed (log_of (load_frames self fs (Str video) range acc))
      = firstn k (map (frame_path video) range).
Proof.
  induction range as [| i rest IH]; intros acc.
  - exists 0. reflexivity.
  - cbn [load_frames].
    destruct (load_frame_run i) as [l1 [Hrun1 Hprobe]].
    destruct (frame_of self fs video i) as [f | e].
    + destruct (IH (acc ++ [f])) as [k Hk].
      destruct (load_frames self fs (Str video) rest (acc ++ [f])) as [l2 r] eqn:Hrest.
      exists (S k).
      rewrite (bind_run (fun f0 => load_frames self fs (Str video) rest (acc ++ [f0]))
                 Hrun1 Hrest).
      cbn [log_of fst] in *. rewrite probed_app, Hprobe, Hk. reflexivity.
    + exists 1.
      rewrite (bind_raise (fun f0 => load_frames self fs (Str video) rest (acc ++ [f0]))
                 Hrun1). cbn [log_of fst].
      rewrite Hprobe. reflexivity.
Qed.

End FrameLoop.

(** A video name that is not a [str] stops the loop in [os.path.join] of
    its first round. *)
Lemma load_frames_not_str `{PixelOps} (self : VideoDataset) (fs : filesystem)
    (name : cell) (range : list nat) (acc : list (tensor elt)) log frames :
  load_frames self fs name range acc = (log, Ok frames) ->
  range <> [] ->
  exists video, name = Str video.
Proof.
  destruct name as [video | z | x | b]; [eauto | | |];
    (destruct range as [| i rest]; [congruence |]; cbn; discriminate).
Qed.

Lemma load_frames_raise_not_str `{PixelOps} (self : VideoDataset)
    (fs : filesystem) (name : cell) (i : nat) (rest : list nat)
    (acc : list (tensor elt)) :
  os_fspath name = Raise TypeError ->
  load_frames self fs name (i :: rest) acc = ([], Raise TypeError).
Proof.
  intros Hname. cbn [load_frames]. unfold load_frame. rewrite Hname. reflexivity.
Qed.

Lemma bind_assoc {A B C} (m : Py A) (f : A -> Py B) (g : B -> Py C) :
  bind (bind m f) g = bind m (fun x => bind (f x) g).
Proof.
  unfold bind. destruct m as [l1 [a | e]]; [| reflexivity].
  destruct (f a) as [l2 [b | e]]; [| reflexivity].
  destruct (g b) as [l3 r]. rewrite app_assoc. reflexivity.
Qed.

(** ** [__getitem__] by stages *)

Section GetItem.
Context `{PixelOps}.
Variable self : VideoDataset.
Variable fs : filesystem.

Lemma getitem_stages (idx : Z) :
  VideoDataset_getitem self fs idx
  = (r <- lift (iloc (annotations self) idx) ;;
     clip <- build_clip self fs r ;;
     finish_item idx r clip).
Proof.
  unfold VideoDataset_getitem, build_clip.
  destruct (iloc (annotations self) idx) as [r | e]; [| reflexivity].
  rewrite !bind_lift, bind_assoc.
  destruct (py_int_of_float _) as [k | e]; [| reflexivity].
  rewrite !bind_lift, bind_assoc. reflexivity.
Qed.

Lemma getitem_row (idx : Z) (r : row) :
  iloc (annotations self) idx = Ok r ->
  VideoDataset_getitem self fs idx
  = (clip <- build_clip self fs r ;; finish_item idx r clip).
Proof. intros Hr. rewrite getitem_stages, Hr, bind_lift. reflexivity. Qed.

Lemma finish_item_run (idx : Z) (r : row) (clip : tensor elt) :
  finish_item idx r clip
  = ((if label_is_invalid (behavior_category r - 2)
      then [Print (invalid_label_message (behavior_category r - 2) idx)]
      else []),
     Ok (clip, (behavior_category r - 2)%Z)).
Proof.
  unfold finish_item. cbv zeta.
  destruct (label_is_invalid _); reflexivity.
Qed.

Lemma build_clip_inv (r : row) log clip :
  build_clip self fs r = (log, Ok clip) ->
  exists k video frames,
    py_int_of_float (PrimFloat.mul (keyframe r) 30) = Ok k /\
    video_name r = Str video /\
    load_frames self fs (Str video) (seq 0 NUM_FRAMES) [] = (log, Ok frames) /\
    torch_stack frames = Ok clip.
Proof.
  unfold build_clip. intros Hrun.
  apply bind_ok_inv in Hrun as (l0 & k & l1 & Hk & Hrun & ->).
  apply bind_ok_inv in Hrun as (l2 & frames & l3 & Hfr & Hst & ->).
  unfold lift in Hk, Hst. inversion Hk; subst. inversion Hst; subst.
  destruct (@load_frames_not_str _ _ _ _ _ _ _ _ Hfr) as [video Hname].
  { intros Hnil. apply (f_equal (@List.length nat)) in Hnil.
    rewrite length_seq in Hnil. discriminate Hnil. }
  exists k, video, frames. rewrite app_nil_r. cbn [app].
  rewrite Hname in Hfr. auto.
Qed.

Lemma build_clip_run (r : row) k video log frames clip :
  py_int_of_float (PrimFloat.mul (keyframe r) 30) = Ok k ->
  video_name r = Str video ->
  load_frames self fs (Str video) (seq 0 NUM_FRAMES) [] = (log, Ok frames) ->
  torch_stack frames = Ok clip ->
  build_clip self fs r = (log, Ok clip).
Proof.
  intros Hk Hname Hfr Hst. unfold build_clip. rewrite Hk, bind_lift, Hname.
  rewrite <- (app_nil_r log). eapply bind_run; [exact Hfr |].
  unfold lift. rewrite Hst. reflexivity.
Qed.

Lemma getitem_inv (idx : Z) log clip label :
  VideoDataset_getitem self fs idx = (log, Ok (clip, label)) ->
  exists r l1,
    iloc (annotations self) idx = Ok r /\
    build_clip self fs r = (l1, Ok clip) /\
    label = (behavior_category r - 2)%Z /\
    log = l1 ++ (if label_is_invalid label
                 then [Print (invalid_label_message label idx)] else []).
Proof.
  rewrite getitem_stages. intros Hrun.
  apply bind_ok_inv in Hrun as (l0 & r & l & Hr & Hrun & ->).
  unfold lift in Hr. inversion Hr; subst l0.
  apply bind_ok_inv in Hrun as (l1 & clip' & l2 & Hclip & Hfin & ->).
  rewrite finish_item_run in Hfin. inversion Hfin; subst.
  exists r, l1. cbn [app]. auto.
Qed.

End GetItem.

(** ** Rows and indices *)

Lemma iloc_inv {A} (df : list A) (idx : Z) (r : A) :
  iloc df idx = Ok r ->
  let n := Z.of_nat (List.length df) in
  (- n <= idx < n)%Z /\
  nth_error df (Z.to_nat (if (idx <? 0)%Z then n + idx else idx)%Z) = Some r.
Proof.
  unfold iloc. cbv zeta.
  set (n := Z.of_nat (List.length df)).
  set (pos := if (idx <? 0)%Z then (n + idx)%Z else idx).
  destruct ((0 <=? pos)%Z && (pos <? n)%Z)%bool eqn:Hin; [| discriminate].
  destruct (nth_error df (Z.to_nat pos)) as [r' |] eqn:Hnth; [| discriminate].
  intros Hq. inversion Hq; subst r'. split; [| reflexivity].
  apply andb_true_iff in Hin as [Hlo Hhi].
  apply Z.leb_le in Hlo. apply Z.ltb_lt in Hhi.
  subst pos. destruct (idx <? 0)%Z eqn:Hneg.
  - apply Z.ltb_lt in Hneg. lia.
  - apply Z.ltb_ge in Hneg. lia.
Qed.

Lemma iloc_nat {A} (df : list A) (i : nat) (r : A) :
  nth_error df i = Some r -> iloc df (Z.of_nat i) = Ok r.
Proof.
  intros Hnth. unfold iloc.
  assert (Hlt : i < List.length df) by (apply nth_error_Some; congruence).
  destruct (Z.of_nat i <? 0)%Z eqn:Hneg; [apply Z.ltb_lt in Hneg; lia |].
  assert (Hin : ((0 <=? Z.of_nat i)%Z && (Z.of_nat i <? Z.of_nat (List.length df))%Z)%bool = true).
  { apply andb_true_iff. split; [apply Z.leb_le | apply Z.ltb_lt]; lia. }
  rewrite Hin, Nat2Z.id, Hnth. reflexivity.
Qed.

(** ** The clip *)

Section Clip.
Context `{PixelOps}.

(** C1. Whenever [__getitem__] returns, the row's video name is a [str],
    it has asked [os.path.exists] for exactly the 450 paths [img_00001.jpg]
    to [img_00450.jpg] joined to [DATA_DIR] and that name, in order, and the
    clip is the stack
    of exactly 450 frame tensors, the one at position [i] being what the
    loop body produced for frame [i]. *)
Theorem getitem_stacks_450_frames
    (self : VideoDataset) (fs : filesystem) (idx : Z) log clip label :
  VideoDataset_getitem self fs idx = (log, Ok (clip, label)) ->
  exists r video frames,
    iloc (annotations self) idx = Ok r /\
    video_name r = Str video /\
    probed log
    = map (fun i => os_path_join DATA_DIR [video; frame_file i])
        (seq 0 450) /\
    frame_file 0 = "img_00001.jpg"%string /\
    frame_file 449 = "img_00450.jpg"%string /\
    List.length frames = 450 /\
    Forall2 (fun i f => outcome (load_frame self fs (video_name r) i) = Ok f)
      (seq 0 450) frames /\
    torch_stack frames = Ok clip /\
    (exists frame_shape, shape clip = 450 :: frame_shape) /\
    (forall i rest, i < 450 ->
       at_index clip (i :: rest) = at_index (nth i frames clip) rest).
Proof.
  intros Hrun. change 450 with NUM_FRAMES.
  apply getitem_inv in Hrun as (r & l1 & Hr & Hclip & _ & ->).
  apply build_clip_inv in Hclip as (k & video & frames & _ & Hname & Hframes & Hstack).
  apply load_frames_inv in Hframes as (new & Hnew & Hall & Hlog).
  cbn [app] in Hnew. subst new.
  assert (Hlen : List.length frames = NUM_FRAMES).
  { rewrite <- (Forall2_length Hall). apply length_seq. }
  exists r, video, frames. split; [exact Hr |]. split; [exact Hname |]. split.
  { rewrite probed_app, Hlog.
    destruct (label_is_invalid label); cbn [probed flat_map app];
      rewrite app_nil_r; reflexivity. }
  split; [reflexivity |]. split; [reflexivity |]. split; [exact Hlen |]. split.
  { eapply Forall2_impl; [| exact Hall].
    intros i f Hf. rewrite Hname, load_frame_outcome. exact Hf. }
  split; [exact Hstack |].
  apply torch_stack_inv in Hstack as (f0 & rest & _ & _ & Hshape & Hat).
  rewrite Hlen in Hshape, Hat. split.
  - exists (shape f0). exact Hshape.
  - intros i idx' Hi. apply Hat. exact Hi.
Qed.

(** C5. The label [__getitem__] returns is the [behavior_category] of the
    row at [idx], minus 2. *)
Theorem getitem_label_is_category_minus_2
    (self : VideoDataset) (fs : filesystem) (idx : Z) log clip label :
  VideoDataset_getitem self fs idx = (log, Ok (clip, label)) ->
  exists r,
    iloc (annotations self) idx = Ok r /\
    ((0 <= idx)%Z -> nth_error (annotations self) (Z.to_nat idx) = Some r) /\
    label = (behavior_category r - 2)%Z.
Proof.
  intros Hrun.
  apply getitem_inv in Hrun as (r & l1 & Hr & _ & Hlabel & _).
  exists r. split; [exact Hr |]. split; [| exact Hlabel].
  intros Hpos. apply iloc_inv in Hr as [_ Hnth].
  destruct (idx <? 0)%Z eqn:Hneg; [apply Z.ltb_lt in Hneg; lia |].
  exact Hnth.
Qed.

(** C10. When the adjusted label is outside [0, NUM_CLASSES) and the clip
    of the row has been built, [__getitem__] prints the diagnostic line
    last and returns that clip with the label as it is. *)
Theorem getitem_keeps_invalid_label
    (self : VideoDataset) (fs : filesystem) (idx : Z) (r : row) log clip :
  iloc (annotations self) idx = Ok r ->
  build_clip self fs r = (log, Ok clip) ->
  (behavior_category r - 2 < 0 \/ behavior_category r - 2 >= NUM_CLASSES)%Z ->
  VideoDataset_getitem self fs idx
  = (log ++ [Print (invalid_label_message (behavior_category r - 2) idx)],
     Ok (clip, (behavior_category r - 2)%Z)).
Proof.
  intros Hr Hclip Hbad. rewrite (@getitem_row _ self fs idx r Hr).
  eapply bind_run; [exact Hclip |].
  rewrite finish_item_run.
  assert (Hinv : label_is_invalid (behavior_category r - 2) = true).
  { unfold label_is_invalid. apply orb_true_iff.
    destruct Hbad as [Hlo | Hhi]; [left; apply Z.ltb_lt | right; apply Z.geb_le]; lia. }
  rewrite Hinv. reflexivity.
Qed.

(** The clip stage never looks at the label: rows that differ in
    [behavior_category] only build the same clip. *)
Lemma build_clip_ignores_label (self : VideoDataset) (fs : filesystem)
    (r : row) (c : Z) :
  build_clip self fs
    (mkRow (video_name r) (keyframe r) (x1 r) (y1 r) (x2 r) (y2 r) c
       (animal_category r))
  = build_clip self fs r.
Proof. reflexivity. Qed.

End Clip.

Lemma Forall2_nth_rel {A B} (P : A -> B -> Prop) (l1 : list A) (l2 : list B) :
  Forall2 P l1 l2 ->
  forall i d1 d2, i < List.length l1 -> P (nth i l1 d1) (nth i l2 d2).
Proof.
  induction 1 as [| a b l1 l2 Hab Hrest IH]; intros i d1 d2 Hi.
  - cbn in Hi. lia.
  - destruct i as [| i]; cbn in *; [exact Hab | apply IH; lia].
Qed.

Lemma Forall2_rebuild {A B} (P Q : A -> B -> Prop) (R : B -> Prop)
    (l1 : list A) (l2 : list B) :
  Forall2 P l1 l2 ->
  (forall a b, In a l1 -> P a b -> exists b', Q a b' /\ R b') ->
  exists l2', Forall2 Q l1 l2' /\ Forall R l2'.
Proof.
  intros Hall.
  induction Hall as [| a b l1 l2 Hab Hrest IH]; intros Hstep.
  - exists []. split; constructor.
  - destruct IH as (l2' & HQ & HR).
    { intros a' b' Hin. apply Hstep. right. exact Hin. }
    destruct (Hstep a b (or_introl eq_refl) Hab) as (b' & Hq & Hr).
    exists (b' :: l2'). split; constructor; assumption.
Qed.

(** ** The module-level transform *)

Section ModuleTransform.
Context `{PixelOps}.

Lemma transform_3d (t : tensor elt) (c h w : nat) :
  shape t = [c; h; w] ->
  if Nat.eqb c 3
  then exists t', transform t = Ok t' /\ shape t' = [3; IMG_HEIGHT; IMG_WIDTH]
  else transform t = Raise RuntimeError.
Proof.
  intros Hshape. unfold transform, Compose. cbn [fold_left result_bind].
  unfold Resize. rewrite Hshape. cbn [rev app result_bind List.length Nat.leb].
  unfold Normalize. cbn [shape].
  destruct c as [| [| [| [| c']]]]; cbn; try reflexivity.
  eexists. split; reflexivity.
Qed.

Lemma transform_4d (t : tensor elt) (n h w : nat) :
  shape t = [n; 3; h; w] ->
  exists t', transform t = Ok t' /\ shape t' = [n; 3; IMG_HEIGHT; IMG_WIDTH].
Proof.
  intros Hshape. unfold transform, Compose. cbn [fold_left result_bind].
  unfold Resize. rewrite Hshape. cbn [rev app result_bind List.length Nat.leb].
  unfold Normalize. cbn. eexists. split; reflexivity.
Qed.

Lemma transform_frame_shaped : frame_shaped transform.
Proof.
  intros t t' Hdim Hrun.
  destruct (shape t) as [| c [| h [| w [| ? ?]]]] eqn:Hshape; try discriminate.
  pose proof (transform_3d t Hshape) as Hcase.
  destruct (Nat.eqb c 3).
  - destruct Hcase as (t'' & Ht & Hs). rewrite Hrun in Ht. inversion Ht; subst.
    exact Hs.
  - rewrite Hrun in Hcase. discriminate.
Qed.

Lemma decode_gif_single (gif : animation) :
  n_frames gif = 1 ->
  shape (tensor_map unit_of_byte (decode_gif gif))
  = [3; gif_height gif; gif_width gif].
Proof. intros Hn. unfold decode_gif. rewrite Hn. reflexivity. Qed.

Lemma decode_gif_several (gif : animation) :
  n_frames gif <> 1 ->
  shape (tensor_map unit_of_byte (decode_gif gif))
  = [n_frames gif; 3; gif_height gif; gif_width gif].
Proof.
  intros Hn. unfold decode_gif.
  destruct (Nat.eqb (n_frames gif) 1) eqn:Hq; [| reflexivity].
  apply Nat.eqb_eq in Hq. contradiction.
Qed.

Lemma frame_of_shape (self : VideoDataset) (fs : filesystem) (video : string)
    (tr : transform_t) (i : nat) (f : tensor elt) :
  self_transform self = Some tr ->
  frame_shaped tr ->
  (forall gif, fs (frame_path video i) = Some (AnimatedFile gif) ->
               n_frames gif = 1) ->
  frame_of self fs video i = Ok f ->
  shape f = [3; IMG_HEIGHT; IMG_WIDTH].
Proof.
  intros Htr Hshaped Hsingle. unfold frame_of. rewrite Htr.
  destruct (fs (frame_path video i)) as [[| img | gif |] |]; try discriminate.
  - intros Hf. apply (Hshaped (tensor_map unit_of_byte (decode img)) f); [reflexivity | exact Hf].
  - intros Hf. apply (Hshaped (tensor_map unit_of_byte (decode_gif gif)) f); [| exact Hf].
    rewrite (decode_gif_single gif (Hsingle gif eq_refl)). reflexivity.
  - intros Hq. inversion Hq. reflexivity.
Qed.

(** With the module-level transform, the loop body returns exactly at the
    paths that have a frame shape, and the frame has that shape. *)
Lemma module_frame_of_inv (rows : list row) (fs : filesystem) (video : string)
    (i : nat) (f : tensor elt) :
  frame_of (mkDataset rows (Some transform)) fs video i = Ok f ->
  module_frame_shape fs (frame_path video i) = Some (shape f).
Proof.
  unfold frame_of, module_frame_shape. cbn [self_transform].
  destruct (fs (frame_path video i)) as [[| img | gif |] |]; try discriminate.
  - pose proof (@transform_3d (tensor_map unit_of_byte (decode img))
                  (channels img) (height img) (width img) eq_refl) as Hcase.
    destruct (Nat.eqb (channels img) 3).
    + destruct Hcase as (t' & Ht & Hs). rewrite Ht. intros Hq. inversion Hq; subst.
      rewrite Hs. reflexivity.
    + rewrite Hcase. discriminate.
  - destruct (Nat.eqb (n_frames gif) 1) eqn:Hn.
    + apply Nat.eqb_eq in Hn.
      pose proof (@transform_3d (tensor_map unit_of_byte (decode_gif gif))
                    3 (gif_height gif) (gif_width gif)
                    (decode_gif_single gif Hn)) as Hcase.
      cbn [Nat.eqb] in Hcase. destruct Hcase as (t' & Ht & Hs). rewrite Ht.
      intros Hq. inversion Hq; subst. rewrite Hs. reflexivity.
    + apply Nat.eqb_neq in Hn.
      destruct (@transform_4d (tensor_map unit_of_byte (decode_gif gif))
                  (n_frames gif) (gif_height gif) (gif_width gif)
                  (decode_gif_several gif Hn)) as (t' & Ht & Hs).
      rewrite Ht. intros Hq. inversion Hq; subst. rewrite Hs. reflexivity.
  - intros Hq. inversion Hq. reflexivity.
Qed.

Lemma module_frame_of_run (rows : list row) (fs : filesystem) (video : string)
    (i : nat) (s : list nat) :
  module_frame_shape fs (frame_path video i) = Some s ->
  exists f, frame_of (mkDataset rows (Some transform)) fs video i = Ok f /\
            shape f = s.
Proof.
  unfold frame_of, module_frame_shape. cbn [self_transform].
  destruct (fs (frame_path video i)) as [[| img | gif |] |]; try discriminate.
  - pose proof (@transform_3d (tensor_map unit_of_byte (decode img))
                  (channels img) (height img) (width img) eq_refl) as Hcase.
    destruct (Nat.eqb (channels img) 3); [| discriminate].
    intros Hq. inversion Hq; subst. exact Hcase.
  - destruct (Nat.eqb (n_frames gif) 1) eqn:Hn; intros Hq; inversion Hq; subst.
    + apply Nat.eqb_eq in Hn.
      exact (@transform_3d (tensor_map unit_of_byte (decode_gif gif))
               3 (gif_height gif) (gif_width gif) (decode_gif_single gif Hn)).
    + apply Nat.eqb_neq in Hn.
      exact (@transform_4d (tensor_map unit_of_byte (decode_gif gif))
               (n_frames gif) (gif_height gif) (gif_width gif)
               (decode_gif_several gif Hn)).
  - intros Hq. inversion Hq; subst. eexists. split; reflexivity.
Qed.

Lemma module_frame_shape_cases (fs : filesystem) (path : string) (s : list nat) :
  module_frame_shape fs path = Some s ->
  s = [3; IMG_HEIGHT; IMG_WIDTH] \/
  exists gif, fs path = Some (AnimatedFile gif) /\ n_frames gif <> 1 /\
              s = [n_frames gif; 3; IMG_HEIGHT; IMG_WIDTH].
Proof.
  unfold module_frame_shape.
  destruct (fs path) as [[| img | gif |] |]; try discriminate.
  - destruct (Nat.eqb (channels img) 3); [| discriminate].
    intros Hq. inversion Hq. left. reflexivity.
  - destruct (Nat.eqb (n_frames gif) 1) eqn:Hn; intros Hq; inversion Hq.
    + left. reflexivity.
    + right. exists gif. apply Nat.eqb_neq in Hn. auto.
  - intros Hq. inversion Hq. left. reflexivity.
Qed.

Lemma usable_frame_shape (fs : filesystem) (path : string) :
  usable fs path <-> module_frame_shape fs path = Some [3; IMG_HEIGHT; IMG_WIDTH].
Proof.
  unfold usable, module_frame_shape.
  destruct (fs path) as [[| img | gif |] |].
  - split; [contradiction | discriminate].
  - destruct (Nat.eqb (channels img) 3) eqn:Hc.
    + apply Nat.eqb_eq in Hc. tauto.
    + apply Nat.eqb_neq in Hc. split; [contradiction | discriminate].
  - destruct (Nat.eqb (n_frames gif) 1) eqn:Hn.
    + apply Nat.eqb_eq in Hn. tauto.
    + apply Nat.eqb_neq in Hn. split; [contradiction |].
      intros Hq. inversion Hq.
  - split; [contradiction | discriminate].
  - tauto.
Qed.

(** The frames of a clip returned under the module-level transform: every
    frame position has the frame shape of the clip. *)
Lemma module_clip_frames (rows : list row) (fs : filesystem) (idx : Z)
    log clip label :
  VideoDataset_getitem (mkDataset rows (Some transform)) fs idx
  = (log, Ok (clip, label)) ->
  exists r video s,
    iloc rows idx = Ok r /\ video_name r = Str video /\
    shape clip = NUM_FRAMES :: s /\
    forall i, i < NUM_FRAMES ->
      module_frame_shape fs (frame_path video i) = Some s.
Proof.
  intros Hrun.
  apply getitem_inv in Hrun as (r & l1 & Hr & Hclip & _ & _).
  apply build_clip_inv in Hclip as (k & video & frames & _ & Hname & Hframes & Hstack).
  apply load_frames_inv in Hframes as (new & Hnew & Hall & _).
  cbn [app] in Hnew. subst new.
  assert (Hlen : List.length frames = NUM_FRAMES).
  { rewrite <- (Forall2_length Hall). apply length_seq. }
  apply torch_stack_inv in Hstack as (f0 & rest & _ & Hsame & Hshape & _).
  exists r, video, (shape f0). split; [exact Hr |]. split; [exact Hname |].
  split; [rewrite Hshape, Hlen; reflexivity |].
  intros i Hi.
  assert (Hi' : i < List.length (seq 0 NUM_FRAMES)) by (rewrite length_seq; exact Hi).
  pose proof (Forall2_nth_rel Hall 0 f0 Hi') as Hf.
  rewrite seq_nth in Hf by exact Hi. cbn [Nat.add] in Hf.
  apply module_frame_of_inv in Hf. rewrite Hf. f_equal.
  rewrite Forall_forall in Hsame. apply Hsame. apply nth_In.
  rewrite Hlen. exact Hi.
Qed.


End ModuleTransform.

(** ** Missing frames *)

Section MissingFrames.
Context `{PixelOps}.

Lemma frame_of_after_removal (self : VideoDataset) (fs0 fs : filesystem)
    (video : string) (tr : transform_t) (i : nat) (f0 : tensor elt) :
  self_transform self = Some tr ->
  frame_shaped tr ->
  (forall gif, fs0 (frame_path video i) = Some (AnimatedFile gif) ->
               n_frames gif = 1) ->
  files_removed fs0 fs ->
  frame_of self fs0 video i = Ok f0 ->
  exists f, frame_of self fs video i = Ok f /\
            shape f = [3; IMG_HEIGHT; IMG_WIDTH].
Proof.
  intros Htr Hshaped Hsingle Hrem Hf0.
  destruct (Hrem (frame_path video i)) as [Hsame | Hgone].
  - exists f0. split.
    + unfold frame_of in *. rewrite Hsame. exact Hf0.
    + eapply frame_of_shape; eassumption.
  - exists (torch_zeros [3; IMG_HEIGHT; IMG_WIDTH]). split; [| reflexivity].
    unfold frame_of. rewrite Hgone. reflexivity.
Qed.

(** C2, as the code has it. For the row at [idx], its video name being a
    [str]: a frame position whose file does not exist makes the loop body
    append a zero tensor of shape [3; IMG_HEIGHT; IMG_WIDTH] without
    raising, and every clip returned is zero at that position; and when no
    frame file of the video holds several images and the dataset's
    transform gives every single image that same shape (as the module-level
    transform does), removing frame files from a file system on which
    [__getitem__] returns leaves it returning, with the same label. *)
Theorem missing_frames_are_zero_filled
    (self : VideoDataset) (fs : filesystem) (idx : Z) (r : row)
    (video : string) :
  iloc (annotations self) idx = Ok r ->
  video_name r = Str video ->
  (forall i, i < 450 -> fs (frame_path video i) = None ->
     load_frame self fs (video_name r) i
     = ([PathExists (frame_path video i) false],
        Ok (torch_zeros [3; IMG_HEIGHT; IMG_WIDTH]))) /\
  (forall log clip label i rest,
     VideoDataset_getitem self fs idx = (log, Ok (clip, label)) ->
     i < 450 -> fs (frame_path video i) = None ->
     at_index clip (i :: rest) = zero) /\
  (forall tr fs0 log0 clip0 label,
     self_transform self = Some tr ->
     frame_shaped tr ->
     single_images fs0 video ->
     files_removed fs0 fs ->
     VideoDataset_getitem self fs0 idx = (log0, Ok (clip0, label)) ->
     exists log clip,
       VideoDataset_getitem self fs idx = (log, Ok (clip, label))).
Proof.
  intros Hr Hname. split; [| split].
  - intros i _ Hnone. rewrite Hname. apply load_frame_missing. exact Hnone.
  - intros log clip label i rest Hrun Hi Hnone.
    apply getitem_inv in Hrun as (r' & l1 & Hr' & Hclip & _ & _).
    rewrite Hr in Hr'. inversion Hr'; subst r'.
    apply build_clip_inv in Hclip as (k & video' & frames & _ & Hname' & Hframes & Hstack).
    rewrite Hname in Hname'. inversion Hname'; subst video'.
    apply load_frames_inv in Hframes as (new & Hnew & Hall & _).
    cbn [app] in Hnew. subst new.
    assert (Hlen : List.length frames = NUM_FRAMES).
    { rewrite <- (Forall2_length Hall). apply length_seq. }
    apply torch_stack_inv in Hstack as (f0 & rest0 & _ & _ & _ & Hat).
    rewrite (Hat i rest clip) by (rewrite Hlen; exact Hi).
    assert (Hi' : i < List.length (seq 0 NUM_FRAMES)) by (rewrite length_seq; exact Hi).
    pose proof (Forall2_nth_rel Hall 0 clip Hi') as Hf.
    rewrite seq_nth in Hf by exact Hi. cbn [Nat.add] in Hf.
    unfold frame_of in Hf. rewrite Hnone in Hf. inversion Hf as [Hz].
    reflexivity.
  - intros tr fs0 log0 clip0 label Htr Hshaped Hsingle Hrem Hrun.
    apply getitem_inv in Hrun as (r' & l1 & Hr' & Hclip & Hlabel & _).
    rewrite Hr in Hr'. inversion Hr'; subst r'.
    apply build_clip_inv in Hclip as (k & video' & frames0 & Hk & Hname' & Hframes & _).
    rewrite Hname in Hname'. inversion Hname'; subst video'.
    apply load_frames_inv in Hframes as (new & Hnew & Hall & _).
    destruct (Forall2_rebuild
                (fun i f => frame_of self fs video i = Ok f)
                (fun f => shape f = [3; IMG_HEIGHT; IMG_WIDTH]) Hall)
      as (frames & Hall' & Hshapes).
    { intros i f0 Hin Hf0. apply in_seq in Hin.
      eapply frame_of_after_removal; try eassumption.
      intros gif Hgif. exact (Hsingle i gif (proj2 Hin) Hgif). }
    destruct (load_frames_run self fs video [] Hall') as [log Hload].
    cbn [app] in Hload.
    destruct (torch_stack_uniform (frames := frames) (s := [3; IMG_HEIGHT; IMG_WIDTH]))
      as (clip & Hstack & _).
    { intros Hnil. apply Forall2_length in Hall'. rewrite length_seq in Hall'.
      subst frames. discriminate Hall'. }
    { exact Hshapes. }
    exists (log ++ (if label_is_invalid (behavior_category r - 2)
                    then [Print (invalid_label_message (behavior_category r - 2) idx)]
                    else [])), clip.
    rewrite (@getitem_row _ self fs idx r Hr). subst label.
    eapply bind_run.
    + eapply build_clip_run; eassumption.
    + apply finish_item_run.
Qed.

(** C3, as the code has it. Two rows with the same [video_name] whose
    keyframes both convert to a frame index give, on a fixed file system,
    the same clip or the same exception, and ask for the same paths: the
    box, the animal and the behaviour columns play no part. *)
Theorem clip_depends_on_video_name_only
    (self : VideoDataset) (fs : filesystem) (i j : Z) (ri rj : row) :
  iloc (annotations self) i = Ok ri ->
  iloc (annotations self) j = Ok rj ->
  video_name ri = video_name rj ->
  is_ok (py_int_of_float (PrimFloat.mul (keyframe ri) 30)) = true ->
  is_ok (py_int_of_float (PrimFloat.mul (keyframe rj) 30)) = true ->
  result_map fst (outcome (VideoDataset_getitem self fs i))
  = result_map fst (outcome (VideoDataset_getitem self fs j)) /\
  probed (log_of (VideoDataset_getitem self fs i))
  = probed (log_of (VideoDataset_getitem self fs j)).
Proof.
  intros Hi Hj Hvideo Hki Hkj.
  rewrite (@getitem_row _ self fs i ri Hi), (@getitem_row _ self fs j rj Hj).
  assert (Hsame : build_clip self fs ri = build_clip self fs rj).
  { unfold build_clip.
    destruct (py_int_of_float (PrimFloat.mul (keyframe ri) 30)); [| discriminate].
    destruct (py_int_of_float (PrimFloat.mul (keyframe rj) 30)); [| discriminate].
    rewrite !bind_lift, Hvideo. reflexivity. }
  rewrite Hsame.
  destruct (build_clip self fs rj) as [l [clip | e]] eqn:Hclip.
  - rewrite (bind_run (fun c => finish_item i ri c) eq_refl (finish_item_run i ri clip)).
    rewrite (bind_run (fun c => finish_item j rj c) eq_refl (finish_item_run j rj clip)).
    cbn [outcome log_of fst snd result_map]. split; [reflexivity |].
    rewrite !probed_app.
    destruct (label_is_invalid _), (label_is_invalid _); reflexivity.
  - split; reflexivity.
Qed.

End MissingFrames.

(** ** When [__getitem__] returns *)

Lemma run_returns {A} (m : Py A) :
  is_ok (outcome m) = true -> exists log a, m = (log, Ok a).
Proof.
  destruct m as [log [a | e]]; cbn; intros Hok; [eauto | discriminate].
Qed.

Lemma Forall2_build {A B} (P : A -> B -> Prop) (l : list A) :
  (forall a, In a l -> exists b, P a b) -> exists l', Forall2 P l l'.
Proof.
  induction l as [| a l IH]; intros Hstep.
  - exists []. constructor.
  - destruct (Hstep a (or_introl eq_refl)) as [b Hb].
    destruct IH as [l' Hl']; [intros x Hx; apply Hstep; right; exact Hx |].
    exists (b :: l'). constructor; assumption.
Qed.

Section Returns.
Context `{PixelOps}.

Lemma transform_rgb_ok (t : tensor elt) (h w : nat) :
  shape t = [3; h; w] -> exists t', transform t = Ok t'.
Proof.
  intros Hshape. unfold transform, Compose. cbn [fold_left result_bind].
  unfold Resize. rewrite Hshape. cbn [rev app result_bind].
  unfold Normalize. cbn. eexists. reflexivity.
Qed.

(** With the module-level transform [__getitem__] returns for every row in
    range whose keyframe converts, whose video name is a [str] and whose
    frame positions all have one frame shape. *)
Lemma getitem_module_returns (rows : list row) (fs : filesystem) (idx : Z)
    (r : row) (video : string) (s : list nat) :
  iloc rows idx = Ok r ->
  is_ok (py_int_of_float (PrimFloat.mul (keyframe r) 30)) = true ->
  video_name r = Str video ->
  (forall i, i < NUM_FRAMES ->
     module_frame_shape fs (frame_path video i) = Some s) ->
  exists log clip,
    VideoDataset_getitem (mkDataset rows (Some transform)) fs idx
    = (log, Ok (clip, (behavior_category r - 2)%Z)) /\
    shape clip = NUM_FRAMES :: s.
Proof.
  intros Hr Hk Hname Hshape.
  set (self := mkDataset rows (Some transform)).
  destruct (py_int_of_float (PrimFloat.mul (keyframe r) 30)) as [k |] eqn:Hkf;
    [| discriminate].
  destruct (Forall2_build
              (fun i f => frame_of self fs video i = Ok f /\ shape f = s)
              (seq 0 NUM_FRAMES)) as [frames Hall].
  { intros i Hin. apply in_seq in Hin.
    exact (module_frame_of_run rows fs video i (Hshape i (proj2 Hin))). }
  assert (Hall' : Forall2 (fun i f => frame_of self fs video i = Ok f)
                    (seq 0 NUM_FRAMES) frames).
  { eapply Forall2_impl; [| exact Hall]. intros i f [Hf _]. exact Hf. }
  assert (Hshapes : Forall (fun f => shape f = s) frames).
  { clear - Hall. induction Hall as [| i f range fr [_ Hs] _ IH]; constructor; assumption. }
  destruct (load_frames_run self fs video [] Hall') as [log Hload].
  cbn [app] in Hload.
  destruct (torch_stack_uniform (frames := frames) (s := s))
    as (clip & Hstack & Hclip); [| exact Hshapes |].
  { intros Hnil. apply Forall2_length in Hall'. rewrite length_seq in Hall'.
    subst frames. discriminate Hall'. }
  exists (log ++ (if label_is_invalid (behavior_category r - 2)
                  then [Print (invalid_label_message (behavior_category r - 2) idx)]
                  else [])), clip.
  split.
  - rewrite (@getitem_row _ self fs idx r Hr).
    eapply bind_run.
    + eapply build_clip_run; eassumption.
    + apply finish_item_run.
  - rewrite Hclip. f_equal.
    rewrite <- (Forall2_length Hall'). apply length_seq.
Qed.

End Returns.

(** ** Runs on the sample data *)

Lemma fs_full_single_images (video : string) : single_images fs_full video.
Proof. intros i gif _ Hfile. discriminate Hfile. Qed.

Lemma fs_second_missing_removed : files_removed fs_full fs_second_missing.
Proof.
  intros p. unfold fs_second_missing.
  destruct (String.eqb p _); [right | left]; reflexivity.
Qed.

(** C1 on the first sample row, with one frame missing. *)
Lemma getitem_stacks_450_frames_witness :
  exists log clip label r frames,
    VideoDataset_getitem ds_module fs_second_missing 0 = (log, Ok (clip, label)) /\
    iloc (annotations ds_module) 0 = Ok r /\
    List.length (probed log) = 450 /\
    List.length frames = 450 /\
    torch_stack frames = Ok clip.
Proof.
  destruct (run_returns (VideoDataset_getitem ds_module fs_second_missing 0))
    as (log & [clip label] & Hrun); [vm_compute; reflexivity |].
  destruct (getitem_stacks_450_frames ds_module fs_second_missing 0 Hrun)
    as (r & video & frames & Hr & _ & Hlog & _ & _ & Hlen & _ & Hstack & _).
  exists log, clip, label, r, frames.
  repeat split; try assumption.
  rewrite Hlog, length_map. apply length_seq.
Defined.

(** C5 on the first sample row: category 4 gives label 2. *)
Lemma getitem_label_is_category_minus_2_witness :
  exists log clip label r,
    VideoDataset_getitem ds_plain fs_full 0 = (log, Ok (clip, label)) /\
    iloc (annotations ds_plain) 0 = Ok r /\
    label = (behavior_category r - 2)%Z.
Proof.
  destruct (run_returns (VideoDataset_getitem ds_plain fs_full 0))
    as (log & [clip label] & Hrun); [vm_compute; reflexivity |].
  destruct (getitem_label_is_category_minus_2 ds_plain fs_full 0 Hrun)
    as (r & Hr & _ & Hlabel).
  exists log, clip, label, r. auto.
Defined.



(** C10 on the row whose category is 20. *)
Lemma getitem_keeps_invalid_label_witness :
  exists log clip,
    build_clip ds_module fs_empty row_b = (log, Ok clip) /\
    VideoDataset_getitem ds_module fs_empty 3
    = (log ++ [Print "Invalid label 18 at index 3"], Ok (clip, 18%Z)).
Proof.
  destruct (run_returns (build_clip ds_module fs_empty row_b))
    as (log & clip & Hrun); [vm_compute; reflexivity |].
  exists log, clip. split; [exact Hrun |].
  apply (getitem_keeps_invalid_label ds_module fs_empty 3 (r := row_b));
    [reflexivity | exact Hrun | right; vm_compute; discriminate].
Defined.

(** C2 as stated fails: without a transform, and with frames of 100 by 100
    pixels, the clip is returned when every frame exists, and
    [torch.stack] raises as soon as one frame file is missing; and so it
    does with the module-level transform when the frame files are GIFs of
    two images. *)
Lemma missing_frame_breaks_stack :
  (self_transform ds_plain = None /\
   is_ok (outcome (VideoDataset_getitem ds_plain fs_full 0)) = true /\
   fs_second_missing (frame_path "clip_a" 1) = None /\
   outcome (VideoDataset_getitem ds_plain fs_second_missing 0)
   = Raise RuntimeError) /\
  (self_transform ds_module = Some transform /\
   is_ok (outcome (VideoDataset_getitem ds_module fs_gif 0)) = true /\
   fs_gif_second_missing (frame_path "clip_a" 1) = None /\
   outcome (VideoDataset_getitem ds_module fs_gif_second_missing 0)
   = Raise RuntimeError).
Proof. repeat split; vm_compute; reflexivity. Qed.

(** C2, as the code has it, on the same two file systems with the
    module-level transform. *)
Lemma missing_frames_are_zero_filled_witness :
  load_frame ds_module fs_second_missing (Str "clip_a") 1
  = ([PathExists "data/raw_frames/clip_a/img_00002.jpg" false],
     Ok (torch_zeros [3; IMG_HEIGHT; IMG_WIDTH])) /\
  exists log clip,
    VideoDataset_getitem ds_module fs_second_missing 0 = (log, Ok (clip, 2%Z)).
Proof.
  destruct (missing_frames_are_zero_filled ds_module fs_second_missing 0
              (r := row_a) (video := "clip_a") eq_refl eq_refl)
    as (Hzero & _ & Hremoved).
  split.
  - apply (Hzero 1); [lia | reflexivity].
  - destruct (run_returns (VideoDataset_getitem ds_module fs_full 0))
      as (log0 & [clip0 label0] & Hrun); [vm_compute; reflexivity |].
    assert (Hlabel : label0 = 2%Z).
    { destruct (getitem_inv _ _ _ Hrun) as (r & _ & Hr & _ & Hl & _).
      inversion Hr; subst r. exact Hl. }
    subst label0.
    exact (Hremoved transform fs_full log0 clip0 2%Z eq_refl
             transform_frame_shaped (fs_full_single_images "clip_a")
             fs_second_missing_removed Hrun).
Defined.

(** C3 as stated fails: two rows of the same video, the keyframe cell of
    the second one empty; the first gives a clip, the second raises. *)
Lemma nan_keyframe_changes_outcome :
  video_name row_a = video_name row_a_nan /\
  iloc (annotations ds_module) 0 = Ok row_a /\
  iloc (annotations ds_module) 2 = Ok row_a_nan /\
  is_ok (outcome (VideoDataset_getitem ds_module fs_full 0)) = true /\
  outcome (VideoDataset_getitem ds_module fs_full 2) = Raise ValueError.
Proof. repeat split; vm_compute; reflexivity. Qed.

(** C3, as the code has it, on two rows that differ in everything but the
    video name. *)
Lemma clip_depends_on_video_name_only_witness :
  result_map fst (outcome (VideoDataset_getitem ds_module fs_second_missing 0))
  = result_map fst (outcome (VideoDataset_getitem ds_module fs_second_missing 1)) /\
  probed (log_of (VideoDataset_getitem ds_module fs_second_missing 0))
  = probed (log_of (VideoDataset_getitem ds_module fs_second_missing 1)).
Proof.
  apply (clip_depends_on_video_name_only ds_module fs_second_missing 0 1
           (ri := row_a) (rj := row_a')); reflexivity.
Defined.

(** ** Reading the annotations *)

Lemma parse_all_inv (parse : string -> result row) (lines : list string) :
  forall rows,
    parse_all parse lines = Ok rows ->
    Forall2 (fun l r => parse l = Ok r) lines rows.
Proof.
  induction lines as [| l rest IH]; intros rows Hparse; cbn in Hparse.
  - inversion Hparse. constructor.
  - destruct (parse l) as [r |] eqn:Hl; [| discriminate]. cbn in Hparse.
    destruct (parse_all parse rest) as [rows' |]; [| discriminate].
    cbn in Hparse. inversion Hparse; subst. constructor; auto.
Qed.

Lemma Forall2_nth_error {A B} (P : A -> B -> Prop) (l1 : list A) (l2 : list B) :
  Forall2 P l1 l2 ->
  forall i, i < List.length l2 ->
    exists a b, nth_error l1 i = Some a /\ nth_error l2 i = Some b /\ P a b.
Proof.
  induction 1 as [| a b l1 l2 Hab Hrest IH]; intros i Hi; cbn in Hi.
  - lia.
  - destruct i as [| i].
    + exists a, b. auto.
    + apply IH. lia.
Qed.

Section Annotations.
Context `{PixelOps}.

Lemma init_inv (parse : string -> result row) (file : list string)
    (tr : option transform_t) log (ds : VideoDataset) :
  VideoDataset_init parse file tr = (log, Ok ds) ->
  exists rows,
    read_csv parse file = Ok rows /\ ds = mkDataset rows tr /\
    log = [Print ("Label range: "
                  ++ str_of_label (series_min (map behavior_category rows))
                  ++ " to "
                  ++ str_of_label (series_max (map behavior_category rows)))%string].
Proof.
  unfold VideoDataset_init. intros Hrun.
  destruct (read_csv parse file) as [rows |]; [| discriminate].
  rewrite bind_lift in Hrun. cbn in Hrun. inversion Hrun; subst.
  exists rows. auto.
Qed.

Lemma load_frame_ok_str (self : VideoDataset) (fs : filesystem) (name : cell)
    (i : nat) (f : tensor elt) :
  outcome (load_frame self fs name i) = Ok f -> exists video, name = Str video.
Proof.
  destruct name as [video | z | x | b]; [eauto | | |]; cbn; discriminate.
Qed.

(** [__getitem__] returns for a row exactly when the keyframe converts,
    every round of the frame loop returns a frame and the frames have one
    shape. *)
Lemma getitem_returns_iff (self : VideoDataset) (fs : filesystem) (idx : Z)
    (r : row) :
  iloc (annotations self) idx = Ok r ->
  is_ok (outcome (VideoDataset_getitem self fs idx)) = true <->
  is_ok (py_int_of_float (PrimFloat.mul (keyframe r) 30)) = true /\
  exists frames,
    Forall2 (fun j f => outcome (load_frame self fs (video_name r) j) = Ok f)
      (seq 0 NUM_FRAMES) frames /\
    Forall (fun f => shape f = shape (hd (torch_zeros []) frames)) frames.
Proof.
  intros Hr. split.
  - intros Hok. destruct (run_returns _ Hok) as (log & [clip label] & Hrun).
    apply getitem_inv in Hrun as (r' & l1 & Hr' & Hclip & _ & _).
    rewrite Hr in Hr'. inversion Hr'; subst r'.
    apply build_clip_inv in Hclip as (k & video & frames & Hk & Hname & Hframes & Hstack).
    apply load_frames_inv in Hframes as (new & Hnew & Hall & _).
    cbn [app] in Hnew. subst new.
    split; [rewrite Hk; reflexivity |].
    exists frames. split.
    + eapply Forall2_impl; [| exact Hall].
      intros j f Hf. rewrite Hname, load_frame_outcome. exact Hf.
    + apply torch_stack_inv in Hstack as (f0 & rest & -> & Hsame & _).
      exact Hsame.
  - intros [Hk (frames & Hall & Hsame)].
    destruct (py_int_of_float (PrimFloat.mul (keyframe r) 30)) as [k |] eqn:Hkf;
      [| discriminate].
    assert (Hname : exists video, video_name r = Str video).
    { assert (H0 : 0 < List.length (seq 0 NUM_FRAMES))
        by (rewrite length_seq; unfold NUM_FRAMES; lia).
      pose proof (Forall2_nth_rel Hall 0 (torch_zeros []) H0) as Hf.
      exact (load_frame_ok_str _ _ _ _ Hf). }
    destruct Hname as [video Hname]. rewrite Hname in Hall.
    assert (Hall' : Forall2 (fun j f => frame_of self fs video j = Ok f)
                      (seq 0 NUM_FRAMES) frames).
    { eapply Forall2_impl; [| exact Hall].
      intros j f Hf. cbv beta in Hf. rewrite load_frame_outcome in Hf.
      exact Hf. }
    destruct (load_frames_run self fs video [] Hall') as [log Hload].
    cbn [app] in Hload.
    destruct (torch_stack_uniform (frames := frames)
                (s := shape (hd (torch_zeros []) frames)))
      as (clip & Hstack & _); [| exact Hsame |].
    { intros Hnil. apply Forall2_length in Hall'. rewrite length_seq in Hall'.
      subst frames. discriminate Hall'. }
    rewrite (@getitem_row _ self fs idx r Hr).
    erewrite bind_run;
      [| eapply build_clip_run; eassumption | apply finish_item_run].
    reflexivity.
Qed.

(** C9, as the code has it. When [__init__] returns, [__len__] is the
    number of lines of the file that follow the first one and are not
    blank, and index [i] below that number stands for the row parsed from
    the [i]-th of these lines. [__getitem__] returns a pair for that row
    exactly when its keyframe converts to an index, every round of the
    frame loop returns a frame (so its video name is a [str]) and the 450
    frames have one shape; the label of the pair is the row's category
    minus 2. *)
Theorem len_is_number_of_data_rows
    (parse : string -> result row) (file : list string)
    (tr : option transform_t) log (ds : VideoDataset) :
  VideoDataset_init parse file tr = (log, Ok ds) ->
  VideoDataset_len ds
  = List.length (filter (fun l => negb (is_blank l)) (tl file)) /\
  (forall i, i < VideoDataset_len ds ->
     exists line r,
       nth_error (filter (fun l => negb (is_blank l)) (tl file)) i
       = Some line /\
       parse line = Ok r /\
       iloc (annotations ds) (Z.of_nat i) = Ok r /\
       forall fs,
         (is_ok (outcome (VideoDataset_getitem ds fs (Z.of_nat i))) = true <->
          is_ok (py_int_of_float (PrimFloat.mul (keyframe r) 30)) = true /\
          exists frames,
            Forall2 (fun j f =>
                       outcome (load_frame ds fs (video_name r) j) = Ok f)
              (seq 0 450) frames /\
            Forall (fun f => shape f = shape (hd (torch_zeros []) frames))
              frames) /\
         (forall log' clip label,
            VideoDataset_getitem ds fs (Z.of_nat i) = (log', Ok (clip, label)) ->
            label = (behavior_category r - 2)%Z)).
Proof.
  intros Hinit. apply init_inv in Hinit as (rows & Hread & -> & _).
  unfold read_csv, data_lines in Hread.
  replace (skipn 1 file) with (tl file) in Hread by (destruct file; reflexivity).
  apply parse_all_inv in Hread.
  unfold VideoDataset_len. cbn [annotations]. split.
  - symmetry. apply (Forall2_length Hread).
  - intros i Hi.
    destruct (Forall2_nth_error Hread Hi) as (line & r & Hline & Hrow & Hparse).
    exists line, r. split; [exact Hline |]. split; [exact Hparse |].
    assert (Hiloc : iloc rows (Z.of_nat i) = Ok r) by (apply iloc_nat; exact Hrow).
    split; [exact Hiloc |].
    intros fs. split.
    + change 450 with NUM_FRAMES.
      apply (@getitem_returns_iff (mkDataset rows tr) fs (Z.of_nat i) r Hiloc).
    + intros log' clip label Hrun.
      apply getitem_inv in Hrun as (r' & l1 & Hr' & _ & Hlabel & _).
      cbn [annotations] in Hr'. rewrite Hiloc in Hr'. inversion Hr'; subst r'.
      exact Hlabel.
Qed.

End Annotations.

(** C9 on the sample file: a header, three records and a blank line; the
    first record gives a pair on [fs_full]. *)
Lemma len_is_number_of_data_rows_witness :
  exists log ds,
    VideoDataset_init sample_parse sample_file (Some transform) = (log, Ok ds) /\
    List.length sample_file = 5 /\
    VideoDataset_len ds = 3 /\
    (is_ok (outcome (VideoDataset_getitem ds fs_full 0)) = true <->
     is_ok (py_int_of_float (PrimFloat.mul (keyframe row_a) 30)) = true /\
     exists frames,
       Forall2 (fun j f =>
                  outcome (load_frame ds fs_full (video_name row_a) j) = Ok f)
         (seq 0 450) frames /\
       Forall (fun f => @shape Z f = shape (hd (torch_zeros []) frames)) frames).
Proof.
  destruct (run_returns (VideoDataset_init sample_parse sample_file (Some transform)))
    as (log & ds & Hrun); [vm_compute; reflexivity |].
  exists log, ds. split; [exact Hrun |]. split; [reflexivity |].
  destruct (len_is_number_of_data_rows _ _ _ Hrun) as [Hlen Hrows].
  assert (Hlen3 : VideoDataset_len ds = 3) by (rewrite Hlen; reflexivity).
  split; [exact Hlen3 |].
  destruct (Hrows 0 ltac:(rewrite Hlen3; lia)) as (line & r & Hline & Hparse & _ & Hitem).
  cbn in Hline. inversion Hline; subst line.
  cbn in Hparse. inversion Hparse; subst r.
  exact (proj1 (Hitem fs_full)).
Defined.

(** C9 as stated fails: the record whose keyframe cell is empty is counted
    by [__len__], and [__getitem__] raises for it instead of returning a
    pair. *)
Lemma nan_row_gives_no_pair :
  data_lines nan_file = ["a"; "a_nan"]%string /\
  result_map annotations
    (outcome (VideoDataset_init sample_parse nan_file (Some transform)))
  = Ok [row_a; row_a_nan] /\
  VideoDataset_len (mkDataset [row_a; row_a_nan] (Some transform)) = 2 /\
  outcome (VideoDataset_getitem (mkDataset [row_a; row_a_nan] (Some transform))
             fs_full 1)
  = Raise ValueError.
Proof. repeat split; vm_compute; reflexivity. Qed.

(** ** The I3D wrapper *)

Section ModelFacts.
Context `{PixelOps}.
Variables (rng trunk_t : Type).
Variable draw : rng -> list nat -> tensor elt * rng.
Variable r3d_18 : string -> VideoResNet trunk_t.
Variable resnet_forward : VideoResNet trunk_t -> tensor elt -> result (tensor elt).

Lemma nn_Linear_sizes (n_in n_out : Z) (g : rng) :
  in_features (fst (nn_Linear draw n_in n_out g)) = n_in /\
  out_features (fst (nn_Linear draw n_in n_out g)) = n_out.
Proof.
  unfold nn_Linear. destruct (draw g _) as [w g1]. destruct (draw g1 _) as [b g2].
  split; reflexivity.
Qed.

Lemma permute_frames_channels (x : tensor elt) (b f c h w : nat) :
  shape x = [b; f; c; h; w] ->
  exists x',
    permute [0; 2; 1; 3; 4] x = Ok x' /\
    shape x' = [b; c; f; h; w] /\
    forall ib ic jf ih iw,
      at_index x' [ib; ic; jf; ih; iw] = at_index x [ib; jf; ic; ih; iw].
Proof.
  intros Hshape. unfold permute. rewrite Hshape. cbn.
  eexists. split; [reflexivity |]. split; reflexivity.
Qed.

(** C4. [I3D(NUM_CLASSES)] keeps everything of [r3d_18] with the
    KINETICS400_V1 weights but the head, which is a newly drawn linear layer
    with the pretrained number of inputs and 11 outputs; and [forward]
    hands the network the input with its frame and channel dimensions
    swapped. *)
Theorem I3D_wraps_pretrained_r3d_18 (g : rng) :
  let pretrained := r3d_18 "KINETICS400_V1" in
  let self := fst (I3D_init draw r3d_18 NUM_CLASSES g) in
  trunk (model self) = trunk pretrained /\
  fc (model self) = fst (nn_Linear draw (in_features (fc pretrained)) 11 g) /\
  in_features (fc (model self)) = in_features (fc pretrained) /\
  out_features (fc (model self)) = 11%Z /\
  (forall x b f c h w,
     shape x = [b; f; c; h; w] ->
     exists x',
       permute [0; 2; 1; 3; 4] x = Ok x' /\
       shape x' = [b; c; f; h; w] /\
       (forall ib ic jf ih iw,
          at_index x' [ib; ic; jf; ih; iw] = at_index x [ib; jf; ic; ih; iw]) /\
       I3D_forward resnet_forward self x = resnet_forward (model self) x').
Proof.
  cbv zeta. unfold I3D_init.
  destruct (nn_Linear_sizes (in_features (fc (r3d_18 "KINETICS400_V1")))
              NUM_CLASSES g) as [Hin Hout].
  destruct (nn_Linear draw _ NUM_CLASSES g) as [head g'] eqn:Hhead.
  cbn [fst model trunk fc] in *.
  split; [reflexivity |].
  split; [change 11%Z with NUM_CLASSES; rewrite Hhead; reflexivity |].
  split; [exact Hin |]. split; [exact Hout |].
  intros x b f c h w Hshape.
  destruct (permute_frames_channels x Hshape) as (x' & Hperm & Hsh & Hat).
  exists x'. split; [exact Hperm |]. split; [exact Hsh |]. split; [exact Hat |].
  unfold I3D_forward. rewrite Hperm. reflexivity.
Qed.

End ModelFacts.

(** C4 on the toy model zoo and a batch of two small clips. *)
Lemma I3D_wraps_pretrained_r3d_18_witness :
  let self := fst (I3D_init (H := ZPixels) toy_draw toy_r3d_18 NUM_CLASSES 0) in
  out_features (fc (model self)) = 11%Z /\
  in_features (fc (model self)) = 512%Z /\
  result_map (@shape Z) (I3D_forward (H := ZPixels) toy_resnet_forward self toy_clips)
  = Ok [2; 11].
Proof.
  cbv zeta.
  destruct (I3D_wraps_pretrained_r3d_18 (H := ZPixels) toy_draw toy_r3d_18
              toy_resnet_forward 0)
    as (_ & _ & Hin & Hout & Hfwd).
  split; [exact Hout |]. split; [exact Hin |].
  destruct (Hfwd toy_clips 2 4 3 8 8 eq_refl) as (x' & _ & Hsh & _ & Hrun).
  rewrite Hrun. unfold toy_resnet_forward. cbn [result_map shape].
  change (@shape (@elt ZPixels) x') with (@shape Z x') in Hsh.
  rewrite Hsh. reflexivity.
Defined.

(** ** The metric loops *)

Lemma count_equal_app (l1 l2 : list (Z * Z)) :
  count_equal (l1 ++ l2) = (count_equal l1 + count_equal l2)%Z.
Proof.
  unfold count_equal. rewrite filter_app, length_app. lia.
Qed.

Lemma add_records_nil (c : counters) : add_records c [] = c.
Proof.
  destruct c as [[l k] t]. unfold add_records, samples_of. cbn.
  rewrite !Z.add_0_r. reflexivity.
Qed.

Lemma accumulate_well_shaped (c : counters) (r : batch_record) :
  well_shaped r -> accumulate c r = Ok (add_records c [r]).
Proof.
  unfold well_shaped. intros Hlen.
  destruct c as [[l k] t]. unfold accumulate, eq_sum, add_records, samples_of.
  rewrite Hlen, Nat.eqb_refl. cbn [result_bind flat_map map fold_left].
  rewrite app_nil_r, length_combine, Hlen, Nat.min_id. reflexivity.
Qed.

Lemma add_records_cons (c : counters) (r : batch_record)
    (records : list batch_record) :
  add_records (add_records c [r]) records = add_records c (r :: records).
Proof.
  destruct c as [[l k] t]. unfold add_records, samples_of.
  cbn [flat_map map fold_left]. rewrite app_nil_r.
  rewrite count_equal_app, length_app, Nat2Z.inj_add, !Z.add_assoc.
  reflexivity.
Qed.

Lemma reported_inv (ph ph' : phase) (e e' : Z) (loss acc : float)
    (rl ra : result float) :
  In (PrintMetrics ph e loss acc) (reported ph' e' rl ra) ->
  ph = ph' /\ e = e' /\ rl = Ok loss /\ ra = Ok acc.
Proof.
  unfold reported. destruct rl as [l |]; [| intros []].
  destruct ra as [a |]; [| intros []].
  intros [Hq | []]. inversion Hq; subst. auto.
Qed.

Lemma print_metrics_log (ph : phase) (e : Z) (records : list batch_record)
    (n_batches : nat) :
  log_of (print_metrics ph e (add_records (0%float, 0%Z, 0%Z) records) n_batches)
  = reported ph e (stated_loss records n_batches) (stated_accuracy records).
Proof.
  unfold print_metrics, add_records, stated_loss, stated_accuracy, loss_sum.
  cbn [Z.add].
  destruct (py_truediv_int _ (Z.of_nat n_batches)) as [l |]; [| reflexivity].
  rewrite bind_lift.
  destruct (result_bind _ _) as [a |]; reflexivity.
Qed.

Section Loops.
Variables (clips_t row_t loss_t net : Type).
Variable model_train : net -> clips_t -> result (list row_t).
Variable model_eval : net -> clips_t -> result (list row_t).
Variable criterion : list row_t -> list Z -> result loss_t.
Variable item : loss_t -> float.
Variable argmax : row_t -> Z.
Variable optimizer_step : net -> loss_t -> net.

Local Abbreviation train_history' := (train_history model_train criterion item argmax optimizer_step).
Local Abbreviation val_history' := (val_history model_eval criterion item argmax).
Local Abbreviation train_loop' := (train_loop model_train criterion item argmax optimizer_step).
Local Abbreviation val_loop' := (val_loop model_eval criterion item argmax).
Local Abbreviation train_epoch' := (train_epoch model_train criterion item argmax optimizer_step).
Local Abbreviation val_epoch' := (val_epoch model_eval criterion item argmax).

Lemma train_loop_counts (loader : list (batch clips_t)) :
  forall n c records,
    train_history' n loader = Ok records ->
    Forall well_shaped records ->
    exists n', train_loop' n c loader = Ok (n', add_records c records).
Proof.
  induction loader as [| [[clips |] labels] rest IH]; intros n c records Hhist Hws.
  - cbn in Hhist. inversion Hhist; subst. exists n.
    cbn. rewrite add_records_nil. reflexivity.
  - cbn [train_history train_loop] in *.
    destruct (run_batch criterion item argmax model_train n clips labels)
      as [[r loss] |]; [| discriminate].
    cbn [result_bind fst snd] in *.
    destruct (train_history' (optimizer_step n loss) rest) as [records' |] eqn:Hrest;
      [| discriminate].
    cbn in Hhist. inversion Hhist; subst records.
    inversion Hws as [| ? ? Hr Hws']; subst.
    rewrite (accumulate_well_shaped c Hr). cbn [result_bind].
    destruct (IH (optimizer_step n loss) (add_records c [r]) records' Hrest Hws')
      as [n' Hloop].
    exists n'. rewrite Hloop, add_records_cons. reflexivity.
  - cbn [train_history train_loop] in *. apply IH; assumption.
Qed.

Lemma val_loop_counts (loader : list (batch clips_t)) :
  forall n c records,
    val_history' n loader = Ok records ->
    Forall well_shaped records ->
    val_loop' n c loader = Ok (add_records c records).
Proof.
  induction loader as [| [[clips |] labels] rest IH]; intros n c records Hhist Hws.
  - cbn in Hhist. inversion Hhist; subst.
    cbn. rewrite add_records_nil. reflexivity.
  - cbn [val_history val_loop] in *.
    destruct (run_batch criterion item argmax model_eval n clips labels)
      as [[r loss] |]; [| discriminate].
    cbn [result_bind fst snd] in *.
    destruct (val_history' n rest) as [records' |] eqn:Hrest; [| discriminate].
    cbn in Hhist. inversion Hhist; subst records.
    inversion Hws as [| ? ? Hr Hws']; subst.
    rewrite (accumulate_well_shaped c Hr). cbn [result_bind].
    rewrite (IH n (add_records c [r]) records' Hrest Hws'), add_records_cons.
    reflexivity.
  - cbn [val_history val_loop] in *. apply IH; assumption.
Qed.

(** What an epoch prints, from the batches it processed. *)
Lemma train_epoch_log (n : net) (epoch : nat) (loader : list (batch clips_t))
    (records : list batch_record) :
  train_history' n loader = Ok records ->
  Forall well_shaped records ->
  log_of (train_epoch' n epoch loader)
  = reported Training (Z.of_nat epoch + 1)
      (stated_loss records (List.length loader)) (stated_accuracy records).
Proof.
  intros Hhist Hws.
  destruct (train_loop_counts loader n (0%float, 0%Z, 0%Z) Hhist Hws)
    as [n' Hloop].
  unfold train_epoch. rewrite Hloop, bind_lift. cbn [snd fst].
  rewrite <- print_metrics_log.
  destruct (print_metrics _ _ _ _) as [l [[] | e]]; cbn; [rewrite app_nil_r |];
    reflexivity.
Qed.

Lemma val_epoch_log (n : net) (epoch : nat) (loader : list (batch clips_t))
    (records : list batch_record) :
  val_history' n loader = Ok records ->
  Forall well_shaped records ->
  log_of (val_epoch' n epoch loader)
  = reported Validation (Z.of_nat epoch + 1)
      (stated_loss records (List.length loader)) (stated_accuracy records).
Proof.
  intros Hhist Hws.
  unfold val_epoch. rewrite (val_loop_counts loader n (0%float, 0%Z, 0%Z) Hhist Hws).
  rewrite bind_lift. apply print_metrics_log.
Qed.

Lemma reported_accuracy (ph : phase) (e : Z) (rl ra : result float)
    (acc : float) :
  ra = Ok acc -> is_ok rl = true ->
  exists loss, reported ph e rl ra = [PrintMetrics ph e loss acc].
Proof.
  intros -> Hl. destruct rl as [l |]; [| discriminate]. exists l. reflexivity.
Qed.

Lemma reported_loss (ph : phase) (e : Z) (rl ra : result float)
    (loss : float) :
  rl = Ok loss -> is_ok ra = true ->
  exists acc, reported ph e rl ra = [PrintMetrics ph e loss acc].
Proof.
  intros -> Ha. destruct ra as [a |]; [| discriminate]. exists a. reflexivity.
Qed.

(** C6. In the training epoch and in the validation epoch alike: when the
    accuracy of the batches the loop processed (100 times the number of
    samples whose argmax equals their label, divided by the number of
    samples) and the loss are defined, the epoch prints one line, for
    epoch + 1, and the accuracy on it is that number; and no line with
    another accuracy is ever printed. *)
Theorem reported_accuracy_is_percent_correct
    (n n' : net) (epoch : nat) (train_loader val_loader : list (batch clips_t))
    (train_records val_records : list batch_record) :
  train_history' n train_loader = Ok train_records ->
  Forall well_shaped train_records ->
  val_history' n' val_loader = Ok val_records ->
  Forall well_shaped val_records ->
  (forall acc,
     stated_accuracy train_records = Ok acc ->
     is_ok (stated_loss train_records (List.length train_loader)) = true ->
     exists loss,
       log_of (train_epoch' n epoch train_loader)
       = [PrintMetrics Training (Z.of_nat epoch + 1) loss acc]) /\
  (forall e loss acc,
     In (PrintMetrics Training e loss acc)
        (log_of (train_epoch' n epoch train_loader)) ->
     stated_accuracy train_records = Ok acc) /\
  (forall acc,
     stated_accuracy val_records = Ok acc ->
     is_ok (stated_loss val_records (List.length val_loader)) = true ->
     exists loss,
       log_of (val_epoch' n' epoch val_loader)
       = [PrintMetrics Validation (Z.of_nat epoch + 1) loss acc]) /\
  (forall e loss acc,
     In (PrintMetrics Validation e loss acc)
        (log_of (val_epoch' n' epoch val_loader)) ->
     stated_accuracy val_records = Ok acc).
Proof.
  intros Ht Hwt Hv Hwv.
  rewrite (train_epoch_log n epoch train_loader Ht Hwt).
  rewrite (val_epoch_log n' epoch val_loader Hv Hwv).
  split; [| split; [| split]].
  - intros acc Hacc Hloss. apply reported_accuracy; assumption.
  - intros e loss acc Hin. apply reported_inv in Hin. tauto.
  - intros acc Hacc Hloss. apply reported_accuracy; assumption.
  - intros e loss acc Hin. apply reported_inv in Hin. tauto.
Qed.

(** C7. In the training epoch and in the validation epoch alike: when the
    loss of the batches the loop processed (the sum of the per-batch losses
    divided by the number of batches of the loader) and the accuracy are
    defined, the epoch prints one line, for epoch + 1, and the loss on it
    is that number; and no line with another loss is ever printed. *)
Theorem reported_loss_is_mean_over_batches
    (n n' : net) (epoch : nat) (train_loader val_loader : list (batch clips_t))
    (train_records val_records : list batch_record) :
  train_history' n train_loader = Ok train_records ->
  Forall well_shaped train_records ->
  val_history' n' val_loader = Ok val_records ->
  Forall well_shaped val_records ->
  (forall loss,
     stated_loss train_records (List.length train_loader) = Ok loss ->
     is_ok (stated_accuracy train_records) = true ->
     exists acc,
       log_of (train_epoch' n epoch train_loader)
       = [PrintMetrics Training (Z.of_nat epoch + 1) loss acc]) /\
  (forall e loss acc,
     In (PrintMetrics Training e loss acc)
        (log_of (train_epoch' n epoch train_loader)) ->
     stated_loss train_records (List.length train_loader) = Ok loss) /\
  (forall loss,
     stated_loss val_records (List.length val_loader) = Ok loss ->
     is_ok (stated_accuracy val_records) = true ->
     exists acc,
       log_of (val_epoch' n' epoch val_loader)
       = [PrintMetrics Validation (Z.of_nat epoch + 1) loss acc]) /\
  (forall e loss acc,
     In (PrintMetrics Validation e loss acc)
        (log_of (val_epoch' n' epoch val_loader)) ->
     stated_loss val_records (List.length val_loader) = Ok loss).
Proof.
  intros Ht Hwt Hv Hwv.
  rewrite (train_epoch_log n epoch train_loader Ht Hwt).
  rewrite (val_epoch_log n' epoch val_loader Hv Hwv).
  split; [| split; [| split]].
  - intros loss Hloss Hacc. apply reported_loss; assumption.
  - intros e loss acc Hin. apply reported_inv in Hin. tauto.
  - intros loss Hloss Hacc. apply reported_loss; assumption.
  - intros e loss acc Hin. apply reported_inv in Hin. tauto.
Qed.

End Loops.

(** ** The loops on the toy network *)

Lemma toy_train_history :
  train_history toy_forward toy_criterion toy_item toy_argmax toy_step
    0%Z toy_loader = Ok toy_train_records.
Proof. vm_compute. reflexivity. Qed.

Lemma toy_val_history :
  val_history toy_forward toy_criterion toy_item toy_argmax 1%Z toy_loader
  = Ok toy_val_records.
Proof. vm_compute. reflexivity. Qed.

Lemma toy_train_well_shaped : Forall well_shaped toy_train_records.
Proof. repeat constructor. Qed.

Lemma toy_val_well_shaped : Forall well_shaped toy_val_records.
Proof. repeat constructor. Qed.

(** C6 on the toy run: four of the five samples are right in both phases,
    and each epoch prints 80. *)
Lemma reported_accuracy_is_percent_correct_witness :
  count_equal (samples_of toy_train_records) = 4%Z /\
  List.length (samples_of toy_train_records) = 5 /\
  (exists loss,
     log_of (train_epoch toy_forward toy_criterion toy_item toy_argmax toy_step
               0%Z 0 toy_loader)
     = [PrintMetrics Training 1 loss 80%float]) /\
  (exists loss,
     log_of (val_epoch toy_forward toy_criterion toy_item toy_argmax
               1%Z 0 toy_loader)
     = [PrintMetrics Validation 1 loss 80%float]).
Proof.
  destruct (reported_accuracy_is_percent_correct
              toy_forward toy_forward toy_criterion toy_item toy_argmax toy_step
              0%Z 1%Z 0 toy_loader toy_loader
              toy_train_history toy_train_well_shaped
              toy_val_history toy_val_well_shaped)
    as (Htrain & _ & Hval & _).
  split; [reflexivity |]. split; [reflexivity |]. split.
  - apply (Htrain 80%float); vm_compute; reflexivity.
  - apply (Hval 80%float); vm_compute; reflexivity.
Defined.

(** C7 on the toy run: the losses 1 and 0 of the two processed batches,
    over the three batches of the loader, and each epoch prints 1/3. *)
Lemma reported_loss_is_mean_over_batches_witness :
  map loss_value toy_train_records = [1%float; 0%float] /\
  List.length toy_loader = 3 /\
  (exists acc,
     log_of (train_epoch toy_forward toy_criterion toy_item toy_argmax toy_step
               0%Z 0 toy_loader)
     = [PrintMetrics Training 1 (PrimFloat.div 1 3) acc]) /\
  (exists acc,
     log_of (val_epoch toy_forward toy_criterion toy_item toy_argmax
               1%Z 0 toy_loader)
     = [PrintMetrics Validation 1 (PrimFloat.div 1 3) acc]).
Proof.
  destruct (reported_loss_is_mean_over_batches
              toy_forward toy_forward toy_criterion toy_item toy_argmax toy_step
              0%Z 1%Z 0 toy_loader toy_loader
              toy_train_history toy_train_well_shaped
              toy_val_history toy_val_well_shaped)
    as (Htrain & _ & Hval & _).
  split; [reflexivity |]. split; [reflexivity |]. split.
  - apply (Htrain (PrimFloat.div 1 3)); vm_compute; reflexivity.
  - apply (Hval (PrimFloat.div 1 3)); vm_compute; reflexivity.
Defined.

(** The whole of [main] on the toy network: one epoch, two metric lines,
    and the network as the training loop leaves it. *)
Example main_toy_run :
  main toy_forward toy_forward toy_criterion toy_item toy_argmax toy_step
    0%Z toy_loader toy_loader
  = ([PrintMetrics Training 1 (PrimFloat.div 1 3) 80;
      PrintMetrics Validation 1 (PrimFloat.div 1 3) 80], Ok 1%Z).
Proof. vm_compute. reflexivity. Qed.

(** ** The paths asked for, in every run *)

Section Probes.
Context `{PixelOps}.

Lemma getitem_not_str (self : VideoDataset) (fs : filesystem) (idx : Z)
    (r : row) :
  iloc (annotations self) idx = Ok r ->
  os_fspath (video_name r) = Raise TypeError ->
  log_of (VideoDataset_getitem self fs idx) = [] /\
  (is_ok (py_int_of_float (PrimFloat.mul (keyframe r) 30)) = true ->
   VideoDataset_getitem self fs idx = ([], Raise TypeError)).
Proof.
  intros Hr Hname. rewrite (@getitem_row _ self fs idx r Hr). unfold build_clip.
  destruct (py_int_of_float _) as [kf | e]; [| split; [reflexivity | discriminate]].
  rewrite bind_lift. change (seq 0 NUM_FRAMES) with (0 :: seq 1 449).
  rewrite (@load_frames_raise_not_str _ self fs (video_name r) 0 (seq 1 449) [] Hname).
  split; reflexivity.
Qed.

(** Whether [__getitem__] returns or raises, it has asked
    [os.path.exists] for an initial segment of the 450 frame paths of the
    row, hence for at most 450 paths; and for none when the video name is
    not a [str]. *)
Lemma getitem_probes_at_most_450
    (self : VideoDataset) (fs : filesystem) (idx : Z) (r : row) :
  iloc (annotations self) idx = Ok r ->
  (forall video, video_name r = Str video ->
     exists k,
       probed (log_of (VideoDataset_getitem self fs idx))
       = firstn k (map (frame_path video) (seq 0 450))) /\
  (os_fspath (video_name r) = Raise TypeError ->
   probed (log_of (VideoDataset_getitem self fs idx)) = []) /\
  List.length (probed (log_of (VideoDataset_getitem self fs idx))) <= 450.
Proof.
  intros Hr. change 450 with NUM_FRAMES.
  assert (Hstr : forall video, video_name r = Str video ->
             exists k,
               probed (log_of (VideoDataset_getitem self fs idx))
               = firstn k (map (frame_path video) (seq 0 NUM_FRAMES))).
  { intros video Hname.
    rewrite (@getitem_row _ self fs idx r Hr). unfold build_clip.
    destruct (py_int_of_float _) as [kf | e]; [| exists 0; reflexivity].
    rewrite bind_lift, Hname.
    destruct (load_frames_probes_prefix self fs video
                (seq 0 NUM_FRAMES) []) as [k Hk].
    exists k. rewrite <- Hk.
    destruct (load_frames self fs (Str video) (seq 0 NUM_FRAMES) [])
      as [l [frames | e]]; [| reflexivity].
    rewrite bind_assoc.
    rewrite (bind_run (fun x => c <- lift (torch_stack x) ;; finish_item idx r c)
               (l2 := log_of (c <- lift (torch_stack frames) ;; finish_item idx r c))
               (r := outcome (c <- lift (torch_stack frames) ;; finish_item idx r c))
               eq_refl).
    - cbn [log_of fst]. rewrite probed_app.
      destruct (torch_stack frames) as [clip | e]; [| cbn; apply app_nil_r].
      rewrite bind_lift, finish_item_run. cbn [log_of fst].
      destruct (label_is_invalid _); cbn; apply app_nil_r.
    - destruct (c <- lift (torch_stack frames) ;; finish_item idx r c); reflexivity. }
  assert (Hnot : os_fspath (video_name r) = Raise TypeError ->
                 probed (log_of (VideoDataset_getitem self fs idx)) = []).
  { intros Hname. destruct (getitem_not_str self fs idx Hr Hname) as [Hlog _].
    rewrite Hlog. reflexivity. }
  split; [exact Hstr |]. split; [exact Hnot |].
  destruct (video_name r) as [video | z | x | b] eqn:Hname.
  - destruct (Hstr video eq_refl) as [k Hk].
    rewrite Hk, length_firstn, length_map, length_seq. apply Nat.le_min_r.
  - rewrite (Hnot eq_refl). cbn. lia.
  - rewrite (Hnot eq_refl). cbn. lia.
  - rewrite (Hnot eq_refl). cbn. lia.
Qed.

End Probes.

(** ** Frame paths *)

Lemma ends_with_sep_app (a b : string) :
  b <> EmptyString -> ends_with_sep (a ++ b) = ends_with_sep b.
Proof.
  intros Hb. induction a as [| c a IH]; [reflexivity |].
  cbn [String.append ends_with_sep]. rewrite IH.
  destruct (a ++ b)%string eqn:Hab; [| reflexivity].
  destruct a; cbn in Hab; [contradiction | discriminate].
Qed.

(** For a video name that is a plain relative directory name, the frames
    are looked for in [DATA_DIR/video_name]. *)
Lemma frame_path_plain (video : string) (i : nat) :
  video <> EmptyString ->
  starts_with_sep video = false ->
  ends_with_sep video = false ->
  frame_path video i
  = (DATA_DIR ++ "/" ++ video ++ "/" ++ frame_file i)%string.
Proof.
  intros Hne Hstart Hend.
  unfold frame_path, os_path_join. cbn [fold_left].
  assert (Hfirst : join_step DATA_DIR video = (DATA_DIR ++ "/" ++ video)%string).
  { unfold join_step. rewrite Hstart. reflexivity. }
  rewrite Hfirst. unfold join_step.
  change (starts_with_sep (frame_file i)) with false.
  assert (Hpath : ends_with_sep (DATA_DIR ++ "/" ++ video) = false).
  { rewrite ends_with_sep_app by (destruct video; [contradiction | discriminate]).
    rewrite (ends_with_sep_app "/" Hne). exact Hend. }
  rewrite Hpath.
  change ((DATA_DIR ++ "/" ++ video) =? "")%string with false.
  cbn [orb]. reflexivity.
Qed.

Example frame_path_first :
  frame_path "clip_a" 0 = "data/raw_frames/clip_a/img_00001.jpg"%string.
Proof. reflexivity. Qed.

Example frame_path_last :
  frame_path "clip_a" 449 = "data/raw_frames/clip_a/img_00450.jpg"%string.
Proof. reflexivity. Qed.

(** [os.path.join] drops what precedes an absolute component. *)
Example frame_path_absolute :
  frame_path "/mnt/clips" 0 = "/mnt/clips/img_00001.jpg"%string.
Proof. reflexivity. Qed.

(** A grayscale frame does not pass the three-channel [Normalize]: no clip
    is returned. *)
Example gray_frame_is_rejected :
  outcome (VideoDataset_getitem ds_module fs_gray 0) = Raise RuntimeError.
Proof. vm_compute. reflexivity. Qed.


(** * Further properties of the dataset *)

(** ** Indices *)

Section Indexing.
Context `{PixelOps}.

(** An index outside [-len, len) raises [IndexError] before the file
    system is touched and before anything is printed. *)
Theorem getitem_index_out_of_range
    (self : VideoDataset) (fs : filesystem) (idx : Z) :
  (idx < - Z.of_nat (VideoDataset_len self)
   \/ Z.of_nat (VideoDataset_len self) <= idx)%Z ->
  VideoDataset_getitem self fs idx = ([], Raise IndexError).
Proof.
  intros Hout. rewrite getitem_stages.
  assert (Hiloc : iloc (annotations self) idx = Raise IndexError).
  { unfold iloc, VideoDataset_len in *.
    set (n := Z.of_nat (List.length (annotations self))) in *.
    destruct (idx <? 0)%Z eqn:Hneg.
    - apply Z.ltb_lt in Hneg.
      assert (Hlo : (0 <=? n + idx)%Z = false) by (apply Z.leb_gt; lia).
      rewrite Hlo. reflexivity.
    - apply Z.ltb_ge in Hneg.
      assert (Hhi : (idx <? n)%Z = false) by (apply Z.ltb_ge; lia).
      rewrite Hhi, andb_false_r. reflexivity. }
  rewrite Hiloc. reflexivity.
Qed.

Lemma iloc_negative {A} (df : list A) (idx : Z) :
  (- Z.of_nat (List.length df) <= idx < 0)%Z ->
  iloc df idx = iloc df (Z.of_nat (List.length df) + idx).
Proof.
  intros Hrange. unfold iloc.
  set (n := Z.of_nat (List.length df)) in *.
  assert (Hneg : (idx <? 0)%Z = true) by (apply Z.ltb_lt; lia).
  assert (Hpos : (n + idx <? 0)%Z = false) by (apply Z.ltb_ge; lia).
  rewrite Hneg, Hpos. reflexivity.
Qed.

(** A negative index in [-len, 0) stands for the row [len + idx]: the same
    paths are asked for and the same clip and label come back (or the same
    exception). *)
Theorem getitem_negative_index
    (self : VideoDataset) (fs : filesystem) (idx : Z) :
  (- Z.of_nat (VideoDataset_len self) <= idx < 0)%Z ->
  outcome (VideoDataset_getitem self fs idx)
  = outcome (VideoDataset_getitem self fs (Z.of_nat (VideoDataset_len self) + idx)) /\
  probed (log_of (VideoDataset_getitem self fs idx))
  = probed (log_of (VideoDataset_getitem self fs
                      (Z.of_nat (VideoDataset_len self) + idx))).
Proof.
  intros Hrange. rewrite !getitem_stages.
  unfold VideoDataset_len in *. rewrite <- (iloc_negative _ Hrange).
  destruct (iloc (annotations self) idx) as [r | e]; [| split; reflexivity].
  rewrite !bind_lift.
  destruct (build_clip self fs r) as [l [clip | e]]; [| split; reflexivity].
  rewrite (bind_run (fun c => finish_item idx r c) eq_refl (finish_item_run idx r clip)).
  rewrite (bind_run (fun c => finish_item _ r c) eq_refl (finish_item_run _ r clip)).
  cbn [outcome log_of fst snd]. split; [reflexivity |].
  rewrite !probed_app. destruct (label_is_invalid _); reflexivity.
Qed.

End Indexing.

(** ** The keyframe conversion *)

Lemma Prim2SF_nan (x : float) : PrimFloat.is_nan x = true -> Prim2SF x = S754_nan.
Proof. intros Hnan. unfold Prim2SF. rewrite Hnan. reflexivity. Qed.

Lemma Prim2SF_infinity (x : float) :
  PrimFloat.is_infinity x = true -> exists s, Prim2SF x = S754_infinity s.
Proof.
  unfold PrimFloat.is_infinity. rewrite eqb_spec, abs_spec.
  change (Prim2SF infinity) with (S754_infinity false).
  destruct (Prim2SF x) as [s | s | | s m e]; cbn; try discriminate.
  - intros _. exists s. reflexivity.
Qed.

Lemma int_of_nan_times_30 (x : float) :
  PrimFloat.is_nan x = true ->
  py_int_of_float (PrimFloat.mul x 30) = Raise ValueError.
Proof.
  intros Hnan. unfold py_int_of_float.
  rewrite mul_spec, (@Prim2SF_nan x Hnan). reflexivity.
Qed.

Lemma int_of_infinity_times_30 (x : float) :
  PrimFloat.is_infinity x = true ->
  py_int_of_float (PrimFloat.mul x 30) = Raise OverflowError.
Proof.
  intros Hinf. unfold py_int_of_float.
  destruct (@Prim2SF_infinity x Hinf) as [s Hs].
  rewrite mul_spec, Hs. destruct s; reflexivity.
Qed.

Section Keyframe.
Context `{PixelOps}.

(** A row whose keyframe is NaN makes [__getitem__] raise [ValueError], and
    one whose keyframe is infinite [OverflowError]; in both cases no path
    has been asked for and nothing has been printed. *)
Theorem getitem_rejects_nan_and_infinite_keyframe
    (self : VideoDataset) (fs : filesystem) (idx : Z) (r : row) :
  iloc (annotations self) idx = Ok r ->
  (PrimFloat.is_nan (keyframe r) = true ->
   VideoDataset_getitem self fs idx = ([], Raise ValueError)) /\
  (PrimFloat.is_infinity (keyframe r) = true ->
   VideoDataset_getitem self fs idx = ([], Raise OverflowError)).
Proof.
  intros Hr. rewrite (@getitem_row _ self fs idx r Hr). unfold build_clip.
  split; intros Hkf.
  - rewrite (@int_of_nan_times_30 _ Hkf). reflexivity.
  - rewrite (@int_of_infinity_times_30 _ Hkf). reflexivity.
Qed.

End Keyframe.


(** ** What the frame loop logs *)

Section FrameLog.
Context `{PixelOps}.
Variable self : VideoDataset.
Variable fs : filesystem.
Variable video : string.

Lemma load_frame_log (i : nat) :
  log_of (load_frame self fs (Str video) i)
  = match fs (frame_path video i) with
    | Some _ => [PathExists (frame_path video i) true;
                 ReadImage (frame_path video i)]
    | None => [PathExists (frame_path video i) false]
    end.
Proof.
  unfold load_frame. cbn [os_fspath]. rewrite bind_lift.
  unfold os_path_exists, read_image.
  destruct (fs (frame_path video i)) as [[| img | gif |] |]; cbn; try reflexivity.
  - destruct (self_transform self) as [tr |]; cbn;
      [destruct (tr (tensor_map unit_of_byte (decode img))) |]; reflexivity.
  - destruct (self_transform self) as [tr |]; cbn;
      [destruct (tr (tensor_map unit_of_byte (decode_gif gif))) |]; reflexivity.
Qed.

Lemma load_frame_printed (i : nat) :
  printed (log_of (load_frame self fs (Str video) i)) = [].
Proof.
  rewrite load_frame_log. destruct (fs (frame_path video i)); reflexivity.
Qed.

Lemma load_frames_printed (range : list nat) :
  forall acc, printed (log_of (load_frames self fs (Str video) range acc)) = [].
Proof.
  induction range as [| i rest IH]; intros acc; [reflexivity |].
  cbn [load_frames].
  pose proof (load_frame_printed i) as Hp.
  destruct (load_frame self fs (Str video) i) as [l1 [f | e]]; [| exact Hp].
  specialize (IH (acc ++ [f])).
  destruct (load_frames self fs (Str video) rest (acc ++ [f])) as [l2 r] eqn:Hrest.
  rewrite (bind_run (fun f0 => load_frames self fs (Str video) rest (acc ++ [f0]))
             eq_refl Hrest).
  cbn [log_of fst] in *. rewrite printed_app, Hp, IH. reflexivity.
Qed.

(** The loop stops at the first frame that raises: the frames before it
    have been asked for, the frames after it have not. *)
Lemma load_frames_stops (pre post : list nat) (i : nat) (e : exn) :
  forall acc,
    Forall (fun j => is_ok (frame_of self fs video j) = true) pre ->
    frame_of self fs video i = Raise e ->
    exists log,
      load_frames self fs (Str video) (pre ++ i :: post) acc = (log, Raise e) /\
      probed log = map (frame_path video) (pre ++ [i]).
Proof.
  induction pre as [| j pre IH]; intros acc Hpre Hi.
  - cbn [app load_frames].
    destruct (load_frame_run self fs video i) as [l1 [Hrun Hprobe]].
    rewrite Hi in Hrun. exists l1. split; [| exact Hprobe].
    apply bind_raise. exact Hrun.
  - inversion Hpre as [| ? ? Hj Hpre']; subst.
    destruct (load_frame_run self fs video j) as [l1 [Hrun Hprobe]].
    destruct (frame_of self fs video j) as [f |]; [| discriminate].
    destruct (IH (acc ++ [f]) Hpre' Hi) as (l2 & Hrest & Hlog).
    exists (l1 ++ l2). split.
    + cbn [app load_frames]. eapply bind_run; eassumption.
    + rewrite probed_app, Hprobe, Hlog. reflexivity.
Qed.

End FrameLog.

Section ItemLog.
Context `{PixelOps}.

Lemma build_clip_printed (self : VideoDataset) (fs : filesystem) (r : row) :
  printed (log_of (build_clip self fs r)) = [].
Proof.
  unfold build_clip.
  destruct (py_int_of_float _) as [k | e]; [| reflexivity].
  rewrite bind_lift.
  assert (Hp : printed (log_of (load_frames self fs (video_name r)
                                  (seq 0 NUM_FRAMES) [])) = []).
  { destruct (video_name r) as [video | z | x | b];
      [apply load_frames_printed | | |]; reflexivity. }
  destruct (load_frames self fs (video_name r) (seq 0 NUM_FRAMES) [])
    as [l [frames | e]]; [| exact Hp].
  cbn [log_of fst] in Hp. unfold bind, lift.
  destruct (torch_stack frames); cbn [log_of fst]; rewrite ?app_nil_r; exact Hp.
Qed.

Lemma getitem_printed
    (self : VideoDataset) (fs : filesystem) (idx : Z) :
  printed (log_of (VideoDataset_getitem self fs idx))
  = match outcome (VideoDataset_getitem self fs idx) with
    | Ok (_, label) =>
        if ((0 <=? label) && (label <? NUM_CLASSES))%Z then []
        else [invalid_label_message label idx]
    | Raise _ => []
    end.
Proof.
  rewrite getitem_stages.
  destruct (iloc (annotations self) idx) as [r | e]; [| reflexivity].
  rewrite bind_lift.
  pose proof (build_clip_printed self fs r) as Hp.
  destruct (build_clip self fs r) as [l [clip | e]]; [| exact Hp].
  rewrite (bind_run (fun c => finish_item idx r c) eq_refl (finish_item_run idx r clip)).
  cbn [log_of outcome fst snd] in *. rewrite printed_app, Hp.
  unfold label_is_invalid.
  destruct (behavior_category r - 2 <? 0)%Z eqn:Hlo;
    destruct (behavior_category r - 2 >=? NUM_CLASSES)%Z eqn:Hhi;
    destruct (0 <=? behavior_category r - 2)%Z eqn:Hlo';
    destruct (behavior_category r - 2 <? NUM_CLASSES)%Z eqn:Hhi';
    try reflexivity; exfalso;
    rewrite ?Z.ltb_lt, ?Z.ltb_ge, ?Z.leb_le, ?Z.leb_gt, ?Z.geb_le, ?Z.geb_leb in *;
    rewrite ?Z.leb_le, ?Z.leb_gt in *; lia.
Qed.

(** The only line [__getitem__] ever prints is the invalid-label
    diagnostic: once, when it returns a label outside [0, NUM_CLASSES);
    never when the label is valid, and never when it raises. *)
Theorem getitem_prints_only_the_invalid_label
    (self : VideoDataset) (fs : filesystem) (idx : Z) :
  printed (log_of (VideoDataset_getitem self fs idx))
  = match outcome (VideoDataset_getitem self fs idx) with
    | Ok (_, label) =>
        if ((0 <=? label) && (label <? NUM_CLASSES))%Z then []
        else [invalid_label_message label idx]
    | Raise _ => []
    end.
Proof. apply getitem_printed. Qed.

(** For a row whose video name is a [str]: when frame [k] is the first one
    that cannot be loaded, [__getitem__] raises that frame's exception, having asked for the paths of the frames
    0 to [k] and no other, and having printed nothing. *)
Theorem getitem_stops_at_first_bad_frame
    (self : VideoDataset) (fs : filesystem) (idx : Z) (r : row)
    (video : string) (k : nat) (e : exn) :
  iloc (annotations self) idx = Ok r ->
  is_ok (py_int_of_float (PrimFloat.mul (keyframe r) 30)) = true ->
  video_name r = Str video ->
  k < 450 ->
  (forall j, j < k -> is_ok (frame_of self fs video j) = true) ->
  frame_of self fs video k = Raise e ->
  exists log,
    VideoDataset_getitem self fs idx = (log, Raise e) /\
    probed log = map (frame_path video) (seq 0 (S k)) /\
    printed log = [].
Proof.
  intros Hr Hkf Hname Hk Hpre Hbad.
  assert (Hsplit : seq 0 NUM_FRAMES = seq 0 k ++ k :: seq (S k) (NUM_FRAMES - S k)).
  { change 450 with NUM_FRAMES in Hk.
    replace NUM_FRAMES with (k + S (NUM_FRAMES - S k)) at 1 by lia.
    rewrite seq_app. reflexivity. }
  destruct (@load_frames_stops _ self fs video (seq 0 k)
              (seq (S k) (NUM_FRAMES - S k)) k e []) as (log & Hrun & Hlog).
  { apply Forall_forall. intros j Hj. apply in_seq in Hj. apply Hpre. lia. }
  { exact Hbad. }
  rewrite <- Hsplit in Hrun.
  assert (Hitem : VideoDataset_getitem self fs idx = (log, Raise e)).
  { rewrite (@getitem_row _ self fs idx r Hr). unfold build_clip.
    destruct (py_int_of_float _); [| discriminate].
    rewrite bind_lift, Hname, Hrun. reflexivity. }
  exists log. split; [exact Hitem |]. split.
  - rewrite Hlog, seq_S. reflexivity.
  - pose proof (getitem_printed self fs idx) as Hp.
    rewrite Hitem in Hp. exact Hp.
Qed.

End ItemLog.


(** ** The module-level transform, channel by channel *)

Section TransformFacts.
Context `{PixelOps}.

Lemma transform_not_rgb (t : tensor elt) (c h w : nat) :
  shape t = [c; h; w] -> c <> 3 -> transform t = Raise RuntimeError.
Proof.
  intros Hshape Hc. unfold transform, Compose. cbn [fold_left result_bind].
  unfold Resize. rewrite Hshape. cbn [rev app result_bind].
  unfold Normalize. cbn [shape].
  destruct c as [| [| [| [| c']]]]; cbn; try reflexivity. contradiction.
Qed.

(** On a tensor [c; h; w] without an empty dimension, the module-level
    transform lets exactly the three-channel images through, whatever their
    height and width: the result has shape
    [3; 224; 224] and holds, at each position, the resampled value
    standardised with the mean and deviation of its channel; any other
    number of channels raises [RuntimeError]. *)
Theorem transform_accepts_rgb_only (t : tensor elt) (c h w : nat) :
  shape t = [c; h; w] ->
  1 <= c -> 1 <= h -> 1 <= w ->
  (c = 3 ->
   exists t',
     transform t = Ok t' /\
     shape t' = [3; 224; 224] /\
     forall y x,
       at_index t' [0; y; x]
       = standardize (485 # 1000) (229 # 1000) (resample t 224 224 [0; y; x]) /\
       at_index t' [1; y; x]
       = standardize (456 # 1000) (224 # 1000) (resample t 224 224 [1; y; x]) /\
       at_index t' [2; y; x]
       = standardize (406 # 1000) (225 # 1000) (resample t 224 224 [2; y; x])) /\
  (c <> 3 -> transform t = Raise RuntimeError).
Proof.
  intros Hshape _ _ _. split.
  - intros ->. unfold transform, Compose. cbn [fold_left result_bind].
    unfold Resize. rewrite Hshape. cbn [rev app result_bind].
    unfold Normalize. cbn.
    eexists. split; [reflexivity |]. split; [reflexivity |].
    intros y x. repeat split; reflexivity.
  - intros Hc. exact (transform_not_rgb t Hshape Hc).
Qed.

(** With the module-level transform, for a row in range whose keyframe
    converts and whose video name is a [str], [__getitem__] returns exactly
    when the 450 frame positions give frames of one shape: either every
    position is absent from disk or holds a single image with three
    channels, or every position holds a GIF of one same number of images,
    other than 1. *)
Theorem getitem_module_returns_iff
    (rows : list row) (fs : filesystem) (idx : Z) (r : row) (video : string) :
  iloc rows idx = Ok r ->
  is_ok (py_int_of_float (PrimFloat.mul (keyframe r) 30)) = true ->
  video_name r = Str video ->
  (is_ok (outcome (VideoDataset_getitem (mkDataset rows (Some transform)) fs idx))
   = true
   <-> (forall i, i < 450 -> usable fs (frame_path video i)) \/
       (exists n, n <> 1 /\
          forall i, i < 450 ->
            exists gif, fs (frame_path video i) = Some (AnimatedFile gif) /\
                        n_frames gif = n)).
Proof.
  intros Hr Hkf Hname. change 450 with NUM_FRAMES. split.
  - intros Hok.
    destruct (run_returns _ Hok) as (log & [clip label] & Hrun).
    destruct (module_clip_frames _ _ _ Hrun)
      as (r' & video' & s & Hr' & Hname' & _ & Hall).
    rewrite Hr in Hr'. inversion Hr'; subst r'.
    rewrite Hname in Hname'. inversion Hname'; subst video'.
    assert (H0 : 0 < NUM_FRAMES) by (unfold NUM_FRAMES; lia).
    destruct (module_frame_shape_cases _ _ (Hall 0 H0))
      as [Hs | (gif0 & _ & Hn0 & Hs)].
    + left. intros i Hi. apply usable_frame_shape. rewrite (Hall i Hi), Hs.
      reflexivity.
    + right. exists (n_frames gif0). split; [exact Hn0 |].
      intros i Hi.
      destruct (module_frame_shape_cases _ _ (Hall i Hi))
        as [Hs' | (gif & Hfile & _ & Hs')].
      * rewrite Hs in Hs'. discriminate Hs'.
      * exists gif. split; [exact Hfile |].
        rewrite Hs in Hs'. inversion Hs'. reflexivity.
  - intros [Husable | (n & Hn & Hgifs)].
    + destruct (@getitem_module_returns _ rows fs idx r video
                  [3; IMG_HEIGHT; IMG_WIDTH] Hr Hkf Hname)
        as (log & clip & Hrun & _).
      { intros i Hi. apply usable_frame_shape. apply Husable. exact Hi. }
      rewrite Hrun. reflexivity.
    + destruct (@getitem_module_returns _ rows fs idx r video
                  [n; 3; IMG_HEIGHT; IMG_WIDTH] Hr Hkf Hname)
        as (log & clip & Hrun & _).
      { intros i Hi. destruct (Hgifs i Hi) as (gif & Hfile & Hgif).
        unfold module_frame_shape. rewrite Hfile, Hgif.
        destruct (Nat.eqb n 1) eqn:Hq; [| reflexivity].
        apply Nat.eqb_eq in Hq. contradiction. }
      rewrite Hrun. reflexivity.
Qed.

End TransformFacts.

(** ** What the clip holds *)

Section ClipValues.
Context `{PixelOps}.

(** Without a transform, and for a frame [i] whose file is a still image,
    the clip holds at frame [i], channel [c], row [y], column [x] the byte
    of that pixel of the file, scaled by [1/255], and the clip has the
    dimensions of that image; for a frame [i] whose file is a GIF of
    several images the clip has five dimensions and holds, at frame [i],
    image [n], the bytes of that image scaled alike. *)
Theorem plain_clip_holds_scaled_pixels
    (rows : list row) (fs : filesystem) (idx : Z) (r : row) (video : string)
    log clip label (i : nat) :
  VideoDataset_getitem (mkDataset rows None) fs idx = (log, Ok (clip, label)) ->
  iloc rows idx = Ok r ->
  video_name r = Str video ->
  i < 450 ->
  (forall img,
     fs (frame_path video i) = Some (ImageFile img) ->
     shape clip = [450; channels img; height img; width img] /\
     forall c y x, at_index clip [i; c; y; x] = unit_of_byte (pixel img c y x)) /\
  (forall gif,
     fs (frame_path video i) = Some (AnimatedFile gif) ->
     n_frames gif <> 1 ->
     shape clip = [450; n_frames gif; 3; gif_height gif; gif_width gif] /\
     forall n c y x,
       at_index clip [i; n; c; y; x] = unit_of_byte (gif_pixel gif n c y x)).
Proof.
  intros Hrun Hr Hname Hi.
  apply getitem_inv in Hrun as (r' & l1 & Hr' & Hclip & _ & _).
  cbn [annotations] in Hr'. rewrite Hr in Hr'. inversion Hr'; subst r'.
  apply build_clip_inv in Hclip as (k & video' & frames & _ & Hname' & Hframes & Hstack).
  rewrite Hname in Hname'. inversion Hname'; subst video'.
  apply load_frames_inv in Hframes as (new & Hnew & Hall & _).
  cbn [app] in Hnew. subst new.
  assert (Hlen : List.length frames = NUM_FRAMES).
  { rewrite <- (Forall2_length Hall). apply length_seq. }
  assert (Hi' : i < List.length (seq 0 NUM_FRAMES)) by (rewrite length_seq; exact Hi).
  pose proof (Forall2_nth_rel Hall 0 clip Hi') as Hf.
  rewrite seq_nth in Hf by exact Hi. cbn [Nat.add] in Hf.
  apply torch_stack_inv in Hstack as (f0 & rest & _ & Hsame & Hshape & Hat).
  assert (Hshape_i : shape clip = 450 :: shape (nth i frames clip)).
  { rewrite Hshape, Hlen. change NUM_FRAMES with 450. f_equal.
    rewrite Forall_forall in Hsame. symmetry. apply Hsame.
    apply nth_In. rewrite Hlen. exact Hi. }
  split.
  - intros img Hfile.
    unfold frame_of in Hf. rewrite Hfile in Hf. cbn [self_transform] in Hf.
    inversion Hf as [Hframe]. clear Hf. split.
    + rewrite Hshape_i, <- Hframe. reflexivity.
    + intros c y x. rewrite (Hat i [c; y; x] clip) by (rewrite Hlen; exact Hi).
      rewrite <- Hframe. reflexivity.
  - intros gif Hfile Hn.
    unfold frame_of in Hf. rewrite Hfile in Hf. cbn [self_transform] in Hf.
    inversion Hf as [Hframe]. clear Hf. split.
    + rewrite Hshape_i, <- Hframe. rewrite (decode_gif_several gif Hn).
      reflexivity.
    + intros n c y x. rewrite (Hat i [n; c; y; x] clip) by (rewrite Hlen; exact Hi).
      rewrite <- Hframe. unfold decode_gif.
      destruct (Nat.eqb (n_frames gif) 1) eqn:Hq; [| reflexivity].
      apply Nat.eqb_eq in Hq. contradiction.
Qed.

(** For a row whose keyframe converts and whose video name is a [str], a
    video none of whose 450 frames is on disk gives, whatever the
    transform, a clip of shape [450; 3; 224; 224] that is zero everywhere;
    no image is read. *)
Theorem no_frames_give_a_zero_clip
    (self : VideoDataset) (fs : filesystem) (idx : Z) (r : row)
    (video : string) :
  iloc (annotations self) idx = Ok r ->
  is_ok (py_int_of_float (PrimFloat.mul (keyframe r) 30)) = true ->
  video_name r = Str video ->
  (forall i, i < 450 -> fs (frame_path video i) = None) ->
  exists log clip,
    VideoDataset_getitem self fs idx
    = (log, Ok (clip, (behavior_category r - 2)%Z)) /\
    shape clip = [450; 3; 224; 224] /\
    (forall i rest, i < 450 -> at_index clip (i :: rest) = zero) /\
    (forall p, ~ In (ReadImage p) log).
Proof.
  intros Hr Hkf Hname Hnone.
  destruct (py_int_of_float (PrimFloat.mul (keyframe r) 30)) as [k |] eqn:Hk;
    [| discriminate].
  set (z := torch_zeros [3; IMG_HEIGHT; IMG_WIDTH]).
  assert (Hall : Forall2 (fun i f => frame_of self fs video i = Ok f)
                   (seq 0 NUM_FRAMES) (repeat z NUM_FRAMES)).
  { assert (Hgen : forall n s, s + n <= NUM_FRAMES ->
               Forall2 (fun i f => frame_of self fs video i = Ok f)
                 (seq s n) (repeat z n)).
    { induction n as [| n IH]; intros s Hs; cbn; constructor.
      - unfold frame_of. rewrite Hnone by (change 450 with NUM_FRAMES; lia).
        reflexivity.
      - apply IH. lia. }
    apply Hgen. lia. }
  destruct (load_frames_run self fs video [] Hall) as [log Hload].
  cbn [app] in Hload.
  destruct (torch_stack_uniform (frames := repeat z NUM_FRAMES)
              (s := [3; IMG_HEIGHT; IMG_WIDTH])) as (clip & Hstack & Hshape).
  { discriminate. }
  { apply Forall_forall. intros f Hf. apply repeat_spec in Hf. subst f. reflexivity. }
  exists (log ++ (if label_is_invalid (behavior_category r - 2)
                  then [Print (invalid_label_message (behavior_category r - 2) idx)]
                  else [])), clip.
  split; [| split; [| split]].
  - rewrite (@getitem_row _ self fs idx r Hr).
    eapply bind_run; [eapply build_clip_run; eassumption | apply finish_item_run].
  - rewrite Hshape, repeat_length. reflexivity.
  - intros i rest Hi.
    apply torch_stack_inv in Hstack as (f0 & rest0 & _ & _ & _ & Hat).
    rewrite (Hat i rest z) by (rewrite repeat_length; exact Hi).
    rewrite nth_repeat. reflexivity.
  - intros p Hin. apply in_app_or in Hin as [Hin | Hin].
    + assert (Hreads : forall range acc l fr,
                 (forall i, In i range -> fs (frame_path video i) = None) ->
                 load_frames self fs (Str video) range acc = (l, fr) ->
                 ~ In (ReadImage p) l).
      { induction range as [| i range IH]; intros acc l fr Habsent Hrun.
        - cbn in Hrun. inversion Hrun. intros [].
        - cbn [load_frames] in Hrun.
          rewrite load_frame_missing in Hrun by (apply Habsent; left; reflexivity).
          unfold bind in Hrun.
          destruct (load_frames self fs (Str video) range _) as [l2 r2] eqn:Hrest.
          inversion Hrun; subst. intros [Hq | Hin2]; [discriminate |].
          eapply IH; [| exact Hrest | exact Hin2].
          intros j Hj. apply Habsent. right. exact Hj. }
      eapply Hreads; [| exact Hload | exact Hin].
      intros i Hi. apply in_seq in Hi. apply Hnone. change 450 with NUM_FRAMES. lia.
    + destruct (label_is_invalid _); [| destruct Hin].
      destruct Hin as [Hq | []]. discriminate.
Qed.

(** A video name that is not a [str] (a column of numbers, an empty cell)
    is refused by [os.path.join] in the first round of the loop: for a row
    in range whose keyframe converts, [__getitem__] raises [TypeError]
    before any path is asked for, whatever is on disk. *)
Theorem getitem_rejects_non_string_video_name
    (self : VideoDataset) (fs : filesystem) (idx : Z) (r : row) :
  iloc (annotations self) idx = Ok r ->
  is_ok (py_int_of_float (PrimFloat.mul (keyframe r) 30)) = true ->
  (forall video, video_name r <> Str video) ->
  VideoDataset_getitem self fs idx = ([], Raise TypeError).
Proof.
  intros Hr Hkf Hname.
  apply (getitem_not_str self fs idx Hr); [| exact Hkf].
  destruct (video_name r) as [video | z | x | b]; try reflexivity.
  exfalso. exact (Hname video eq_refl).
Qed.

End ClipValues.

(** ** The frame paths are all different *)

Lemma append_cancel_l (p a b : string) :
  (p ++ a)%string = (p ++ b)%string -> a = b.
Proof.
  induction p as [| c p IH]; cbn; intros Hq; [exact Hq |].
  inversion Hq. auto.
Qed.

Lemma all_distinct_NoDup (l : list string) : all_distinct l = true -> NoDup l.
Proof.
  induction l as [| s rest IH]; cbn; intros Hd; constructor.
  - apply andb_true_iff in Hd as [Hs _]. intros Hin.
    apply negb_true_iff in Hs.
    assert (Hex : existsb (String.eqb s) rest = true).
    { apply existsb_exists. exists s. split; [exact Hin | apply String.eqb_refl]. }
    congruence.
  - apply IH. apply andb_true_iff in Hd as [_ Hd]. exact Hd.
Qed.

Lemma NoDup_map_injective {A B} (f : A -> B) (l : list A) :
  (forall a b, f a = f b -> a = b) -> NoDup l -> NoDup (map f l).
Proof.
  intros Hinj. induction 1 as [| a l Hnotin Hnodup IH]; cbn; constructor.
  - intros Hin. apply in_map_iff in Hin as (b & Hq & Hb).
    apply Hinj in Hq. subst b. contradiction.
  - exact IH.
Qed.

Lemma frame_files_distinct : NoDup (map frame_file (seq 0 NUM_FRAMES)).
Proof. apply all_distinct_NoDup. vm_compute. reflexivity. Qed.

(** For every video name, the 450 frame positions stand for 450 different
    paths: no file is asked for twice. *)
Theorem frame_paths_are_distinct (video : string) :
  NoDup (map (frame_path video) (seq 0 450)).
Proof.
  change 450 with NUM_FRAMES.
  assert (Hform : exists prefix, forall i,
             frame_path video i = (prefix ++ frame_file i)%string).
  { unfold frame_path, os_path_join. cbn [fold_left].
    set (dir := join_step DATA_DIR video).
    destruct ((String.eqb dir "" || ends_with_sep dir)%bool) eqn:Hsep.
    - exists dir. intros i. unfold join_step.
      change (starts_with_sep (frame_file i)) with false. rewrite Hsep. reflexivity.
    - exists (dir ++ "/")%string. intros i. unfold join_step.
      change (starts_with_sep (frame_file i)) with false. rewrite Hsep.
      clear. induction dir as [| c dir IH]; cbn; [reflexivity |].
      f_equal. exact IH. }
  destruct Hform as [prefix Hform].
  rewrite (map_ext _ (fun i => (prefix ++ frame_file i)%string) Hform).
  rewrite <- (map_map frame_file (String.append prefix)).
  apply NoDup_map_injective; [| exact frame_files_distinct].
  intros a b. apply append_cancel_l.
Qed.


(** * Further properties of [__init__] *)

Lemma fold_min_spec (l : list Z) (x : Z) :
  (fold_left Z.min l x <= x)%Z /\
  (forall y, In y l -> (fold_left Z.min l x <= y)%Z) /\
  In (fold_left Z.min l x) (x :: l).
Proof.
  revert x. induction l as [| a l IH]; intros x; cbn [fold_left].
  - split; [lia |]. split; [intros y [] | left; reflexivity].
  - destruct (IH (Z.min x a)) as (Hle & Hall & Hin). split; [lia |]. split.
    + intros y [<- | Hy]; [lia | apply Hall; exact Hy].
    + destruct Hin as [Hq | Hin].
      * rewrite <- Hq. destruct (Z.min_spec x a) as [[_ ->] | [_ ->]];
          [left | right; left]; reflexivity.
      * right. right. exact Hin.
Qed.

Lemma fold_max_spec (l : list Z) (x : Z) :
  (x <= fold_left Z.max l x)%Z /\
  (forall y, In y l -> (y <= fold_left Z.max l x)%Z) /\
  In (fold_left Z.max l x) (x :: l).
Proof.
  revert x. induction l as [| a l IH]; intros x; cbn [fold_left].
  - split; [lia |]. split; [intros y [] | left; reflexivity].
  - destruct (IH (Z.max x a)) as (Hle & Hall & Hin). split; [lia |]. split.
    + intros y [<- | Hy]; [lia | apply Hall; exact Hy].
    + destruct Hin as [Hq | Hin].
      * rewrite <- Hq. destruct (Z.max_spec x a) as [[_ ->] | [_ ->]];
          [right; left | left]; reflexivity.
      * right. right. exact Hin.
Qed.

Lemma parse_all_bad (parse : string -> result row) (lines : list string) :
  Exists (fun l => is_ok (parse l) = false) lines ->
  exists l e, In l lines /\ parse l = Raise e /\ parse_all parse lines = Raise e.
Proof.
  induction lines as [| x rest IH]; intros Hbad; [inversion Hbad |].
  cbn [parse_all]. destruct (parse x) as [r | e] eqn:Hx.
  - inversion Hbad as [? ? Hhd | ? ? Htl]; subst.
    + rewrite Hx in Hhd. discriminate.
    + destruct (IH Htl) as (l & e & Hin & Hl & Hall).
      exists l, e. split; [right; exact Hin |]. split; [exact Hl |].
      cbn. rewrite Hall. reflexivity.
  - exists x, e. split; [left; reflexivity |]. split; [exact Hx | reflexivity].
Qed.

Section InitFacts.
Context `{PixelOps}.

(** For a file with at least one record, [__init__] prints one line,
    [Label range: lo to hi], where [lo] and [hi] are the least and the
    greatest [behavior_category] among the rows it keeps. *)
Theorem init_prints_label_range
    (parse : string -> result row) (file : list string)
    (tr : option transform_t) log (ds : VideoDataset) :
  VideoDataset_init parse file tr = (log, Ok ds) ->
  annotations ds <> [] ->
  exists lo hi,
    log = [Print ("Label range: " ++ str_of_int lo ++ " to "
                  ++ str_of_int hi)%string] /\
    (forall r, In r (annotations ds) -> (lo <= behavior_category r <= hi)%Z) /\
    (exists r, In r (annotations ds) /\ behavior_category r = lo) /\
    (exists r, In r (annotations ds) /\ behavior_category r = hi).
Proof.
  intros Hinit Hne. apply init_inv in Hinit as (rows & _ & -> & ->).
  cbn [annotations] in *. destruct rows as [| r0 rows]; [congruence |].
  cbn [map series_min series_max str_of_label].
  destruct (fold_min_spec (map behavior_category rows) (behavior_category r0))
    as (Hmin0 & Hmin & Hmin_in).
  destruct (fold_max_spec (map behavior_category rows) (behavior_category r0))
    as (Hmax0 & Hmax & Hmax_in).
  eexists. eexists. split; [reflexivity |]. split; [| split].
  - intros r [<- | Hr]; [lia |].
    split; [apply Hmin | apply Hmax]; apply in_map; exact Hr.
  - change (behavior_category r0 :: map behavior_category rows)
      with (map behavior_category (r0 :: rows)) in Hmin_in.
    apply in_map_iff in Hmin_in as (r & Hq & Hr). exists r. auto.
  - change (behavior_category r0 :: map behavior_category rows)
      with (map behavior_category (r0 :: rows)) in Hmax_in.
    apply in_map_iff in Hmax_in as (r & Hq & Hr). exists r. auto.
Qed.

(** When some record of the file does not convert, [__init__] raises the
    exception of a record that does not convert and prints nothing: no
    dataset is built from the records that did convert. *)
Theorem init_raises_on_bad_record
    (parse : string -> result row) (file : list string)
    (tr : option transform_t) :
  Exists (fun l => is_ok (parse l) = false) (data_lines file) ->
  exists l e,
    In l (data_lines file) /\ parse l = Raise e /\
    VideoDataset_init parse file tr = ([], Raise e).
Proof.
  intros Hbad. destruct (parse_all_bad parse Hbad) as (l & e & Hin & Hl & Hall).
  exists l, e. split; [exact Hin |]. split; [exact Hl |].
  unfold VideoDataset_init, read_csv. rewrite Hall. reflexivity.
Qed.

(** A file with no record after its first line (a header alone, or a
    header and blank lines only) gives an empty dataset: [__init__] prints
    [Label range: nan to nan], [__len__] is 0 and [__getitem__] raises
    [IndexError] at every index. *)
Theorem init_without_records
    (parse : string -> result row) (file : list string)
    (tr : option transform_t) :
  data_lines file = [] ->
  VideoDataset_init parse file tr
  = ([Print "Label range: nan to nan"], Ok (mkDataset [] tr)) /\
  VideoDataset_len (mkDataset [] tr) = 0 /\
  forall fs idx,
    VideoDataset_getitem (mkDataset [] tr) fs idx = ([], Raise IndexError).
Proof.
  intros Hlines. split; [| split].
  - unfold VideoDataset_init, read_csv. rewrite Hlines. reflexivity.
  - reflexivity.
  - intros fs idx. unfold VideoDataset_getitem, iloc. cbn [annotations List.length].
    destruct (idx <? 0)%Z eqn:Hneg.
    + assert (Hlo : (0 <=? Z.of_nat 0 + idx)%Z = false)
        by (apply Z.leb_gt; apply Z.ltb_lt in Hneg; lia).
      rewrite Hlo. reflexivity.
    + assert (Hhi : (idx <? Z.of_nat 0)%Z = false)
        by (apply Z.ltb_ge; apply Z.ltb_ge in Hneg; lia).
      rewrite Hhi, andb_false_r. reflexivity.
Qed.

End InitFacts.

(** The two annotation files [load_datasets] names. *)
Example annotation_paths :
  os_path_join ANNOTATIONS_DIR [TRAIN_CSV]
  = "data/cvb_in_ava_format/ava_train_set.csv"%string /\
  os_path_join ANNOTATIONS_DIR [VAL_CSV]
  = "data/cvb_in_ava_format/ava_val_set.csv"%string.
Proof. split; reflexivity. Qed.


(** * Further properties of the I3D wrapper *)

Section ModelEdges.
Context `{PixelOps}.
Variables (rng trunk_t : Type).
Variable draw : rng -> list nat -> tensor elt * rng.
Variable resnet_forward : VideoResNet trunk_t -> tensor elt -> result (tensor elt).

(** An input that does not have five dimensions makes [forward] raise
    [RuntimeError] in [permute]; the network is not applied. *)
Theorem I3D_forward_rejects_other_ranks (self : I3D trunk_t) (x : tensor elt) :
  List.length (shape x) <> 5 ->
  I3D_forward resnet_forward self x = Raise RuntimeError.
Proof.
  intros Hrank. unfold I3D_forward, permute.
  assert (Hlen : Nat.eqb (List.length [0; 2; 1; 3; 4]) (List.length (shape x)) = false).
  { apply Nat.eqb_neq. cbn. congruence. }
  rewrite Hlen. reflexivity.
Qed.

(** Swapping frames and channels twice gives back the tensor: the same
    shape and the same element at every index. *)
Theorem permute_twice_is_identity (x : tensor elt) (b f c h w : nat) :
  shape x = [b; f; c; h; w] ->
  exists x' x'',
    permute [0; 2; 1; 3; 4] x = Ok x' /\
    permute [0; 2; 1; 3; 4] x' = Ok x'' /\
    shape x'' = shape x /\
    forall ib jf ic ih iw,
      at_index x'' [ib; jf; ic; ih; iw] = at_index x [ib; jf; ic; ih; iw].
Proof.
  intros Hshape.
  destruct (permute_frames_channels x Hshape) as (x' & Hp1 & Hs1 & Hat1).
  destruct (permute_frames_channels x' Hs1) as (x'' & Hp2 & Hs2 & Hat2).
  exists x', x''. split; [exact Hp1 |]. split; [exact Hp2 |].
  split; [congruence |].
  intros ib jf ic ih iw. rewrite Hat2, Hat1. reflexivity.
Qed.

(** Of the pretrained classifier head only the number of inputs is used:
    two model zoo entries with the same trunk and the same [in_features]
    give the same I3D model, whatever the weights of their heads. *)
Theorem I3D_init_ignores_pretrained_head
    (zoo1 zoo2 : string -> VideoResNet trunk_t) (num_classes : Z) (g : rng) :
  trunk (zoo1 "KINETICS400_V1"%string) = trunk (zoo2 "KINETICS400_V1"%string) ->
  in_features (fc (zoo1 "KINETICS400_V1"%string))
  = in_features (fc (zoo2 "KINETICS400_V1"%string)) ->
  I3D_init draw zoo1 num_classes g = I3D_init draw zoo2 num_classes g.
Proof.
  intros Htrunk Hin. unfold I3D_init. rewrite Htrunk, Hin. reflexivity.
Qed.

End ModelEdges.

(** * Further properties of the loops *)

Lemma print_metrics_outcome (ph : phase) (e : Z) (c : counters) (n : nat) :
  (exists loss acc,
     print_metrics ph e c n = ([PrintMetrics ph e loss acc], Ok tt)) \/
  (exists err, print_metrics ph e c n = ([], Raise err)).
Proof.
  destruct c as [[l k] t]. unfold print_metrics.
  destruct (py_truediv_int l (Z.of_nat n)) as [loss | err];
    [| right; exists err; reflexivity].
  rewrite bind_lift.
  destruct (result_bind (py_mul_int 100 k) (fun x => py_truediv_int x t))
    as [acc | err]; [| right; exists err; reflexivity].
  left. exists loss, acc. reflexivity.
Qed.

Lemma print_metrics_no_samples (ph : phase) (e : Z) (l : float) (k : Z) (n : nat) :
  exists err, print_metrics ph e (l, k, 0%Z) n = ([], Raise err).
Proof.
  unfold print_metrics.
  destruct (py_truediv_int l (Z.of_nat n)) as [loss | err];
    [| exists err; reflexivity].
  rewrite bind_lift. unfold py_mul_int.
  destruct (py_float_of_int k) as [fk | err]; cbn [result_map result_bind];
    [exists ZeroDivisionError | exists err]; reflexivity.
Qed.

Section LoopEdges.
Variables (clips_t row_t loss_t net : Type).
Variable model_train : net -> clips_t -> result (list row_t).
Variable model_eval : net -> clips_t -> result (list row_t).
Variable criterion : list row_t -> list Z -> result loss_t.
Variable item : loss_t -> float.
Variable argmax : row_t -> Z.
Variable optimizer_step : net -> loss_t -> net.

Local Abbreviation train_loop_ := (train_loop model_train criterion item argmax optimizer_step).
Local Abbreviation val_loop_ := (val_loop model_eval criterion item argmax).
Local Abbreviation train_epoch_ := (train_epoch model_train criterion item argmax optimizer_step).
Local Abbreviation val_epoch_ := (val_epoch model_eval criterion item argmax).
Local Abbreviation main_ := (main model_train model_eval criterion item argmax optimizer_step).

(** With an empty loader, an epoch raises [ZeroDivisionError] on the
    division by [len(loader)] and prints nothing; so [main] on an empty
    training loader raises it before validation starts. *)
Theorem empty_loader_divides_by_zero (n : net) (epoch : nat)
    (val_loader : list (batch clips_t)) :
  train_epoch_ n epoch [] = ([], Raise ZeroDivisionError) /\
  val_epoch_ n epoch [] = ([], Raise ZeroDivisionError) /\
  main_ n [] val_loader = ([], Raise ZeroDivisionError).
Proof. repeat split. Qed.

(** Batches whose clips are [None] leave the network and the three
    counters as they are: each loop gives what it gives on the loader
    without these batches. *)
Theorem none_batches_are_skipped (n : net) (c : counters)
    (loader : list (batch clips_t)) :
  train_loop_ n c loader = train_loop_ n c (filter has_clips loader) /\
  val_loop_ n c loader = val_loop_ n c (filter has_clips loader).
Proof.
  split.
  - revert n c. induction loader as [| [[clips |] labels] rest IH]; intros n c.
    + reflexivity.
    + cbn [filter has_clips fst train_loop].
      destruct (run_batch criterion item argmax model_train n clips labels)
        as [[r loss] |]; [| reflexivity].
      cbn [result_bind fst snd].
      destruct (accumulate c r) as [c' |]; [| reflexivity].
      cbn [result_bind]. apply IH.
    + cbn [filter has_clips fst train_loop]. apply IH.
  - revert c. induction loader as [| [[clips |] labels] rest IH]; intros c.
    + reflexivity.
    + cbn [filter has_clips fst val_loop].
      destruct (run_batch criterion item argmax model_eval n clips labels)
        as [[r loss] |]; [| reflexivity].
      cbn [result_bind fst snd].
      destruct (accumulate c r) as [c' |]; [| reflexivity].
      cbn [result_bind]. apply IH.
    + cbn [filter has_clips fst val_loop]. apply IH.
Qed.

Lemma accumulate_total (c c' : counters) (r : batch_record) :
  accumulate c r = Ok c' ->
  snd c' = (snd c + Z.of_nat (List.length (targets r)))%Z /\
  (snd (fst c) <= snd (fst c'))%Z.
Proof.
  destruct c as [[l k] t]. unfold accumulate.
  destruct (eq_sum (predicted r) (targets r)) as [m |] eqn:Hsum; [| discriminate].
  cbn [result_bind]. intros Hq. inversion Hq; subst. cbn [fst snd].
  split; [reflexivity |].
  assert (Hm : (0 <= m)%Z).
  { unfold eq_sum in Hsum.
    repeat match type of Hsum with
           | (if ?b then _ else _) = _ => destruct b
           end; inversion Hsum; unfold count_equal; lia. }
  lia.
Qed.

Lemma run_batch_targets (fwd : net -> clips_t -> result (list row_t)) (n : net)
    (clips : clips_t) (labels : list Z) r loss :
  run_batch criterion item argmax fwd n clips labels = Ok (r, loss) ->
  targets r = labels.
Proof.
  unfold run_batch. destruct (fwd n clips); [| discriminate]. cbn.
  destruct (criterion _ labels); [| discriminate]. cbn.
  intros Hq. inversion Hq. reflexivity.
Qed.

Lemma train_loop_totals (loader : list (batch clips_t)) :
  forall n c n' c',
    train_loop_ n c loader = Ok (n', c') ->
    snd c' = (snd c + Z.of_nat (List.length (labels_seen loader)))%Z /\
    (snd (fst c) <= snd (fst c'))%Z.
Proof.
  unfold labels_seen.
  induction loader as [| [[clips |] labels] rest IH]; intros n c n' c' Hloop.
  - cbn in Hloop. inversion Hloop; subst. cbn. split; lia.
  - cbn [train_loop] in Hloop.
    destruct (run_batch criterion item argmax model_train n clips labels)
      as [[r loss] |] eqn:Hrun; [| discriminate].
    cbn [result_bind fst snd] in Hloop.
    destruct (accumulate c r) as [c1 |] eqn:Hacc; [| discriminate].
    cbn [result_bind] in Hloop.
    apply IH in Hloop as [Ht Hc]. apply accumulate_total in Hacc as [Ht1 Hc1].
    rewrite (run_batch_targets _ _ _ _ Hrun) in Ht1.
    cbn [filter has_clips fst flat_map snd]. rewrite length_app, Nat2Z.inj_add.
    split; lia.
  - cbn [train_loop] in Hloop. apply IH in Hloop.
    cbn [filter has_clips fst]. exact Hloop.
Qed.

Lemma val_loop_totals (loader : list (batch clips_t)) :
  forall n c c',
    val_loop_ n c loader = Ok c' ->
    snd c' = (snd c + Z.of_nat (List.length (labels_seen loader)))%Z /\
    (snd (fst c) <= snd (fst c'))%Z.
Proof.
  unfold labels_seen.
  induction loader as [| [[clips |] labels] rest IH]; intros n c c' Hloop.
  - cbn in Hloop. inversion Hloop; subst. cbn. split; lia.
  - cbn [val_loop] in Hloop.
    destruct (run_batch criterion item argmax model_eval n clips labels)
      as [[r loss] |] eqn:Hrun; [| discriminate].
    cbn [result_bind fst snd] in Hloop.
    destruct (accumulate c r) as [c1 |] eqn:Hacc; [| discriminate].
    cbn [result_bind] in Hloop.
    apply IH in Hloop as [Ht Hc]. apply accumulate_total in Hacc as [Ht1 Hc1].
    rewrite (run_batch_targets _ _ _ _ Hrun) in Ht1.
    cbn [filter has_clips fst flat_map snd]. rewrite length_app, Nat2Z.inj_add.
    split; lia.
  - cbn [val_loop] in Hloop. apply IH in Hloop.
    cbn [filter has_clips fst]. exact Hloop.
Qed.

(** When a loop completes, [total] is the number of labels of the batches
    that had clips, and [correct] is not negative; this holds for any
    network. *)
Theorem total_counts_the_labels_seen (n : net)
    (loader : list (batch clips_t)) :
  (forall n' running_loss correct total,
     train_loop_ n (0%float, 0%Z, 0%Z) loader
     = Ok (n', (running_loss, correct, total)) ->
     total = Z.of_nat (List.length (labels_seen loader)) /\ (0 <= correct)%Z) /\
  (forall running_loss correct total,
     val_loop_ n (0%float, 0%Z, 0%Z) loader = Ok (running_loss, correct, total) ->
     total = Z.of_nat (List.length (labels_seen loader)) /\ (0 <= correct)%Z).
Proof.
  split.
  - intros n' l k t Hloop. apply train_loop_totals in Hloop. cbn in Hloop. lia.
  - intros l k t Hloop. apply val_loop_totals in Hloop. cbn in Hloop. lia.
Qed.

(** A loader none of whose batches has clips makes the epoch raise, at
    the latest on the division by [total = 0], and print nothing. *)
Theorem epoch_without_samples_raises (n : net) (epoch : nat)
    (loader : list (batch clips_t)) :
  labels_seen loader = [] ->
  (exists e, train_epoch_ n epoch loader = ([], Raise e)) /\
  (exists e, val_epoch_ n epoch loader = ([], Raise e)).
Proof.
  intros Hnone. split.
  - unfold train_epoch.
    destruct (train_loop_ n (0%float, 0%Z, 0%Z) loader) as [[n' [[l k] t]] | e] eqn:Hloop;
      [| exists e; reflexivity].
    rewrite bind_lift. cbn [snd fst].
    apply train_loop_totals in Hloop as [Ht _]. cbn [snd] in Ht.
    rewrite Hnone in Ht. cbn in Ht. subst t.
    destruct (print_metrics_no_samples Training (Z.of_nat epoch + 1) l k
                (List.length loader)) as [e He].
    exists e. rewrite He. reflexivity.
  - unfold val_epoch.
    destruct (val_loop_ n (0%float, 0%Z, 0%Z) loader) as [[[l k] t] | e] eqn:Hloop;
      [| exists e; reflexivity].
    rewrite bind_lift.
    apply val_loop_totals in Hloop as [Ht _]. cbn [snd] in Ht.
    rewrite Hnone in Ht. cbn in Ht. subst t.
    apply print_metrics_no_samples.
Qed.

Lemma train_epoch_outcome (n : net) (epoch : nat) (loader : list (batch clips_t)) :
  (exists loss acc n',
     train_epoch_ n epoch loader
     = ([PrintMetrics Training (Z.of_nat epoch + 1) loss acc], Ok n') /\
     exists c, train_loop_ n (0%float, 0%Z, 0%Z) loader = Ok (n', c)) \/
  (exists e, train_epoch_ n epoch loader = ([], Raise e)).
Proof.
  unfold train_epoch.
  destruct (train_loop_ n (0%float, 0%Z, 0%Z) loader) as [[n' c] | e];
    [| right; exists e; reflexivity].
  rewrite bind_lift. cbn [fst snd].
  destruct (print_metrics_outcome Training (Z.of_nat epoch + 1) c (List.length loader))
    as [(loss & acc & Hp) | (e & Hp)]; rewrite Hp.
  - left. exists loss, acc, n'. split; [reflexivity |]. exists c. reflexivity.
  - right. exists e. reflexivity.
Qed.

Lemma val_epoch_outcome (n : net) (epoch : nat) (loader : list (batch clips_t)) :
  (exists loss acc,
     val_epoch_ n epoch loader
     = ([PrintMetrics Validation (Z.of_nat epoch + 1) loss acc], Ok tt)) \/
  (exists e, val_epoch_ n epoch loader = ([], Raise e)).
Proof.
  unfold val_epoch.
  destruct (val_loop_ n (0%float, 0%Z, 0%Z) loader) as [c | e];
    [| right; exists e; reflexivity].
  rewrite bind_lift. apply print_metrics_outcome.
Qed.

(** [main] prints the training line, then the validation line, and
    nothing else. It returns only after both, with the network the training
    loop left; when it raises, either nothing or the training line alone
    has been printed. *)
Theorem main_prints_training_then_validation (n : net)
    (train_loader val_loader : list (batch clips_t)) :
  (exists l1 a1 l2 a2 n',
     main_ n train_loader val_loader
     = ([PrintMetrics Training 1 l1 a1; PrintMetrics Validation 1 l2 a2], Ok n') /\
     exists c, train_loop_ n (0%float, 0%Z, 0%Z) train_loader = Ok (n', c)) \/
  (exists l1 a1 e,
     main_ n train_loader val_loader = ([PrintMetrics Training 1 l1 a1], Raise e)) \/
  (exists e, main_ n train_loader val_loader = ([], Raise e)).
Proof.
  unfold main. change (seq 0 EPOCHS) with [0]. cbn [epochs_loop].
  destruct (train_epoch_outcome n 0 train_loader)
    as [(l1 & a1 & n' & Ht & c & Hloop) | (e & Ht)]; rewrite Ht.
  - destruct (val_epoch_outcome n' 0 val_loader) as [(l2 & a2 & Hv) | (e & Hv)].
    + left. exists l1, a1, l2, a2, n'. split; [| exists c; exact Hloop].
      unfold bind at 1. unfold bind at 1. rewrite Hv. reflexivity.
    + right. left. exists l1, a1, e.
      unfold bind at 1. unfold bind at 1. rewrite Hv. reflexivity.
  - right. right. exists e. reflexivity.
Qed.

End LoopEdges.


(** * The data loaders *)

(** ** Batching the indices *)

Lemma batch_sampler_from_spec (bs : nat) (sampler : list nat) :
  1 <= bs ->
  forall batch,
    List.length batch < bs ->
    List.concat (batch_sampler_from bs batch sampler) = batch ++ sampler /\
    Forall (fun b => 1 <= List.length b <= bs)
      (batch_sampler_from bs batch sampler) /\
    List.length (batch_sampler_from bs batch sampler)
    = (List.length batch + List.length sampler + bs - 1) / bs /\
    (forall k, S k < List.length (batch_sampler_from bs batch sampler) ->
       List.length (nth k (batch_sampler_from bs batch sampler) []) = bs).
Proof.
  intros Hbs. induction sampler as [| idx rest IH]; intros batch Hlt.
  - cbn [batch_sampler_from List.length]. rewrite app_nil_r, Nat.add_0_r.
    destruct (List.length batch) as [| m] eqn:Hlen.
    + cbn. apply length_zero_iff_nil in Hlen. subst batch.
      split; [reflexivity |]. split; [constructor |]. split.
      * symmetry. apply Nat.div_small. lia.
      * intros k Hk. cbn in Hk. lia.
    + cbn [Nat.ltb Nat.leb List.concat]. rewrite app_nil_r.
      split; [reflexivity |]. split; [constructor; [lia | constructor] |]. split.
      * cbn [List.length]. symmetry.
        replace (S m + bs - 1) with (1 * bs + m) by lia.
        rewrite Nat.div_add_l by lia. rewrite Nat.div_small by lia. reflexivity.
      * intros k Hk. cbn in Hk. lia.
  - cbn [batch_sampler_from].
    destruct (Nat.eqb (List.length (batch ++ [idx])) bs) eqn:Hfull.
    + apply Nat.eqb_eq in Hfull.
      destruct (IH [] ltac:(cbn; lia)) as (Hcat & Hall & Hcount & Hsizes).
      cbn [List.concat List.length]. rewrite Hcat. cbn [app].
      split; [rewrite <- app_assoc; reflexivity |].
      split; [constructor; [lia | exact Hall] |]. split.
      * rewrite Hcount. cbn [List.length]. rewrite length_app in Hfull. cbn in Hfull.
        replace (List.length batch + S (List.length rest) + bs - 1)
          with (1 * bs + (0 + List.length rest + bs - 1)) by lia.
        rewrite Nat.div_add_l by lia. reflexivity.
      * intros [| k] Hk; cbn [nth]; [exact Hfull |]. apply Hsizes. lia.
    + apply Nat.eqb_neq in Hfull. rewrite length_app in Hfull. cbn in Hfull.
      destruct (IH (batch ++ [idx])) as (Hcat & Hall & Hcount & Hsizes).
      { rewrite length_app. cbn. lia. }
      split; [rewrite Hcat, <- app_assoc; reflexivity |].
      split; [exact Hall |]. split; [| exact Hsizes].
      rewrite Hcount, length_app. cbn [List.length]. f_equal. lia.
Qed.

Lemma batch_sampler_spec (bs : nat) (order : list nat) :
  1 <= bs ->
  List.concat (batch_sampler bs order) = order /\
  List.length (batch_sampler bs order) = (List.length order + bs - 1) / bs /\
  Forall (fun b => 1 <= List.length b <= bs) (batch_sampler bs order) /\
  (forall k, S k < List.length (batch_sampler bs order) ->
     List.length (nth k (batch_sampler bs order) []) = bs).
Proof.
  intros Hbs. unfold batch_sampler.
  destruct (@batch_sampler_from_spec bs order Hbs [] ltac:(cbn; lia))
    as (Hcat & Hall & Hcount & Hsizes).
  cbn [app List.length Nat.add] in *. auto.
Qed.

(** ** Fetching and collating *)

Section LoaderFacts.
Context `{PixelOps}.

Lemma fetch_inv (self : VideoDataset) (fs : filesystem) (indices : list nat) :
  forall log samples,
    fetch self fs indices = (log, Ok samples) ->
    Forall2 (fun idx s =>
               exists l, VideoDataset_getitem self fs (Z.of_nat idx) = (l, Ok s))
      indices samples.
Proof.
  induction indices as [| idx rest IH]; intros log samples Hrun.
  - cbn in Hrun. inversion Hrun. constructor.
  - cbn [fetch] in Hrun.
    apply bind_ok_inv in Hrun as (l1 & s & l2 & Hs & Hrun & ->).
    apply bind_ok_inv in Hrun as (l3 & ss & l4 & Hss & Hret & ->).
    cbn in Hret. inversion Hret; subst.
    constructor; [exists l1; exact Hs | eapply IH; exact Hss].
Qed.

Lemma default_collate_inv (samples : list (tensor elt * Z)) clips labels :
  default_collate samples = Ok (clips, labels) ->
  torch_stack (map fst samples) = Ok clips /\ labels = map snd samples.
Proof.
  unfold default_collate.
  destruct (torch_stack (map fst samples)) as [c |]; [| discriminate].
  cbn [result_bind]. destruct (forallb _ _); [| discriminate].
  intros Hq. inversion Hq; subst. auto.
Qed.

Lemma load_batch_inv (self : VideoDataset) (fs : filesystem)
    (indices : list nat) log (b : batch (tensor elt)) :
  load_batch self fs indices = (log, Ok b) ->
  exists clips samples,
    b = (Some clips, map snd samples) /\
    torch_stack (map fst samples) = Ok clips /\
    Forall2 (fun idx s =>
               exists l, VideoDataset_getitem self fs (Z.of_nat idx) = (l, Ok s))
      indices samples.
Proof.
  unfold load_batch. intros Hrun.
  apply bind_ok_inv in Hrun as (l1 & samples & l2 & Hfetch & Hrun & ->).
  apply bind_ok_inv in Hrun as (l3 & [clips labels] & l4 & Hcol & Hret & ->).
  unfold lift in Hcol. injection Hcol as Hl3 Hcol'. cbn in Hret.
  inversion Hret; subst.
  apply default_collate_inv in Hcol' as [Hstack ->].
  exists clips, samples. split; [reflexivity |]. split; [exact Hstack |].
  eapply fetch_inv. exact Hfetch.
Qed.

Lemma load_batches_inv (self : VideoDataset) (fs : filesystem)
    (batches : list (list nat)) :
  forall log bs,
    load_batches self fs batches = (log, Ok bs) ->
    Forall2 (fun indices b => exists l, load_batch self fs indices = (l, Ok b))
      batches bs.
Proof.
  induction batches as [| indices rest IH]; intros log bs Hrun.
  - cbn in Hrun. inversion Hrun. constructor.
  - cbn [load_batches] in Hrun.
    apply bind_ok_inv in Hrun as (l1 & b & l2 & Hb & Hrun & ->).
    apply bind_ok_inv in Hrun as (l3 & bs' & l4 & Hbs & Hret & ->).
    cbn in Hret. inversion Hret; subst.
    constructor; [exists l1; exact Hb | eapply IH; exact Hbs].
Qed.

Lemma samples_labels (self : VideoDataset) (fs : filesystem)
    (indices : list nat) (samples : list (tensor elt * Z)) :
  Forall2 (fun idx s =>
             exists l, VideoDataset_getitem self fs (Z.of_nat idx) = (l, Ok s))
    indices samples ->
  Forall2 (label_at (annotations self)) indices (map snd samples).
Proof.
  induction 1 as [| idx [clip label] indices samples [l Hs] Hrest IH]; cbn;
    constructor; [| exact IH].
  apply getitem_inv in Hs as (r & _ & Hr & _ & Hlabel & _).
  apply iloc_inv in Hr as [_ Hnth].
  assert (Hneg : (Z.of_nat idx <? 0)%Z = false) by (apply Z.ltb_ge; lia).
  rewrite Hneg, Nat2Z.id in Hnth.
  exists r. auto.
Qed.

Lemma Forall2_flat_map {A B C} (P : A -> C -> Prop)
    (f : B -> list C) (ls : list (list A)) (bs : list B) :
  Forall2 (fun l b => Forall2 P l (f b)) ls bs ->
  Forall2 P (List.concat ls) (flat_map f bs).
Proof.
  induction 1 as [| l b ls bs Hlb Hrest IH]; cbn; [constructor |].
  apply Forall2_app; assumption.
Qed.

Lemma collated_batches_sizes (self : VideoDataset) (fs : filesystem) (bs : nat)
    (chunks : list (list nat)) (batches : list (batch (tensor elt))) :
  Forall (fun b => 1 <= List.length b <= bs) chunks ->
  Forall2 (fun indices b =>
             exists clips samples,
               b = (Some clips, map snd samples) /\
               torch_stack (map fst samples) = Ok clips /\
               Forall2 (fun idx s =>
                          exists l,
                            VideoDataset_getitem self fs (Z.of_nat idx) = (l, Ok s))
                 indices samples)
    chunks batches ->
  Forall (fun b => exists clips,
            fst b = Some clips /\
            hd 0 (shape clips) = List.length (snd b) /\
            1 <= List.length (snd b) <= bs) batches.
Proof.
  intros Hsizes Hbatches.
  induction Hbatches as [| indices b chunks' batches' Hb Hrest IH];
    [constructor |].
  inversion Hsizes as [| ? ? Hsize Hsizes']; subst.
  constructor; [| apply IH; exact Hsizes'].
  destruct Hb as (clips & samples & -> & Hstack & Hsamples).
  exists clips. cbn [fst snd]. split; [reflexivity |].
  apply torch_stack_inv in Hstack as (f0 & rest & _ & _ & Hshape & _).
  rewrite Hshape. cbn [hd]. rewrite !length_map.
  rewrite <- (Forall2_length Hsamples). split; [reflexivity | exact Hsize].
Qed.

(** One pass over a loader with a batch size of at least 1, when it
    completes, yields [len(loader)] batches when the order visits every
    index once; each batch has clips, as many labels as clips and between
    1 and [batch_size] of them; and the labels, batch after batch, are the
    labels of the rows in the order visited. *)
Theorem loader_batches_follow_the_order
    (randperm : nat -> list nat) (loader : DataLoader) (fs : filesystem)
    log (batches : list (batch (tensor elt))) :
  1 <= dl_batch_size loader ->
  DataLoader_iter randperm loader fs = (log, Ok batches) ->
  List.length batches
  = (List.length (sampler_order randperm loader) + dl_batch_size loader - 1)
    / dl_batch_size loader /\
  (List.length (sampler_order randperm loader)
   = VideoDataset_len (dl_dataset loader) ->
   List.length batches = DataLoader_len loader) /\
  Forall (fun b => exists clips,
            fst b = Some clips /\
            hd 0 (shape clips) = List.length (snd b) /\
            1 <= List.length (snd b) <= dl_batch_size loader) batches /\
  Forall2 (label_at (annotations (dl_dataset loader)))
    (sampler_order randperm loader) (labels_seen batches).
Proof.
  intros Hbs Hrun. unfold DataLoader_iter in Hrun.
  destruct (batch_sampler_spec (sampler_order randperm loader) Hbs)
    as (Hcat & Hcount & Hsizes & _).
  apply load_batches_inv in Hrun.
  assert (Hlen : List.length batches
                 = List.length (batch_sampler (dl_batch_size loader)
                                  (sampler_order randperm loader))).
  { symmetry. apply (Forall2_length Hrun). }
  split; [rewrite Hlen; exact Hcount |]. split.
  { intros Hall. unfold DataLoader_len. rewrite <- Hall, Hlen. exact Hcount. }
  assert (Hbatches :
            Forall2 (fun indices b =>
                       exists clips samples,
                         b = (Some clips, map snd samples) /\
                         torch_stack (map fst samples) = Ok clips /\
                         Forall2 (fun idx s =>
                                    exists l,
                                      VideoDataset_getitem (dl_dataset loader) fs
                                        (Z.of_nat idx) = (l, Ok s))
                           indices samples)
              (batch_sampler (dl_batch_size loader) (sampler_order randperm loader))
              batches).
  { eapply Forall2_impl; [| exact Hrun].
    intros indices b [l Hb]. eapply load_batch_inv. exact Hb. }
  clear Hrun. split.
  - eapply collated_batches_sizes; eassumption.
  - rewrite <- Hcat at 1. unfold labels_seen.
    assert (Hfilter : filter has_clips batches = batches).
    { clear -Hbatches. induction Hbatches as [| i b ? ? Hb ? IH]; [reflexivity |].
      destruct Hb as (clips & samples & -> & _). cbn. rewrite IH. reflexivity. }
    rewrite Hfilter. apply Forall2_flat_map.
    eapply Forall2_impl; [| exact Hbatches].
    intros indices b (clips & samples & -> & _ & Hsamples). cbn [snd].
    eapply samples_labels. exact Hsamples.
Qed.

End LoaderFacts.


(** ** The batches of [load_datasets] *)

Section LoadedBatches.
Context `{PixelOps}.

Lemma module_clip_shape (rows : list row) (fs : filesystem) (idx : Z)
    log clip label :
  (forall p gif, fs p = Some (AnimatedFile gif) -> n_frames gif = 1) ->
  VideoDataset_getitem (mkDataset rows (Some transform)) fs idx
  = (log, Ok (clip, label)) ->
  shape clip = [NUM_FRAMES; 3; IMG_HEIGHT; IMG_WIDTH].
Proof.
  intros Hsingle Hrun.
  destruct (module_clip_frames _ _ _ Hrun) as (r & video & s & _ & _ & Hshape & Hall).
  assert (H0 : 0 < NUM_FRAMES) by (unfold NUM_FRAMES; lia).
  destruct (module_frame_shape_cases _ _ (Hall 0 H0))
    as [Hs | (gif & Hfile & Hn & _)].
  - rewrite Hshape, Hs. reflexivity.
  - exfalso. apply Hn. exact (Hsingle _ gif Hfile).
Qed.

Lemma load_datasets_inv (parse : string -> result row)
    (train_csv val_csv : list string) log (train_loader val_loader : DataLoader) :
  load_datasets parse train_csv val_csv = (log, Ok (train_loader, val_loader)) ->
  exists train_rows val_rows,
    read_csv parse train_csv = Ok train_rows /\
    read_csv parse val_csv = Ok val_rows /\
    train_rows <> [] /\
    train_loader = mkDataLoader (mkDataset train_rows (Some transform)) BATCH_SIZE true /\
    val_loader = mkDataLoader (mkDataset val_rows (Some transform)) BATCH_SIZE false /\
    metrics_of log = [].
Proof.
  unfold load_datasets. intros Hrun.
  apply bind_ok_inv in Hrun as (l1 & ds1 & l2 & H1 & Hrun & ->).
  apply bind_ok_inv in Hrun as (l3 & ds2 & l4 & H2 & Hrun & ->).
  apply bind_ok_inv in Hrun as (l5 & tl & l6 & H3 & Hrun & ->).
  apply bind_ok_inv in Hrun as (l7 & vl & l8 & H4 & Hret & ->).
  cbn in Hret. inversion Hret; subst.
  apply init_inv in H1 as (rows1 & Hr1 & -> & ->).
  apply init_inv in H2 as (rows2 & Hr2 & -> & ->).
  unfold lift in H3, H4. injection H3 as <- H3. injection H4 as <- H4.
  unfold DataLoader_init, VideoDataset_len in H3, H4.
  cbn [annotations andb] in H3, H4.
  destruct rows1 as [| r1 rows1]; [discriminate |].
  cbn in H3, H4. inversion H3; inversion H4; subst.
  exists (r1 :: rows1), rows2. repeat split; try assumption. discriminate.
Qed.

(** On a file system none of whose files holds several images, every batch
    drawn from a loader of [load_datasets] has clips of shape
    [B; 450; 3; 224; 224] and [B] labels, with [B] between 1 and 8; and
    [I3D.forward] hands the network those clips as a tensor of shape
    [B; 3; 450; 224; 224]. *)
Theorem loaded_batches_fit_the_network
    (parse : string -> result row) (train_csv val_csv : list string)
    (randperm : nat -> list nat) (fs : filesystem)
    log0 (train_loader val_loader loader : DataLoader)
    log (batches : list (batch (tensor elt)))
    (trunk_t : Type)
    (resnet_forward : VideoResNet trunk_t -> tensor elt -> result (tensor elt))
    (self : I3D trunk_t) :
  load_datasets parse train_csv val_csv = (log0, Ok (train_loader, val_loader)) ->
  loader = train_loader \/ loader = val_loader ->
  (forall p gif, fs p = Some (AnimatedFile gif) -> n_frames gif = 1) ->
  DataLoader_iter randperm loader fs = (log, Ok batches) ->
  Forall (fun b =>
            exists clips x,
              fst b = Some clips /\
              shape clips = [List.length (snd b); 450; 3; 224; 224] /\
              1 <= List.length (snd b) <= 8 /\
              permute [0; 2; 1; 3; 4] clips = Ok x /\
              shape x = [List.length (snd b); 3; 450; 224; 224] /\
              I3D_forward resnet_forward self clips
              = resnet_forward (model self) x) batches.
Proof.
  intros Hload Hwhich Hsingle Hiter.
  apply load_datasets_inv in Hload
    as (train_rows & val_rows & _ & _ & _ & Htrain & Hval & _).
  assert (Hloader : exists rows shuffle,
             loader = mkDataLoader (mkDataset rows (Some transform)) BATCH_SIZE shuffle).
  { destruct Hwhich as [-> | ->]; eauto. }
  destruct Hloader as (rows & shuffle & ->).
  unfold DataLoader_iter in Hiter. cbn [dl_dataset dl_batch_size] in Hiter.
  destruct (@batch_sampler_spec BATCH_SIZE
              (sampler_order randperm
                 (mkDataLoader (mkDataset rows (Some transform)) BATCH_SIZE shuffle)))
    as (_ & _ & Hsizes & _); [unfold BATCH_SIZE; lia |].
  apply load_batches_inv in Hiter.
  revert Hsizes Hiter.
  generalize (batch_sampler BATCH_SIZE
                (sampler_order randperm
                   (mkDataLoader (mkDataset rows (Some transform)) BATCH_SIZE shuffle)))
    as chunks.
  intros chunks Hsizes Hiter.
  induction Hiter as [| indices b chunks' batches' [l Hb] Hrest IH];
    [constructor |].
  inversion Hsizes as [| ? ? Hsize Hsizes']; subst.
  constructor; [| apply IH; exact Hsizes'].
  apply load_batch_inv in Hb as (clips & samples & -> & Hstack & Hsamples).
  cbn [fst snd]. rewrite length_map, <- (Forall2_length Hsamples).
  assert (Hshape : shape clips = [List.length indices; 450; 3; 224; 224]).
  { apply torch_stack_inv in Hstack as (f0 & rest & Hcons & _ & Hshape & _).
    rewrite Hshape, length_map, <- (Forall2_length Hsamples). f_equal.
    destruct samples as [| [clip0 label0] samples']; [discriminate |].
    cbn in Hcons. inversion Hcons; subst f0.
    inversion Hsamples as [| idx ? ? ? [l0 Hs] _]; subst.
    exact (@module_clip_shape _ _ _ _ _ _ Hsingle Hs). }
  destruct (permute_frames_channels clips Hshape) as (x & Hperm & Hx & _).
  exists clips, x. split; [reflexivity |]. split; [exact Hshape |].
  split; [exact Hsize |]. split; [exact Hperm |]. split; [exact Hx |].
  unfold I3D_forward. rewrite Hperm. reflexivity.
Qed.

End LoadedBatches.


(** ** [main] with its loaders *)

Lemma metrics_of_app (l1 l2 : list event) :
  metrics_of (l1 ++ l2) = metrics_of l1 ++ metrics_of l2.
Proof. unfold metrics_of. apply filter_app. Qed.

Lemma bind_no_metrics {A B} (m : Py A) (k : A -> Py B) :
  metrics_of (log_of m) = [] ->
  (forall a, metrics_of (log_of (k a)) = []) ->
  metrics_of (log_of (bind m k)) = [].
Proof.
  intros Hm Hk. unfold bind. destruct m as [l1 [a | e]]; [| exact Hm].
  specialize (Hk a). destruct (k a) as [l2 r]. cbn [log_of fst] in *.
  rewrite metrics_of_app, Hm, Hk. reflexivity.
Qed.

Lemma bind_step {A B} (m : Py A) (k : A -> Py B) l a :
  m = (l, Ok a) -> bind m k = (l ++ log_of (k a), outcome (k a)).
Proof. intros ->. unfold bind. destruct (k a). reflexivity. Qed.

(** Two computations that end alike, the second printing exactly the
    metric lines of the first, stay so under [bind]. *)
Lemma bind_reports {A B} (m1 m2 : Py A) (k1 k2 : A -> Py B) :
  outcome m1 = outcome m2 /\ metrics_of (log_of m1) = log_of m2 ->
  (forall a, outcome (k1 a) = outcome (k2 a) /\
             metrics_of (log_of (k1 a)) = log_of (k2 a)) ->
  outcome (bind m1 k1) = outcome (bind m2 k2) /\
  metrics_of (log_of (bind m1 k1)) = log_of (bind m2 k2).
Proof.
  destruct m1 as [l1 r1], m2 as [l2 r2]. cbn [outcome log_of fst snd].
  intros [<- Hl] Hk. destruct r1 as [a | e].
  - rewrite (@bind_step _ _ (l1, Ok a) k1 l1 a eq_refl).
    rewrite (@bind_step _ _ (l2, Ok a) k2 l2 a eq_refl).
    cbn [outcome log_of fst snd]. destruct (Hk a) as [Ho Hm].
    split; [exact Ho |]. rewrite metrics_of_app, Hl, Hm. reflexivity.
  - cbn. split; [reflexivity | exact Hl].
Qed.

Lemma print_metrics_reports (ph : phase) (e : Z) (c : counters) (n : nat) :
  outcome (print_metrics ph e c n) = outcome (print_metrics ph e c n) /\
  metrics_of (log_of (print_metrics ph e c n)) = log_of (print_metrics ph e c n).
Proof.
  split; [reflexivity |].
  destruct (print_metrics_outcome ph e c n) as [(l & a & Hp) | (err & Hp)];
    rewrite Hp; reflexivity.
Qed.

Section NoMetrics.
Context `{PixelOps}.

Lemma load_frames_no_metrics (self : VideoDataset) (fs : filesystem)
    (name : cell) (range : list nat) :
  forall acc, metrics_of (log_of (load_frames self fs name range acc)) = [].
Proof.
  induction range as [| i rest IH]; intros acc; [reflexivity |].
  cbn [load_frames]. apply bind_no_metrics.
  - destruct name as [video | z | x | b]; try reflexivity.
    rewrite load_frame_log. destruct (fs (frame_path video i)); reflexivity.
  - intros f. apply IH.
Qed.

Lemma getitem_no_metrics (self : VideoDataset) (fs : filesystem) (idx : Z) :
  metrics_of (log_of (VideoDataset_getitem self fs idx)) = [].
Proof.
  unfold VideoDataset_getitem.
  apply bind_no_metrics; [reflexivity | intros r].
  apply bind_no_metrics; [reflexivity | intros k].
  apply bind_no_metrics; [apply load_frames_no_metrics | intros frames].
  apply bind_no_metrics; [reflexivity | intros clip].
  apply bind_no_metrics; [| reflexivity].
  destruct (label_is_invalid _); reflexivity.
Qed.

Lemma fetch_no_metrics (self : VideoDataset) (fs : filesystem)
    (indices : list nat) :
  metrics_of (log_of (fetch self fs indices)) = [].
Proof.
  induction indices as [| idx rest IH]; [reflexivity |].
  cbn [fetch]. apply bind_no_metrics; [apply getitem_no_metrics | intros s].
  apply bind_no_metrics; [exact IH | reflexivity].
Qed.

Lemma load_batch_no_metrics (self : VideoDataset) (fs : filesystem)
    (indices : list nat) :
  metrics_of (log_of (load_batch self fs indices)) = [].
Proof.
  unfold load_batch. apply bind_no_metrics; [apply fetch_no_metrics | intros s].
  apply bind_no_metrics; reflexivity.
Qed.

End NoMetrics.

Section MainWithLoadingFacts.
Context `{PixelOps}.
Variables (row_t loss_t net : Type).
Variable model_train : net -> tensor elt -> result (list row_t).
Variable model_eval : net -> tensor elt -> result (list row_t).
Variable criterion : list row_t -> list Z -> result loss_t.
Variable item : loss_t -> float.
Variable argmax : row_t -> Z.
Variable optimizer_step : net -> loss_t -> net.
Variable randperm : nat -> list nat.

Local Abbreviation train_loop_ := (train_loop model_train criterion item argmax optimizer_step).
Local Abbreviation val_loop_ := (val_loop model_eval criterion item argmax).
Local Abbreviation train_loop_loading_ := (train_loop_loading model_train criterion item argmax optimizer_step).
Local Abbreviation val_loop_loading_ := (val_loop_loading model_eval criterion item argmax).
Local Abbreviation train_epoch_loading_ := (train_epoch_loading model_train criterion item argmax optimizer_step randperm).
Local Abbreviation val_epoch_loading_ := (val_epoch_loading model_eval criterion item argmax randperm).
Local Abbreviation main_with_loading_ := (main_with_loading model_train model_eval criterion item argmax optimizer_step randperm).
Local Abbreviation main_ := (main model_train model_eval criterion item argmax optimizer_step).

Lemma train_loop_cons (n : net) (c : counters) (b : batch (tensor elt))
    (rest : list (batch (tensor elt))) :
  train_loop_ n c (b :: rest)
  = result_bind (train_loop_ n c [b])
      (fun nc => train_loop_ (fst nc) (snd nc) rest).
Proof.
  destruct b as [[clips |] labels]; cbn [train_loop]; [| reflexivity].
  destruct (run_batch criterion item argmax model_train n clips labels)
    as [rl |]; [| reflexivity].
  cbn [result_bind]. destruct (accumulate c (fst rl)); reflexivity.
Qed.

Lemma val_loop_cons (n : net) (c : counters) (b : batch (tensor elt))
    (rest : list (batch (tensor elt))) :
  val_loop_ n c (b :: rest)
  = result_bind (val_loop_ n c [b]) (fun c' => val_loop_ n c' rest).
Proof.
  destruct b as [[clips |] labels]; cbn [val_loop]; [| reflexivity].
  destruct (run_batch criterion item argmax model_eval n clips labels)
    as [rl |]; [| reflexivity].
  cbn [result_bind]. destruct (accumulate c (fst rl)); reflexivity.
Qed.

Lemma train_loop_loading_no_metrics (dataset : VideoDataset) (fs : filesystem)
    (batches : list (list nat)) :
  forall n c,
    metrics_of (log_of (train_loop_loading_ n c dataset fs batches)) = [].
Proof.
  induction batches as [| indices rest IH]; intros n c; [reflexivity |].
  cbn [train_loop_loading].
  apply bind_no_metrics; [apply load_batch_no_metrics | intros b].
  apply bind_no_metrics; [reflexivity | intros nc]. apply IH.
Qed.

Lemma val_loop_loading_no_metrics (dataset : VideoDataset) (fs : filesystem)
    (batches : list (list nat)) :
  forall n c,
    metrics_of (log_of (val_loop_loading_ n c dataset fs batches)) = [].
Proof.
  induction batches as [| indices rest IH]; intros n c; [reflexivity |].
  cbn [val_loop_loading].
  apply bind_no_metrics; [apply load_batch_no_metrics | intros b].
  apply bind_no_metrics; [reflexivity | intros c']. apply IH.
Qed.

(** Fetching each batch when the loop asks for it gives what the loop gives
    on the batches fetched beforehand, when they can all be fetched. *)
Lemma train_loop_loading_outcome (dataset : VideoDataset) (fs : filesystem)
    (batches : list (list nat)) :
  forall n c log bs,
    load_batches dataset fs batches = (log, Ok bs) ->
    outcome (train_loop_loading_ n c dataset fs batches) = train_loop_ n c bs.
Proof.
  induction batches as [| indices rest IH]; intros n c log bs Hrun.
  - cbn in Hrun. inversion Hrun. reflexivity.
  - cbn [load_batches] in Hrun.
    apply bind_ok_inv in Hrun as (l1 & b & l2 & Hb & Hrun & ->).
    apply bind_ok_inv in Hrun as (l3 & bs' & l4 & Hbs & Hret & ->).
    cbn in Hret. inversion Hret; subst.
    cbn [train_loop_loading]. rewrite (bind_step _ Hb). cbn [outcome snd].
    rewrite (train_loop_cons n c b bs').
    destruct (train_loop_ n c [b]) as [nc | e]; [| reflexivity].
    rewrite bind_lift. cbn [result_bind]. eapply IH. exact Hbs.
Qed.

Lemma val_loop_loading_outcome (dataset : VideoDataset) (fs : filesystem)
    (batches : list (list nat)) :
  forall n c log bs,
    load_batches dataset fs batches = (log, Ok bs) ->
    outcome (val_loop_loading_ n c dataset fs batches) = val_loop_ n c bs.
Proof.
  induction batches as [| indices rest IH]; intros n c log bs Hrun.
  - cbn in Hrun. inversion Hrun. reflexivity.
  - cbn [load_batches] in Hrun.
    apply bind_ok_inv in Hrun as (l1 & b & l2 & Hb & Hrun & ->).
    apply bind_ok_inv in Hrun as (l3 & bs' & l4 & Hbs & Hret & ->).
    cbn in Hret. inversion Hret; subst.
    cbn [val_loop_loading]. rewrite (bind_step _ Hb). cbn [outcome snd].
    rewrite (val_loop_cons n c b bs').
    destruct (val_loop_ n c [b]) as [c' | e]; [| reflexivity].
    rewrite bind_lift. cbn [result_bind]. eapply IH. exact Hbs.
Qed.

Lemma load_batches_length (dataset : VideoDataset) (fs : filesystem)
    (batches : list (list nat)) log bs :
  load_batches dataset fs batches = (log, Ok bs) ->
  List.length bs = List.length batches.
Proof.
  intros Hrun. apply load_batches_inv in Hrun.
  symmetry. exact (Forall2_length Hrun).
Qed.

Lemma loader_len_batches (loader : DataLoader) (fs : filesystem) log
    (bs : list (batch (tensor elt))) :
  1 <= dl_batch_size loader ->
  List.length (sampler_order randperm loader)
  = VideoDataset_len (dl_dataset loader) ->
  DataLoader_iter randperm loader fs = (log, Ok bs) ->
  DataLoader_len loader = List.length bs.
Proof.
  intros Hsize Horder Hiter. unfold DataLoader_iter in Hiter.
  rewrite (load_batches_length _ _ _ Hiter).
  destruct (@batch_sampler_spec (dl_batch_size loader)
              (sampler_order randperm loader) Hsize) as (_ & Hlen & _).
  rewrite Hlen, Horder. reflexivity.
Qed.

Lemma train_epoch_loading_reports (n : net) (epoch : nat) (loader : DataLoader)
    (fs : filesystem) log (bs : list (batch (tensor elt))) :
  1 <= dl_batch_size loader ->
  List.length (sampler_order randperm loader)
  = VideoDataset_len (dl_dataset loader) ->
  DataLoader_iter randperm loader fs = (log, Ok bs) ->
  outcome (train_epoch_loading_ n epoch loader fs)
  = outcome (train_epoch model_train criterion item argmax optimizer_step
               n epoch bs) /\
  metrics_of (log_of (train_epoch_loading_ n epoch loader fs))
  = log_of (train_epoch model_train criterion item argmax optimizer_step
              n epoch bs).
Proof.
  intros Hsize Horder Hiter. unfold train_epoch_loading, train_epoch.
  rewrite (loader_len_batches _ _ Hsize Horder Hiter).
  unfold DataLoader_iter in Hiter.
  apply bind_reports.
  - split.
    + rewrite (train_loop_loading_outcome _ _ _ n (0%float, 0%Z, 0%Z) Hiter).
      reflexivity.
    + rewrite train_loop_loading_no_metrics. reflexivity.
  - intros nc. apply bind_reports; [apply print_metrics_reports |].
    intros _. split; reflexivity.
Qed.

Lemma val_epoch_loading_reports (n : net) (epoch : nat) (loader : DataLoader)
    (fs : filesystem) log (bs : list (batch (tensor elt))) :
  1 <= dl_batch_size loader ->
  List.length (sampler_order randperm loader)
  = VideoDataset_len (dl_dataset loader) ->
  DataLoader_iter randperm loader fs = (log, Ok bs) ->
  outcome (val_epoch_loading_ n epoch loader fs)
  = outcome (val_epoch model_eval criterion item argmax n epoch bs) /\
  metrics_of (log_of (val_epoch_loading_ n epoch loader fs))
  = log_of (val_epoch model_eval criterion item argmax n epoch bs).
Proof.
  intros Hsize Horder Hiter. unfold val_epoch_loading, val_epoch.
  rewrite (loader_len_batches _ _ Hsize Horder Hiter).
  unfold DataLoader_iter in Hiter.
  apply bind_reports.
  - split.
    + rewrite (val_loop_loading_outcome _ _ _ n (0%float, 0%Z, 0%Z) Hiter).
      reflexivity.
    + rewrite val_loop_loading_no_metrics. reflexivity.
  - intros c. apply print_metrics_reports.
Qed.

(** When both annotation files convert, the permutation drawn for the
    training set has the length of the set, and every batch of both loaders
    can be fetched, [main] run from the files returns or raises as the two
    loops do on those batches, and the metric lines it prints are theirs:
    loading prints no metric line of its own, and [len(loader)] is the
    number of batches delivered. *)
Theorem main_with_loading_reports_the_loops
    (parse : string -> result row) (train_csv val_csv : list string)
    (fs : filesystem) (n : net)
    log0 (train_loader val_loader : DataLoader)
    log1 log2 (train_batches val_batches : list (batch (tensor elt))) :
  (forall k, List.length (randperm k) = k) ->
  load_datasets parse train_csv val_csv = (log0, Ok (train_loader, val_loader)) ->
  DataLoader_iter randperm train_loader fs = (log1, Ok train_batches) ->
  DataLoader_iter randperm val_loader fs = (log2, Ok val_batches) ->
  outcome (main_with_loading_ parse train_csv val_csv fs n)
  = outcome (main_ n train_batches val_batches) /\
  metrics_of (log_of (main_with_loading_ parse train_csv val_csv fs n))
  = log_of (main_ n train_batches val_batches).
Proof.
  intros Hperm Hload Htrain Hval.
  pose proof (load_datasets_inv _ _ _ Hload)
    as (train_rows & val_rows & _ & _ & _ & Htl & Hvl & Hm0).
  assert (Hsize1 : 1 <= dl_batch_size train_loader)
    by (rewrite Htl; cbn; unfold BATCH_SIZE; lia).
  assert (Hsize2 : 1 <= dl_batch_size val_loader)
    by (rewrite Hvl; cbn; unfold BATCH_SIZE; lia).
  assert (Horder1 : List.length (sampler_order randperm train_loader)
                    = VideoDataset_len (dl_dataset train_loader))
    by (rewrite Htl; unfold sampler_order; cbn [dl_shuffle]; apply Hperm).
  assert (Horder2 : List.length (sampler_order randperm val_loader)
                    = VideoDataset_len (dl_dataset val_loader))
    by (rewrite Hvl; unfold sampler_order; cbn [dl_shuffle]; apply length_seq).
  unfold main_with_loading, main. change (seq 0 EPOCHS) with [0].
  cbn [epochs_with_loading epochs_loop].
  rewrite (bind_step _ Hload). cbn [fst snd log_of outcome].
  rewrite metrics_of_app, Hm0. cbn [app].
  apply bind_reports.
  - exact (@train_epoch_loading_reports n 0 _ _ _ _ Hsize1 Horder1 Htrain).
  - intros n'. apply bind_reports.
    + exact (@val_epoch_loading_reports n' 0 _ _ _ _ Hsize2 Horder2 Hval).
    + intros _. split; reflexivity.
Qed.

Lemma load_datasets_empty_training (parse : string -> result row)
    (train_csv val_csv : list string) :
  data_lines train_csv = [] ->
  exists log e, load_datasets parse train_csv val_csv = (log, Raise e).
Proof.
  intros Hlines. unfold load_datasets.
  assert (Hinit : VideoDataset_init parse train_csv (Some transform)
                  = ([Print "Label range: nan to nan"],
                     Ok (mkDataset [] (Some transform)))).
  { unfold VideoDataset_init, read_csv. rewrite Hlines. reflexivity. }
  rewrite (bind_step _ Hinit).
  destruct (VideoDataset_init parse val_csv (Some transform))
    as [l [ds | e]] eqn:Hval.
  - rewrite (bind_step _ eq_refl). cbn. eauto.
  - cbn. eauto.
Qed.

(** [load_datasets] treats the two files differently when they hold no
    record: an empty training set is refused with [ValueError] by the
    shuffling loader, after both label ranges have been printed, while an
    empty validation set gives a loader of length 0. *)
Theorem load_datasets_empty_files
    (parse : string -> result row) (train_csv val_csv : list string)
    log (ds : VideoDataset) :
  (data_lines train_csv = [] ->
   VideoDataset_init parse val_csv (Some transform) = (log, Ok ds) ->
   load_datasets parse train_csv val_csv
   = (Print "Label range: nan to nan" :: log, Raise ValueError)) /\
  (data_lines val_csv = [] ->
   VideoDataset_init parse train_csv (Some transform) = (log, Ok ds) ->
   annotations ds <> [] ->
   exists train_loader val_loader,
     load_datasets parse train_csv val_csv
     = (log ++ [Print "Label range: nan to nan"],
        Ok (train_loader, val_loader)) /\
     DataLoader_len val_loader = 0 /\
     DataLoader_iter randperm val_loader = fun _ => ([], Ok [])).
Proof.
  split.
  - intros Hlines Hval. unfold load_datasets.
    assert (Hinit : VideoDataset_init parse train_csv (Some transform)
                    = ([Print "Label range: nan to nan"],
                       Ok (mkDataset [] (Some transform)))).
    { unfold VideoDataset_init, read_csv. rewrite Hlines. reflexivity. }
    rewrite (bind_step _ Hinit), (bind_step _ Hval). cbn.
    rewrite app_nil_r. reflexivity.
  - intros Hlines Htrain Hrows. unfold load_datasets.
    assert (Hinit : VideoDataset_init parse val_csv (Some transform)
                    = ([Print "Label range: nan to nan"],
                       Ok (mkDataset [] (Some transform)))).
    { unfold VideoDataset_init, read_csv. rewrite Hlines. reflexivity. }
    rewrite (bind_step _ Htrain), (bind_step _ Hinit).
    unfold DataLoader_init, VideoDataset_len.
    destruct (annotations ds) as [| r rows] eqn:Hds; [contradiction |].
    cbn. eexists _, _. split; [reflexivity |]. split; reflexivity.
Qed.

(** [main] cannot complete when one of the two annotation files holds no
    record: it raises, on an empty training file while the loaders are
    built, and on an empty validation file at the latest when the
    validation loss is divided by a loader length of 0. *)
Theorem main_needs_records_in_both_files
    (parse : string -> result row) (train_csv val_csv : list string)
    (fs : filesystem) (n : net) :
  data_lines train_csv = [] \/ data_lines val_csv = [] ->
  exists log e, main_with_loading_ parse train_csv val_csv fs n = (log, Raise e).
Proof.
  intros [Hlines | Hlines]; unfold main_with_loading.
  - destruct (load_datasets_empty_training parse train_csv val_csv Hlines)
      as (log & e & Hload).
    rewrite (bind_raise _ Hload). eauto.
  - destruct (load_datasets parse train_csv val_csv)
      as [l0 [[train_loader val_loader] | e]] eqn:Hload;
      [| rewrite (bind_raise _ eq_refl); cbn [fst snd log_of outcome]; eauto].
    pose proof (load_datasets_inv _ _ _ Hload)
      as (train_rows & val_rows & _ & Hval & _ & _ & Hvl & _).
    unfold read_csv in Hval. rewrite Hlines in Hval. cbn in Hval.
    inversion Hval; subst val_rows. clear Hval.
    rewrite (bind_step _ eq_refl). cbn [fst snd log_of outcome].
    change (seq 0 EPOCHS) with [0]. cbn [epochs_with_loading].
    destruct (train_epoch_loading_ n 0 train_loader fs) as [l1 [n' | e]];
      [| rewrite (bind_raise _ eq_refl); cbn [fst snd log_of outcome]; eauto].
    rewrite (bind_step _ eq_refl). cbn [fst snd log_of outcome].
    assert (Hv : val_epoch_loading_ n' 0 val_loader fs
                 = ([], Raise ZeroDivisionError)) by (rewrite Hvl; reflexivity).
    rewrite (bind_raise _ Hv). cbn [fst snd log_of outcome]. eauto.
Qed.

End MainWithLoadingFacts.


(** * The further properties on the sample data *)

Lemma getitem_index_out_of_range_witness :
  VideoDataset_getitem ds_module fs_full 4 = ([], Raise IndexError) /\
  VideoDataset_getitem ds_module fs_full (-5) = ([], Raise IndexError).
Proof.
  split; apply getitem_index_out_of_range;
    [right | left]; vm_compute; [discriminate | reflexivity].
Defined.

Lemma getitem_negative_index_witness :
  outcome (VideoDataset_getitem ds_module fs_empty (-1))
  = outcome (VideoDataset_getitem ds_module fs_empty 3) /\
  probed (log_of (VideoDataset_getitem ds_module fs_empty (-1)))
  = probed (log_of (VideoDataset_getitem ds_module fs_empty 3)).
Proof.
  apply (getitem_negative_index ds_module fs_empty (idx := -1)).
  split; vm_compute; [discriminate | reflexivity].
Defined.

Lemma getitem_rejects_nan_and_infinite_keyframe_witness :
  VideoDataset_getitem ds_keyframes fs_full 0 = ([], Raise ValueError) /\
  VideoDataset_getitem ds_keyframes fs_full 1 = ([], Raise OverflowError).
Proof.
  split.
  - apply (proj1 (getitem_rejects_nan_and_infinite_keyframe ds_keyframes fs_full 0
                    (r := row_a_nan) eq_refl)). reflexivity.
  - apply (proj2 (getitem_rejects_nan_and_infinite_keyframe ds_keyframes fs_full 1
                    (r := row_a_inf) eq_refl)). reflexivity.
Defined.

Lemma getitem_stops_at_first_bad_frame_witness :
  exists log,
    VideoDataset_getitem ds_module fs_third_is_directory 0
    = (log, Raise RuntimeError) /\
    probed log = ["data/raw_frames/clip_a/img_00001.jpg";
                  "data/raw_frames/clip_a/img_00002.jpg";
                  "data/raw_frames/clip_a/img_00003.jpg"]%string /\
    printed log = [].
Proof.
  apply (getitem_stops_at_first_bad_frame ds_module fs_third_is_directory 0
           (r := row_a) (video := "clip_a") (k := 2) (e := RuntimeError)).
  - reflexivity.
  - reflexivity.
  - reflexivity.
  - lia.
  - intros j Hj. destruct j as [| [| j]]; [vm_compute; reflexivity .. | lia].
  - vm_compute. reflexivity.
Defined.

Lemma transform_accepts_rgb_only_witness :
  (exists t',
     transform (tensor_map (@unit_of_byte ZPixels) (decode (rgb_image 100 100)))
     = Ok t' /\ shape t' = [3; 224; 224]) /\
  transform (tensor_map (@unit_of_byte ZPixels) (decode (gray_image 64 48)))
  = Raise RuntimeError.
Proof.
  split.
  - destruct (transform_accepts_rgb_only
                (tensor_map (@unit_of_byte ZPixels) (decode (rgb_image 100 100)))
                (c := 3) (h := 100) (w := 100) eq_refl
                ltac:(lia) ltac:(lia) ltac:(lia)) as [Hrgb _].
    destruct (Hrgb eq_refl) as (t' & Ht & Hs & _). exists t'. auto.
  - apply (proj2 (transform_accepts_rgb_only
                    (tensor_map (@unit_of_byte ZPixels) (decode (gray_image 64 48)))
                    (c := 1) (h := 64) (w := 48) eq_refl
                    ltac:(lia) ltac:(lia) ltac:(lia))).
    discriminate.
Defined.

Lemma getitem_module_returns_iff_witness :
  is_ok (outcome (VideoDataset_getitem (mkDataset sample_rows (Some transform))
                    fs_second_missing 0)) = true /\
  ((forall i, i < 450 -> usable fs_second_missing (frame_path "clip_a" i)) \/
   (exists n, n <> 1 /\
      forall i, i < 450 ->
        exists gif,
          fs_second_missing (frame_path "clip_a" i) = Some (AnimatedFile gif) /\
          n_frames gif = n)).
Proof.
  assert (Hok : is_ok (outcome (VideoDataset_getitem
                                  (mkDataset sample_rows (Some transform))
                                  fs_second_missing 0)) = true)
    by (vm_compute; reflexivity).
  split; [exact Hok |].
  exact (proj1 (getitem_module_returns_iff sample_rows fs_second_missing 0
                  (r := row_a) (video := "clip_a") eq_refl eq_refl eq_refl) Hok).
Defined.

Lemma plain_clip_holds_scaled_pixels_witness :
  exists log clip label,
    VideoDataset_getitem ds_plain fs_full 0 = (log, Ok (clip, label)) /\
    shape clip = [450; 3; 100; 100] /\
    at_index clip [5; 1; 2; 3] = 6%Z.
Proof.
  destruct (run_returns (VideoDataset_getitem ds_plain fs_full 0))
    as (log & [clip label] & Hrun); [vm_compute; reflexivity |].
  destruct (plain_clip_holds_scaled_pixels sample_rows fs_full 0 (r := row_a)
              (video := "clip_a") (i := 5) Hrun eq_refl eq_refl ltac:(lia))
    as [Hstill _].
  destruct (Hstill (rgb_image 100 100) eq_refl) as [Hshape Hat].
  exists log, clip, label. split; [exact Hrun |]. split; [exact Hshape |].
  rewrite Hat. reflexivity.
Defined.

Lemma no_frames_give_a_zero_clip_witness :
  exists log clip,
    VideoDataset_getitem ds_plain fs_empty 0 = (log, Ok (clip, 2%Z)) /\
    shape clip = [450; 3; 224; 224] /\
    at_index clip [449; 2; 223; 223] = 0%Z.
Proof.
  destruct (no_frames_give_a_zero_clip ds_plain fs_empty 0 (r := row_a)
              (video := "clip_a") eq_refl eq_refl eq_refl (fun _ _ => eq_refl))
    as (log & clip & Hrun & Hshape & Hzero & _).
  exists log, clip. split; [exact Hrun |]. split; [exact Hshape |].
  apply Hzero. lia.
Defined.

Lemma frame_path_plain_witness :
  frame_path "clip_a" 7 = "data/raw_frames/clip_a/img_00008.jpg"%string.
Proof.
  exact (@frame_path_plain "clip_a" 7 ltac:(discriminate) eq_refl eq_refl).
Defined.

Lemma getitem_probes_at_most_450_witness :
  List.length (probed (log_of (VideoDataset_getitem ds_module
                                 fs_third_is_directory 0))) <= 450.
Proof.
  destruct (getitem_probes_at_most_450 ds_module fs_third_is_directory 0
              (r := row_a) eq_refl) as (_ & _ & Hle).
  exact Hle.
Defined.

Lemma getitem_rejects_non_string_video_name_witness :
  VideoDataset_getitem ds_numeric fs_full 0 = ([], Raise TypeError).
Proof.
  apply (getitem_rejects_non_string_video_name ds_numeric fs_full 0
           (r := row_numeric)); [reflexivity | reflexivity |].
  intros video Hname. discriminate Hname.
Defined.

Lemma sample_init :
  VideoDataset_init sample_parse sample_file (Some transform)
  = ([Print "Label range: 4 to 20"], Ok ds_small).
Proof. reflexivity. Qed.

Lemma init_prints_label_range_witness :
  exists lo hi,
    [Print "Label range: 4 to 20"]
    = [Print ("Label range: " ++ str_of_int lo ++ " to " ++ str_of_int hi)%string] /\
    (forall r, In r (annotations ds_small) -> (lo <= behavior_category r <= hi)%Z).
Proof.
  destruct (init_prints_label_range sample_parse sample_file (Some transform)
              sample_init ltac:(discriminate))
    as (lo & hi & Hlog & Hbounds & _).
  exists lo, hi. split; assumption.
Defined.

Lemma init_raises_on_bad_record_witness :
  exists l e,
    In l (data_lines bad_file) /\ sample_parse l = Raise e /\
    VideoDataset_init (H := ZPixels) sample_parse bad_file None = ([], Raise e).
Proof.
  apply (@init_raises_on_bad_record ZPixels sample_parse bad_file None).
  apply Exists_cons_tl. apply Exists_cons_hd. reflexivity.
Defined.

Lemma init_without_records_witness :
  VideoDataset_init (H := ZPixels) sample_parse header_only_file None
  = ([Print "Label range: nan to nan"], Ok (mkDataset [] None)) /\
  VideoDataset_getitem (H := ZPixels) (mkDataset [] None) fs_full 0
  = ([], Raise IndexError).
Proof.
  destruct (init_without_records (H := ZPixels) sample_parse header_only_file None
              eq_refl) as (Hinit & _ & Hitem).
  split; [exact Hinit | apply Hitem].
Defined.

Lemma I3D_forward_rejects_other_ranks_witness :
  I3D_forward (H := ZPixels) toy_resnet_forward
    (fst (I3D_init (H := ZPixels) toy_draw toy_r3d_18 NUM_CLASSES 0)) toy_frame
  = Raise RuntimeError.
Proof.
  apply (I3D_forward_rejects_other_ranks (H := ZPixels)). discriminate.
Defined.

Lemma permute_twice_is_identity_witness :
  exists x' x'',
    permute [0; 2; 1; 3; 4] toy_clips = Ok x' /\
    permute [0; 2; 1; 3; 4] x' = Ok x'' /\
    @shape Z x'' = [2; 4; 3; 8; 8] /\
    @at_index Z x'' [1; 3; 2; 7; 5] = 13275%Z.
Proof.
  destruct (permute_twice_is_identity (H := ZPixels) toy_clips
              (b := 2) (f := 4) (c := 3) (h := 8) (w := 8) eq_refl)
    as (x' & x'' & H1 & H2 & Hs & Hat).
  exists x', x''. split; [exact H1 |]. split; [exact H2 |].
  split; [exact Hs |]. rewrite Hat. reflexivity.
Defined.

Lemma I3D_init_ignores_pretrained_head_witness :
  I3D_init (H := ZPixels) toy_draw toy_r3d_18 NUM_CLASSES 0
  = I3D_init (H := ZPixels) toy_draw toy_r3d_18' NUM_CLASSES 0.
Proof.
  apply (I3D_init_ignores_pretrained_head (H := ZPixels)); reflexivity.
Defined.

Lemma total_counts_the_labels_seen_witness :
  exists n' running_loss correct total,
    train_loop toy_forward toy_criterion toy_item toy_argmax toy_step
      0%Z (0%float, 0%Z, 0%Z) toy_loader
    = Ok (n', (running_loss, correct, total)) /\
    total = 5%Z.
Proof.
  destruct (train_loop toy_forward toy_criterion toy_item toy_argmax toy_step
              0%Z (0%float, 0%Z, 0%Z) toy_loader)
    as [[n' [[l k] t]] | e] eqn:Hloop; [| vm_compute in Hloop; discriminate].
  exists n', l, k, t. split; [reflexivity |].
  destruct (total_counts_the_labels_seen toy_forward toy_forward toy_criterion
              toy_item toy_argmax toy_step 0%Z toy_loader) as [Htrain _].
  destruct (Htrain _ _ _ _ Hloop) as [Ht _]. rewrite Ht. reflexivity.
Defined.

Lemma epoch_without_samples_raises_witness :
  (exists e,
     train_epoch toy_forward toy_criterion toy_item toy_argmax toy_step
       0%Z 0 toy_loader_none = ([], Raise e)) /\
  (exists e,
     val_epoch toy_forward toy_criterion toy_item toy_argmax
       0%Z 0 toy_loader_none = ([], Raise e)).
Proof.
  apply (epoch_without_samples_raises toy_forward toy_forward toy_criterion
           toy_item toy_argmax toy_step 0%Z 0 toy_loader_none).
  reflexivity.
Defined.

Lemma loader_batches_follow_the_order_witness :
  exists log batches,
    DataLoader_iter identity_perm small_loader fs_empty = (log, Ok batches) /\
    List.length batches = 2 /\
    labels_seen batches = [2; 5; 18]%Z.
Proof.
  destruct (run_returns (DataLoader_iter identity_perm small_loader fs_empty))
    as (log & batches & Hrun); [vm_compute; reflexivity |].
  destruct (loader_batches_follow_the_order identity_perm small_loader fs_empty
              ltac:(cbn; lia) Hrun) as (_ & Hlen & _ & Hlabels).
  exists log, batches. split; [exact Hrun |]. split.
  - rewrite Hlen by reflexivity. reflexivity.
  - assert (Hl : result_map (@labels_seen (tensor Z))
                   (outcome (DataLoader_iter identity_perm small_loader fs_empty))
                 = Ok [2; 5; 18]%Z) by (vm_compute; reflexivity).
    rewrite Hrun in Hl. cbn [outcome snd result_map] in Hl.
    inversion Hl. reflexivity.
Defined.

Lemma sample_load_datasets :
  load_datasets sample_parse sample_file sample_file
  = ([Print "Label range: 4 to 20"; Print "Label range: 4 to 20"],
     Ok (mkDataLoader ds_small BATCH_SIZE true,
         mkDataLoader ds_small BATCH_SIZE false)).
Proof. reflexivity. Qed.

Lemma loaded_batches_fit_the_network_witness :
  exists log batches,
    DataLoader_iter identity_perm (mkDataLoader ds_small BATCH_SIZE false) fs_empty
    = (log, Ok batches) /\
    Forall (fun b => exists clips,
              fst b = Some clips /\
              @shape Z clips = [List.length (snd b); 450; 3; 224; 224]) batches.
Proof.
  destruct (run_returns (DataLoader_iter identity_perm
                           (mkDataLoader ds_small BATCH_SIZE false) fs_empty))
    as (log & batches & Hrun); [vm_compute; reflexivity |].
  exists log, batches. split; [exact Hrun |].
  pose proof (@loaded_batches_fit_the_network ZPixels sample_parse sample_file
                sample_file identity_perm fs_empty _ _ _ _ _ _ _
                toy_resnet_forward
                (fst (I3D_init (H := ZPixels) toy_draw toy_r3d_18 NUM_CLASSES 0))
                sample_load_datasets (or_intror eq_refl)
                ltac:(intros p gif Hfile; discriminate Hfile) Hrun) as Hall.
  eapply Forall_impl; [| exact Hall].
  intros b (clips & x & Hb & Hshape & _). exists clips. auto.
Defined.

Lemma main_with_loading_reports_the_loops_witness :
  exists train_batches val_batches,
    outcome (main_with_loading (H := ZPixels) toy_tensor_forward toy_tensor_forward
               toy_criterion toy_item toy_argmax toy_step identity_perm
               sample_parse sample_file sample_file fs_empty 0%Z)
    = outcome (main toy_tensor_forward toy_tensor_forward toy_criterion toy_item
                 toy_argmax toy_step 0%Z train_batches val_batches) /\
    metrics_of (log_of (main_with_loading (H := ZPixels) toy_tensor_forward
                          toy_tensor_forward toy_criterion toy_item toy_argmax
                          toy_step identity_perm sample_parse sample_file
                          sample_file fs_empty 0%Z))
    = log_of (main toy_tensor_forward toy_tensor_forward toy_criterion toy_item
                toy_argmax toy_step 0%Z train_batches val_batches).
Proof.
  destruct (run_returns (DataLoader_iter identity_perm
                           (mkDataLoader ds_small BATCH_SIZE true) fs_empty))
    as (log1 & tb & Htrain); [vm_compute; reflexivity |].
  destruct (run_returns (DataLoader_iter identity_perm
                           (mkDataLoader ds_small BATCH_SIZE false) fs_empty))
    as (log2 & vb & Hval); [vm_compute; reflexivity |].
  exists tb, vb.
  exact (@main_with_loading_reports_the_loops ZPixels _ _ _
           toy_tensor_forward toy_tensor_forward toy_criterion toy_item
           toy_argmax toy_step identity_perm sample_parse sample_file sample_file
           fs_empty 0%Z _ _ _ _ _ _ _ (fun k => length_seq k 0)
           sample_load_datasets Htrain Hval).
Defined.

Lemma load_datasets_empty_files_witness :
  load_datasets (H := ZPixels) sample_parse header_only_file sample_file
  = ([Print "Label range: nan to nan"; Print "Label range: 4 to 20"],
     Raise ValueError) /\
  exists train_loader val_loader,
    load_datasets (H := ZPixels) sample_parse sample_file header_only_file
    = ([Print "Label range: 4 to 20"; Print "Label range: nan to nan"],
       Ok (train_loader, val_loader)) /\
    DataLoader_len val_loader = 0.
Proof.
  split.
  - exact (proj1 (@load_datasets_empty_files ZPixels identity_perm sample_parse
                    header_only_file sample_file _ _) eq_refl sample_init).
  - destruct (proj2 (@load_datasets_empty_files ZPixels identity_perm sample_parse
                       sample_file header_only_file _ _)
                eq_refl sample_init ltac:(discriminate))
      as (tl & vl & Hload & Hlen & _).
    exists tl, vl. split; [exact Hload | exact Hlen].
Defined.

Lemma main_needs_records_in_both_files_witness :
  exists log e,
    main_with_loading (H := ZPixels) toy_tensor_forward toy_tensor_forward
      toy_criterion toy_item toy_argmax toy_step identity_perm
      sample_parse sample_file header_only_file fs_empty 0%Z
    = (log, Raise e).
Proof.
  apply (@main_needs_records_in_both_files ZPixels _ _ _
           toy_tensor_forward toy_tensor_forward toy_criterion toy_item
           toy_argmax toy_step identity_perm sample_parse sample_file
           header_only_file fs_empty 0%Z).
  right. reflexivity.
Defined.
